(** * TaskForge: a shallow embedding of [taskforge.py]

    TaskForge keeps a list of tasks in one JSON file ([tarefas.json]).
    Every command loads the whole list, changes it in memory and writes the
    whole list back.  This file embeds that load / change / save cycle and
    proves properties of it.

    Modelling decisions.

    - A task is a Python [dict] read from JSON: a finite map from field
      names to JSON scalars ([None], booleans, integers, strings).  Nested
      arrays or objects as field values and non-integer numbers are not part
      of the model; the program never writes them.
    - The file is missing, or holds text that [json.load] rejects, or holds
      an array of objects.  A file that parses to anything else is not part
      of the model; the program never writes one.
    - Python text is a [string] holding UTF-8.  The functions of [str] and
      of [datetime] whose result depends on the Unicode tables or on the
      calendar are not code of this repository; they are the fields of the
      classes [PyTexto] and [PyDatas], and every theorem about the program
      holds for whatever functions implement them.  A small instance
      ([RefTexto], [RefDatas]) serves to run the program on concrete inputs.
    - Time stamps are [datetime] values.  Those the program itself creates
      ([datetime.now()], [strptime] without a zone) carry no UTC offset; a
      stored deadline may carry one, since [fromisoformat] accepts it.
      Python refuses to compare a value with an offset with one without:
      [<=] raises [TypeError], and [dt_le] returns [None] there.
    - The program talks to a terminal and to one file.  Both are fields of
      the record [mundo]; a command is a function from [mundo] to a result
      (a value or a raised exception) and the [mundo] it leaves behind.
      Values chosen by the environment ([datetime.now()], [uuid4()], the
      seconds measured by the stopwatch) are arguments of the command.
      Failures of the operating system while reading or writing the file are
      not modelled.
    - The lock of [salvar_tarefas] and the background thread are not
      modelled: commands run one after the other.  A removal by the
      background sweep between two steps of a command is modelled by running
      the second step on the changed file. *)

From Stdlib Require Import ZArith Lia.
From stdpp Require Import gmap strings list pretty.

Open Scope string_scope.
Open Scope Z_scope.
Open Scope list_scope.

(** ** Python values *)

Inductive valor :=
| VNone
| VBool (b : bool)
| VInt (n : Z)
| VStr (s : string).

#[global] Instance valor_eq_dec : EqDecision valor.
Proof. solve_decision. Defined.

(** A task is a [dict] with string keys. *)
Abbreviation tarefa := (gmap string valor).

(** [bool(v)]: the truth value Python gives to [v] in [if v] and [not v]. *)
Definition truthy (v : valor) : bool :=
  match v with
  | VNone => false
  | VBool b => b
  | VInt n => negb (n =? 0)
  | VStr s => negb (bool_decide (s = ""))
  end.

(** The integer a value stands for in arithmetic and in [==]; [bool] is a
    subclass of [int] in Python. *)
Definition num (v : valor) : option Z :=
  match v with
  | VBool b => Some (if b then 1 else 0)
  | VInt n => Some n
  | _ => None
  end.

(** [a == b] *)
Definition py_eq (a b : valor) : bool :=
  match a, b with
  | VNone, VNone => true
  | VStr x, VStr y => bool_decide (x = y)
  | _, _ =>
      match num a, num b with
      | Some x, Some y => x =? y
      | _, _ => false
      end
  end.

(** [str(v)], as used by f-strings. *)
Definition py_str (v : valor) : string :=
  match v with
  | VNone => "None"
  | VBool true => "True"
  | VBool false => "False"
  | VInt n => pretty n
  | VStr s => s
  end.

(** [d.get(k, padrao)] *)
Definition get_ou (t : tarefa) (k : string) (padrao : valor) : valor :=
  default padrao (t !! k).

(** [d.get(k)], that is [d.get(k, None)] *)
Definition get (t : tarefa) (k : string) : valor := get_ou t k VNone.

(** ** Exceptions, results and the world *)

Inductive excecao :=
| EOFError
| KeyError (k : string)
| TypeError
| AttributeError
| ValueError.

Inductive res (A : Type) :=
| Ok (a : A)
| Raise (e : excecao).
Arguments Ok {A} a.
Arguments Raise {A} e.

(** The backing file [tarefas.json]: missing, present with a content that
    [json.load] rejects, or present with an array of objects. *)
Inductive arquivo :=
| Ausente
| Ilegivel
| Documento (ts : list tarefa).

Record mundo := Mundo {
  disco : arquivo;          (* tarefas.json *)
  entrada : list string;    (* lines still to be read by input() *)
  saida : list string;      (* prompts and printed lines, oldest first *)
  gravacoes : nat           (* number of calls of salvar_tarefas so far *)
}.

Definition M (A : Type) : Type := mundo -> res A * mundo.

Definition ret {A} (a : A) : M A := fun w => (Ok a, w).

Definition bind {A B} (c : M A) (k : A -> M B) : M B :=
  fun w =>
    match c w with
    | (Ok a, w') => k a w'
    | (Raise e, w') => (Raise e, w')
    end.

Notation "'seja' x <- c 'em' k" := (bind c (fun x => k))
  (at level 10, x name, c at level 100, k at level 200).
Notation "c ;;; k" := (bind c (fun _ => k))
  (at level 100, k at level 200, right associativity).

(** Sequencing of pure computations that may raise. *)
Definition ligar {A B} (r : res A) (k : A -> res B) : res B :=
  match r with
  | Ok a => k a
  | Raise e => Raise e
  end.

Notation "'tente' x <- r 'em' k" := (ligar r (fun x => k))
  (at level 10, x name, r at level 100, k at level 200).

(** A pure computation that may raise, run inside [M]. *)
Definition puro {A} (r : res A) : M A := fun w => (r, w).

(** [print(s)] *)
Definition print (s : string) : M unit :=
  fun w => (Ok tt, Mundo (disco w) (entrada w) (saida w ++ [s]) (gravacoes w)).

(** [input()]: reads one line; [EOFError] when the input is exhausted. *)
Definition ler : M string :=
  fun w =>
    match entrada w with
    | [] => (Raise EOFError, w)
    | x :: resto => (Ok x, Mundo (disco w) resto (saida w) (gravacoes w))
    end.

(** [input(prompt)]: writes the prompt, then reads one line. *)
Definition input (prompt : string) : M string := print prompt;;; ler.

(** [for x in l: f(x)] *)
Fixpoint para_cada {A} (f : A -> M unit) (l : list A) : M unit :=
  match l with
  | [] => ret tt
  | x :: resto => f x;;; para_cada f resto
  end.

(** [d[k]] *)
Definition getitem (t : tarefa) (k : string) : res valor :=
  match t !! k with
  | Some v => Ok v
  | None => Raise (KeyError k)
  end.

(** ** Persistence *)

(** What [json.load] followed by the migration loop makes of a file. *)
Definition conteudo (a : arquivo) : list tarefa :=
  match a with
  | Ausente => []
  | Ilegivel => []
  | Documento ts => (λ t : tarefa, delete "tipo" t) <$> ts
  end.

Definition carregar_tarefas : M (list tarefa) :=
  fun w => (Ok (conteudo (disco w)), w).

Definition salvar_tarefas (tarefas : list tarefa) : M unit :=
  fun w => (Ok tt, Mundo (Documento tarefas) (entrada w) (saida w) (S (gravacoes w))).

(** The field names of the persisted schema. *)
Definition campos_esquema : list string :=
  ["id"; "titulo"; "descricao"; "quantidade"; "prazo"; "concluida";
   "criado_em"; "ultimo_tempo_seg"; "total_tempo_seg"].

(** The collection one gets back by loading right after [w]. *)
Definition colecao (w : mundo) : list tarefa := conteudo (disco w).

(** ** Text and dates: the library functions the program calls *)

(** The methods of [str] and the built-in [int] whose result depends on the
    Unicode character tables. *)
Class PyTexto := {
  strip : string -> string;        (* s.strip() *)
  lower : string -> string;        (* s.lower() *)
  isdigit : string -> bool;        (* s.isdigit() *)
  int_de : string -> option Z      (* int(s); None stands for ValueError *)
}.

(** [datetime], for the fixed format [DATE_FMT]. *)
Class PyDatas := {
  datetime : Type;
  dt_le : datetime -> datetime -> option bool; (* a <= b; None stands for the
                                                  TypeError raised when one
                                                  of the two carries a UTC
                                                  offset and the other none *)
  strptime_fmt : string -> option datetime;    (* datetime.strptime(s, DATE_FMT);
                                                  None stands for ValueError *)
  fromisoformat : string -> option datetime;   (* None stands for an exception *)
  isoformat : datetime -> string;              (* d.isoformat() *)
  strftime_fmt : datetime -> string            (* d.strftime(DATE_FMT) *)
}.

Definition DATE_FMT : string := "%Y-%m-%d %H:%M".

(** [q in s] for two strings. *)
Fixpoint contido (q s : string) : bool :=
  String.prefix q s ||
  match s with
  | EmptyString => false
  | String _ s' => contido q s'
  end.

(** A byte [10xxxxxx] continues a character of UTF-8 text. *)
Definition continuacao (c : Ascii.ascii) : bool :=
  let n := Ascii.nat_of_ascii c in
  (128 <=? n)%nat && (n <? 192)%nat.

(** [s[:n]]: the first [n] characters of UTF-8 text. *)
Fixpoint fatia (n : nat) (s : string) : string :=
  match s with
  | EmptyString => EmptyString
  | String c s' =>
      if continuacao c then String c (fatia n s')
      else
        match n with
        | O => EmptyString
        | S m => String c (fatia m s')
        end
  end.

(** [q in v] for a value [v] of the model: a string is searched; on [None],
    a boolean or an integer [in] raises [TypeError].  (On a JSON array or
    object, which are not values of the model, [in] would return.) *)
Definition contem (q : string) (v : valor) : res bool :=
  match v with
  | VStr s => Ok (contido q s)
  | _ => Raise TypeError
  end.

(** [v[:8]] *)
Definition fatia8 (v : valor) : res valor :=
  match v with
  | VStr s => Ok (VStr (fatia 8 s))
  | _ => Raise TypeError
  end.

(** [f"[{t['id'][:8]}] {t['titulo']}"] *)
Definition rotulo (t : tarefa) : res string :=
  tente i <- getitem t "id" em
  tente p <- fatia8 i em
  tente tit <- getitem t "titulo" em
  Ok ("[" +:+ py_str p +:+ "] " +:+ py_str tit).

(** [v + dur] for an integer [dur] *)
Definition somar (v : valor) (dur : Z) : res valor :=
  match num v with
  | Some a => Ok (VInt (a + dur))
  | None => Raise TypeError
  end.

(** [resposta in ("s", "sim")] *)
Definition afirmativa (resposta : string) : bool :=
  bool_decide (resposta = "s") || bool_decide (resposta = "sim").

(** [not t] for the result of [selecionar_tarefa]: [None] or an empty
    [dict]. *)
Definition nada (sel : option tarefa) : bool :=
  match sel with
  | None => true
  | Some t => bool_decide (t = ∅)
  end.

(** ** The program *)

Section Programa.
Context `{PT : PyTexto} `{PD : PyDatas}.

(** *** Utilities (lines 63-80) *)

Definition parse_prazo (s : string) : option datetime :=
  if bool_decide (s = "") then None else strptime_fmt (strip s).

(** [format_prazo(dt)] for a field value [dt]. *)
Definition format_prazo (dt : valor) : res string :=
  if negb (truthy dt) then Ok "—"
  else
    match dt with
    | VStr s =>
        match fromisoformat s with
        | Some d => Ok (strftime_fmt d)
        | None => Ok s
        end
    | _ => Raise AttributeError    (* dt.strftime on a number *)
    end.

(** *** The expiry sweep (lines 114-138) *)

(** Lines 122-127: the deadline of a task, [None] when the field is
    missing, falsy, not a string or rejected by [fromisoformat]. *)
Definition prazo_de (t : tarefa) : option datetime :=
  if truthy (get t "prazo") then
    match get t "prazo" with
    | VStr s => fromisoformat s
    | _ => None
    end
  else None.

(** Line 129: [prazo and prazo <= agora_dt].  The comparison stands
    outside the [try] of lines 124-127: its [TypeError] is not caught. *)
Definition vencida (agora_dt : datetime) (t : tarefa) : res bool :=
  match prazo_de t with
  | Some prazo =>
      match dt_le prazo agora_dt with
      | Some b => Ok b
      | None => Raise TypeError
      end
  | None => Ok false
  end.

(** Lines 118-132: the loop that fills [restantes] and [removidas], given
    the two lists as filled so far.  It stops at the first task whose
    comparison raises. *)
Fixpoint separar_desde (agora_dt : datetime) (restantes removidas : list tarefa)
    (tarefas : list tarefa) : res (list tarefa * list tarefa) :=
  match tarefas with
  | [] => Ok (restantes, removidas)
  | t :: resto =>
      tente v <- vencida agora_dt t em
      if v then separar_desde agora_dt restantes (removidas ++ [t]) resto
      else separar_desde agora_dt (restantes ++ [t]) removidas resto
  end.

Definition separar (agora_dt : datetime) (tarefas : list tarefa)
  : res (list tarefa * list tarefa) :=
  separar_desde agora_dt [] [] tarefas.

Definition avisar_remocao (r : tarefa) : M unit :=
  seja s <- puro (rotulo r) em
  print ("[AUTO] Removida por prazo vencido: " +:+ s).

Definition remover_vencidas (notificar : bool) (agora_dt : datetime) : M unit :=
  seja tarefas <- carregar_tarefas em
  seja listas <- puro (separar agora_dt tarefas) em
  let '(restantes, removidas) := listas in
  match removidas with
  | [] => ret tt
  | _ :: _ =>
      salvar_tarefas restantes;;;
      if notificar then para_cada avisar_remocao removidas else ret tt
  end.

(** *** Create (lines 141-174) *)

(** [int(s) if s.isdigit() else None] *)
Definition quantidade_de (s : string) : res valor :=
  if isdigit s then
    match int_de s with
    | Some n => Ok (VInt n)
    | None => Raise ValueError
    end
  else Ok VNone.

(** Lines 158-168 *)
Definition nova_tarefa (novo_id titulo descricao : string) (quantidade : valor)
    (prazo : option datetime) (agora_dt : datetime) : tarefa :=
  <["total_tempo_seg" := VInt 0]>
  (<["ultimo_tempo_seg" := VInt 0]>
  (<["criado_em" := VStr (isoformat agora_dt)]>
  (<["concluida" := VBool false]>
  (<["prazo" := match prazo with
                | Some p => VStr (isoformat p)
                | None => VNone
                end]>
  (<["quantidade" := quantidade]>
  (<["descricao" := VStr descricao]>
  (<["titulo" := VStr titulo]>
  (<["id" := VStr novo_id]> ∅)))))))).

Definition criar_tarefa_interativa (novo_id : string) (agora_dt : datetime)
  : M unit :=
  seja x <- input "Título: " em
  let titulo := strip x in
  if bool_decide (titulo = "") then print "Título é obrigatório."
  else
    seja x <- input "Descrição (opcional): " em
    let descricao := strip x in
    seja x <- input "Quantidade (opcional): " em
    let qtd_raw := strip x in
    seja quantidade <- puro (quantidade_de qtd_raw) em
    seja x <- input ("Prazo (" +:+ DATE_FMT +:+ ") ou Enter para nenhum: ") em
    let prazo_raw := strip x in
    let prazo := parse_prazo prazo_raw in
    if negb (bool_decide (prazo_raw = "")) && negb (bool_decide (is_Some prazo))
    then print "Formato de data inválido."
    else
      let tarefa := nova_tarefa novo_id titulo descricao quantidade prazo agora_dt in
      seja tarefas <- carregar_tarefas em
      salvar_tarefas (tarefas ++ [tarefa]);;;
      print ("Tarefa criada: " +:+ fatia 8 novo_id).

(** *** Selection (lines 205-227) *)

(** Line 213: [q in t["id"] or q in t["titulo"].lower()] *)
Definition casa (q : string) (t : tarefa) : res bool :=
  tente i <- getitem t "id" em
  tente b <- contem q i em
  if b then Ok true
  else
    tente tit <- getitem t "titulo" em
    match tit with
    | VStr s => Ok (contido q (lower s))
    | _ => Raise AttributeError
    end.

(** Lines 211-214: the comprehension. *)
Fixpoint filtrar (q : string) (tarefas : list tarefa) : res (list tarefa) :=
  match tarefas with
  | [] => Ok []
  | t :: resto =>
      tente b <- casa q t em
      tente r <- filtrar q resto em
      Ok (if b then t :: r else r)
  end.

(** Lines 223-224: the numbered list of candidates, counting from [i]. *)
Fixpoint enumerar (i : Z) (encontrados : list tarefa) : M unit :=
  match encontrados with
  | [] => ret tt
  | t :: resto =>
      seja s <- puro (rotulo t) em
      print (pretty i +:+ " " +:+ s);;;
      enumerar (i + 1) resto
  end.

(** Line 227 *)
Definition escolher (idx : string) (encontrados : list tarefa)
  : res (option tarefa) :=
  if isdigit idx then
    match int_de idx with
    | None => Raise ValueError
    | Some n =>
        if (0 <? n) && (n <=? Z.of_nat (length encontrados))
        then Ok (encontrados !! Z.to_nat (n - 1))
        else Ok None
    end
  else Ok None.

Definition selecionar_tarefa (prompt : string) : M (option tarefa) :=
  seja tarefas <- carregar_tarefas em
  seja x <- input prompt em
  let q := lower (strip x) in
  if bool_decide (q = "") then ret None
  else
    seja encontrados <- puro (filtrar q tarefas) em
    match encontrados with
    | [] => print "Nenhuma tarefa encontrada.";;; ret None
    | [t] => ret (Some t)
    | _ =>
        enumerar 1 encontrados;;;
        seja x <- input "Escolha: " em
        puro (escolher (strip x) encontrados)
    end.

Definition PROMPT_SELECAO : string := "ID ou parte do título: ".

(** *** Edit (lines 230-270) *)

(** Lines 237-238 *)
Definition com_titulo (titulo : string) (t : tarefa) : tarefa :=
  if bool_decide (titulo = "") then t else <["titulo" := VStr titulo]> t.

(** Lines 241-242 *)
Definition com_descricao (descricao : string) (t : tarefa) : tarefa :=
  if bool_decide (descricao = "") then t else <["descricao" := VStr descricao]> t.

(** Lines 245-250 *)
Definition com_quantidade (qtd : string) (t : tarefa) : res tarefa :=
  if bool_decide (qtd = "") then Ok t
  else if isdigit qtd then
    match int_de qtd with
    | Some n => Ok (<["quantidade" := VInt n]> t)
    | None => Raise ValueError
    end
  else Ok (<["quantidade" := VNone]> t).

(** Lines 253-256 *)
Definition com_prazo (prazo_raw : string) (t : tarefa) : tarefa :=
  if bool_decide (prazo_raw = "") then t
  else
    match parse_prazo prazo_raw with
    | Some prazo => <["prazo" := VStr (isoformat prazo)]> t
    | None => t
    end.

(** Lines 258-261 *)
Definition com_concluida (resposta : string) (t : tarefa) : tarefa :=
  <["concluida" := VBool (afirmativa resposta)]> t.

(** Lines 264-267: the first item whose id equals that of [t] becomes [t]. *)
Fixpoint substituir (t : tarefa) (tarefas : list tarefa) : res (list tarefa) :=
  match tarefas with
  | [] => Ok []
  | item :: resto =>
      tente a <- getitem item "id" em
      tente b <- getitem t "id" em
      if py_eq a b then Ok (t :: resto)
      else
        tente r <- substituir t resto em
        Ok (item :: r)
  end.

(** Lines 235-270: what Edit does with the selected task [t]. *)
Definition editar_selecionada (t : tarefa) : M unit :=
  print "Deixe em branco para manter.";;;
  seja atual <- puro (getitem t "titulo") em
  seja x <- input ("Título [" +:+ py_str atual +:+ "]: ") em
  let t := com_titulo (strip x) t in
  seja x <- input ("Descrição [" +:+ py_str (get_ou t "descricao" (VStr "")) +:+ "]: ") em
  let t := com_descricao (strip x) t in
  seja x <- input ("Quantidade [" +:+ py_str (get_ou t "quantidade" (VStr "")) +:+ "]: ") em
  seja t <- puro (com_quantidade (strip x) t) em
  seja atual <- puro (format_prazo (get t "prazo")) em
  seja x <- input ("Prazo [" +:+ atual +:+ "]: ") em
  let t := com_prazo (strip x) t in
  seja x <- input "Marcar como concluída? (s/N): " em
  let t := com_concluida (lower (strip x)) t in
  seja tarefas <- carregar_tarefas em
  seja tarefas <- puro (substituir t tarefas) em
  salvar_tarefas tarefas;;;
  print "Tarefa atualizada.".

Definition editar_tarefa_interativa : M unit :=
  seja sel <- selecionar_tarefa PROMPT_SELECAO em
  match sel with
  | Some t => if nada sel then ret tt else editar_selecionada t
  | None => ret tt
  end.

(** *** Delete (lines 273-281) *)

(** Line 279: [[x for x in tarefas if x["id"] != t["id"]]] *)
Fixpoint sem_id (t : tarefa) (tarefas : list tarefa) : res (list tarefa) :=
  match tarefas with
  | [] => Ok []
  | x :: resto =>
      tente a <- getitem x "id" em
      tente b <- getitem t "id" em
      tente r <- sem_id t resto em
      Ok (if negb (py_eq a b) then x :: r else r)
  end.

(** Lines 278-281 *)
Definition excluir_selecionada (t : tarefa) : M unit :=
  seja atual <- puro (getitem t "titulo") em
  seja x <- input ("Excluir [" +:+ py_str atual +:+ "]? (s/N): ") em
  if afirmativa (lower (strip x)) then
    seja carregadas <- carregar_tarefas em
    seja tarefas <- puro (sem_id t carregadas) em
    salvar_tarefas tarefas;;;
    print "Tarefa excluída."
  else ret tt.

Definition excluir_tarefa_interativa : M unit :=
  seja sel <- selecionar_tarefa PROMPT_SELECAO em
  match sel with
  | Some t => if nada sel then ret tt else excluir_selecionada t
  | None => ret tt
  end.

(** *** Toggle-Complete (lines 284-295) *)

(** Lines 290-292: the first item whose id equals that of [t] gets its
    [concluida] negated; [None] when the loop ends without a match. *)
Fixpoint alternar (t : tarefa) (tarefas : list tarefa)
  : res (option (list tarefa)) :=
  match tarefas with
  | [] => Ok None
  | item :: resto =>
      tente a <- getitem item "id" em
      tente b <- getitem t "id" em
      if py_eq a b then
        Ok (Some (<["concluida" :=
                     VBool (negb (truthy (get_ou item "concluida" (VBool false))))]> item
                  :: resto))
      else
        tente r <- alternar t resto em
        Ok (cons item <$> r)
  end.

(** Lines 289-295 *)
Definition marcar_selecionada (t : tarefa) : M unit :=
  seja tarefas <- carregar_tarefas em
  seja r <- puro (alternar t tarefas) em
  match r with
  | Some tarefas' => salvar_tarefas tarefas';;; print "Estado alterado."
  | None => ret tt
  end.

Definition marcar_tarefa : M unit :=
  seja sel <- selecionar_tarefa PROMPT_SELECAO em
  match sel with
  | Some t => if nada sel then ret tt else marcar_selecionada t
  | None => ret tt
  end.

(** *** The stopwatch (lines 298-320) *)

(** Lines 314-315 on the matching item. *)
Definition acumular_item (dur : Z) (item : tarefa) : res tarefa :=
  let item := <["ultimo_tempo_seg" := VInt dur]> item in
  tente total <- somar (get_ou item "total_tempo_seg" (VInt 0)) dur em
  Ok (<["total_tempo_seg" := total]> item).

(** Lines 312-316: the first item whose id equals that of [t] receives the
    session; [None] when the loop ends without a match. *)
Fixpoint acumular (t : tarefa) (dur : Z) (tarefas : list tarefa)
  : res (option (list tarefa)) :=
  match tarefas with
  | [] => Ok None
  | item :: resto =>
      tente a <- getitem item "id" em
      tente b <- getitem t "id" em
      if py_eq a b then
        tente item' <- acumular_item dur item em
        Ok (Some (item' :: resto))
      else
        tente r <- acumular t dur resto em
        Ok (cons item <$> r)
  end.

(** Lines 311-320: the timer accumulator, for the selected task [t] and a
    session of [dur] whole seconds. *)
Definition acumular_cronometro (t : tarefa) (dur : Z) : M unit :=
  seja tarefas <- carregar_tarefas em
  seja r <- puro (acumular t dur tarefas) em
  match r with
  | Some tarefas' =>
      salvar_tarefas tarefas';;;
      print ("Cronômetro salvo: " +:+ pretty (dur `div` 60) +:+ "m"
             +:+ pretty (dur `mod` 60) +:+ "s")
  | None => ret tt
  end.

(** [dur] is [int(time.time() - inicio)], the whole seconds between the two
    presses of Enter. *)
Definition iniciar_cronometro (dur : Z) : M unit :=
  seja sel <- selecionar_tarefa "Tarefa a cronometrar: " em
  match sel with
  | Some t =>
      if nada sel then ret tt
      else
        print "Enter inicia | Enter para parar | q cancela";;;
        seja x <- ler em
        if bool_decide (lower (strip x) = "q") then ret tt
        else
          ler;;;
          acumular_cronometro t dur
  | None => ret tt
  end.

(** [n] sessions in a row on the selected task. *)
Definition sessoes (t : tarefa) (durs : list Z) : M unit :=
  para_cada (acumular_cronometro t) durs.

(** *** The core operations *)

Inductive operacao :=
| Criar (novo_id : string) (agora_dt : datetime)
| Editar
| Excluir
| Marcar
| Varrer (notificar : bool) (agora_dt : datetime)
| Cronometrar (dur : Z).

Definition executar (op : operacao) : M unit :=
  match op with
  | Criar novo_id agora_dt => criar_tarefa_interativa novo_id agora_dt
  | Editar => editar_tarefa_interativa
  | Excluir => excluir_tarefa_interativa
  | Marcar => marcar_tarefa
  | Varrer notificar agora_dt => remover_vencidas notificar agora_dt
  | Cronometrar dur => iniciar_cronometro dur
  end.

End Programa.

(** ** A reference implementation of the library classes

    These functions stand in for CPython's on the inputs used in the worked
    examples below: ASCII text, the three superscript digits of Latin-1, and
    dates written with all their digits, with or without a UTC offset
    written [+HH:MM] or [-HH:MM].  They are not claimed to cover the whole
    of Unicode or of ISO 8601. *)

Module Ref.

Definition cod (c : Ascii.ascii) : Z := Z.of_nat (Ascii.nat_of_ascii c).

(** ASCII white space, as [str.isspace] sees it. *)
Definition espaco (c : Ascii.ascii) : bool :=
  ((9 <=? cod c) && (cod c <=? 13)) || ((28 <=? cod c) && (cod c <=? 32)).

Fixpoint tira_esquerda (s : string) : string :=
  match s with
  | EmptyString => EmptyString
  | String c s' => if espaco c then tira_esquerda s' else s
  end.

Fixpoint tira_direita (s : string) : string :=
  match s with
  | EmptyString => EmptyString
  | String c s' =>
      let r := tira_direita s' in
      if espaco c && bool_decide (r = "") then EmptyString else String c r
  end.

Definition strip (s : string) : string := tira_direita (tira_esquerda s).

Definition minuscula (c : Ascii.ascii) : Ascii.ascii :=
  if (65 <=? cod c) && (cod c <=? 90)
  then Ascii.ascii_of_nat (Ascii.nat_of_ascii c + 32)
  else c.

Fixpoint lower (s : string) : string :=
  match s with
  | EmptyString => EmptyString
  | String c s' => String (minuscula c) (lower s')
  end.

Definition digito (c : Ascii.ascii) : bool := (48 <=? cod c) && (cod c <=? 57).

(** The second byte of the UTF-8 form of U+00B2, U+00B3 and U+00B9, the
    superscript digits: [str.isdigit] accepts them, [int] does not. *)
Definition sobrescrito (d : Ascii.ascii) : bool :=
  (cod d =? 178) || (cod d =? 179) || (cod d =? 185).

Fixpoint so_digitos (s : string) : bool :=
  match s with
  | EmptyString => true
  | String c s' =>
      if digito c then so_digitos s'
      else
        match s' with
        | String d s'' => (cod c =? 194) && sobrescrito d && so_digitos s''
        | EmptyString => false
        end
  end.

Definition isdigit (s : string) : bool :=
  negb (bool_decide (s = "")) && so_digitos s.

(** The value of a string of ASCII decimal digits, read after [acc]. *)
Fixpoint decimal (acc : Z) (s : string) : option Z :=
  match s with
  | EmptyString => Some acc
  | String c s' =>
      if digito c then decimal (10 * acc + (cod c - 48)) s' else None
  end.

(** [int(s)] on the strings the program converts: those [isdigit] accepts. *)
Definition int_de (s : string) : option Z :=
  if bool_decide (s = "") then None else decimal 0 s.

(** A [datetime]; [fuso] is its UTC offset in minutes, [None] for a value
    without offset (a naive one). *)
Record data_hora := DataHora {
  ano : Z; mes : Z; dia : Z; hora : Z; minuto : Z; segundo : Z;
  fuso : option Z
}.

Definition campos (d : data_hora) : list Z :=
  [ano d; mes d; dia d; hora d; minuto d; segundo d].

Fixpoint lex_le (a b : list Z) : bool :=
  match a, b with
  | x :: a', y :: b' => (x <? y) || ((x =? y) && lex_le a' b')
  | _, _ => true
  end.

(** Days from 1970-01-01 to the day [d] of month [m] of year [a] in the
    proleptic Gregorian calendar. *)
Definition dias_desde_1970 (a m d : Z) : Z :=
  let y := if m <=? 2 then a - 1 else a in
  let era := y `div` 400 in
  let yoe := y - era * 400 in
  let mp := (m + 9) `mod` 12 in
  let doy := (153 * mp + 2) `div` 5 + d - 1 in
  let doe := yoe * 365 + yoe `div` 4 - yoe `div` 100 + doy in
  era * 146097 + doe - 719468.

(** The seconds from 1970-01-01T00:00:00 UTC to a value whose offset is
    [f] minutes. *)
Definition segundos_utc (d : data_hora) (f : Z) : Z :=
  ((dias_desde_1970 (ano d) (mes d) (dia d) * 24 + hora d) * 60
   + minuto d - f) * 60 + segundo d.

(** [a <= b]: two values without offset are compared field by field, two
    values with offset by the instants they denote; a value with offset and
    one without are not comparable. *)
Definition dt_le (a b : data_hora) : option bool :=
  match fuso a, fuso b with
  | None, None => Some (lex_le (campos a) (campos b))
  | Some fa, Some fb => Some (segundos_utc a fa <=? segundos_utc b fb)
  | _, _ => None
  end.

Definition bissexto (a : Z) : bool :=
  ((a `mod` 4 =? 0) && negb (a `mod` 100 =? 0)) || (a `mod` 400 =? 0).

Definition dias_do_mes (a m : Z) : Z :=
  if m =? 2 then (if bissexto a then 29 else 28)
  else if (m =? 4) || (m =? 6) || (m =? 9) || (m =? 11) then 30
  else 31.

Definition valida (d : data_hora) : bool :=
  (1 <=? ano d) && (ano d <=? 9999) && (1 <=? mes d) && (mes d <=? 12)
  && (1 <=? dia d) && (dia d <=? dias_do_mes (ano d) (mes d))
  && (0 <=? hora d) && (hora d <=? 23) && (0 <=? minuto d) && (minuto d <=? 59)
  && (0 <=? segundo d) && (segundo d <=? 59).

Definition numero (cs : list Ascii.ascii) : option Z :=
  decimal 0 (String.string_of_list_ascii cs).

Definition montar (a m d h n s : option Z) (f : option Z) : option data_hora :=
  match a, m, d, h, n, s with
  | Some a, Some m, Some d, Some h, Some n, Some s =>
      let r := DataHora a m d h n s f in
      if valida r then Some r else None
  | _, _, _, _, _, _ => None
  end.

(** The offset written [+HH:MM] or [-HH:MM], in minutes: less than a day. *)
Definition fuso_de (sinal : Ascii.ascii) (h n : option Z) : option Z :=
  match h, n with
  | Some h, Some n =>
      if h * 60 + n <? 1440 then
        if cod sinal =? 43 then Some (h * 60 + n)
        else if cod sinal =? 45 then Some (- (h * 60 + n))
        else None
      else None
  | _, _ => None
  end.

(** [datetime.strptime(s, "%Y-%m-%d %H:%M")] on fully written dates. *)
Definition strptime_fmt (s : string) : option data_hora :=
  match String.list_ascii_of_string s with
  | [a1; a2; a3; a4; t1; m1; m2; t2; d1; d2; sp; h1; h2; t3; n1; n2] =>
      if bool_decide (String.string_of_list_ascii [t1; t2; sp; t3] = "-- :")
      then montar (numero [a1; a2; a3; a4]) (numero [m1; m2]) (numero [d1; d2])
                  (numero [h1; h2]) (numero [n1; n2]) (Some 0) None
      else None
  | _ => None
  end.

(** [datetime.fromisoformat(s)] on [YYYY-MM-DDxHH:MM:SS] and on
    [YYYY-MM-DDxHH:MM:SS+HH:MM]. *)
Definition fromisoformat (s : string) : option data_hora :=
  match String.list_ascii_of_string s with
  | [a1; a2; a3; a4; t1; m1; m2; t2; d1; d2; _; h1; h2; t3; n1; n2; t4; s1; s2] =>
      if bool_decide (String.string_of_list_ascii [t1; t2; t3; t4] = "--::")
      then montar (numero [a1; a2; a3; a4]) (numero [m1; m2]) (numero [d1; d2])
                  (numero [h1; h2]) (numero [n1; n2]) (numero [s1; s2]) None
      else None
  | [a1; a2; a3; a4; t1; m1; m2; t2; d1; d2; _; h1; h2; t3; n1; n2; t4; s1; s2;
     sinal; f1; f2; t5; f3; f4] =>
      if bool_decide (String.string_of_list_ascii [t1; t2; t3; t4; t5] = "--:::")
      then
        match fuso_de sinal (numero [f1; f2]) (numero [f3; f4]) with
        | Some f =>
            montar (numero [a1; a2; a3; a4]) (numero [m1; m2]) (numero [d1; d2])
                   (numero [h1; h2]) (numero [n1; n2]) (numero [s1; s2]) (Some f)
        | None => None
        end
      else None
  | _ => None
  end.

Definition dois (n : Z) : string :=
  if n <? 10 then "0" +:+ pretty n else pretty n.

Definition quatro (n : Z) : string :=
  if n <? 10 then "000" +:+ pretty n
  else if n <? 100 then "00" +:+ pretty n
  else if n <? 1000 then "0" +:+ pretty n
  else pretty n.

Definition data_texto (d : data_hora) : string :=
  quatro (ano d) +:+ "-" +:+ dois (mes d) +:+ "-" +:+ dois (dia d).

Definition fuso_texto (f : option Z) : string :=
  match f with
  | None => ""
  | Some f =>
      (if f <? 0 then "-" else "+") +:+ dois (Z.abs f `div` 60) +:+ ":"
      +:+ dois (Z.abs f `mod` 60)
  end.

Definition isoformat (d : data_hora) : string :=
  data_texto d +:+ "T" +:+ dois (hora d) +:+ ":" +:+ dois (minuto d)
  +:+ ":" +:+ dois (segundo d) +:+ fuso_texto (fuso d).

Definition strftime_fmt (d : data_hora) : string :=
  data_texto d +:+ " " +:+ dois (hora d) +:+ ":" +:+ dois (minuto d).

End Ref.

#[global] Instance RefTexto : PyTexto :=
  {| strip := Ref.strip; lower := Ref.lower;
     isdigit := Ref.isdigit; int_de := Ref.int_de |}.

#[global] Instance RefDatas : PyDatas :=
  {| datetime := Ref.data_hora; dt_le := Ref.dt_le;
     strptime_fmt := Ref.strptime_fmt; fromisoformat := Ref.fromisoformat;
     isoformat := Ref.isoformat; strftime_fmt := Ref.strftime_fmt |}.

(** A world with the file [d], the input lines [linhas], nothing printed and
    nothing saved yet. *)
Definition mundo_inicial (d : arquivo) (linhas : list string) : mundo :=
  Mundo d linhas [] 0.

(** ** Vocabulary of the specification

    The predicates below follow the words of the specification; the theorems
    compare them with the program. *)

Section Vocabulario.
Context `{PT : PyTexto} `{PD : PyDatas}.

(** "deadline is set, parseable and less than or equal to the current time":
    the field holds a non-empty string that [fromisoformat] accepts, and the
    time it denotes is not after [agora_dt]. *)
Definition prazo_vencido (agora_dt : datetime) (t : tarefa) : Prop :=
  ∃ s d, t !! "prazo" = Some (VStr s) ∧ s ≠ "" ∧
         fromisoformat s = Some d ∧ dt_le d agora_dt = Some true.

(** The deadline of the task, when set and parseable, can be compared with
    [agora_dt]: both carry a UTC offset or neither does.  As
    [datetime.now()] carries none, this says that the deadline carries
    none. *)
Definition comparavel (agora_dt : datetime) (t : tarefa) : Prop :=
  ∀ s d, t !! "prazo" = Some (VStr s) → s ≠ "" →
         fromisoformat s = Some d → is_Some (dt_le d agora_dt).

(** "saving a collection then loading it" *)
Definition salvar_e_carregar (tarefas : list tarefa) (w : mundo) : res (list tarefa) :=
  fst (carregar_tarefas (snd (salvar_tarefas tarefas w))).

(** The task [y] carries the id [i], as [==] sees it. *)
Definition tem_id (i : valor) (y : tarefa) : Prop :=
  ∃ b, y !! "id" = Some b ∧ py_eq b i = true.

(** The task [y] carries an id that is not [i]. *)
Definition outro_id (i : valor) (y : tarefa) : Prop :=
  ∃ b, y !! "id" = Some b ∧ py_eq b i = false.

(** "the selected task's id is not present in the freshly reloaded
    collection": [t] has an id and every loaded task has another one. *)
Definition id_ausente (t : tarefa) (w : mundo) : Prop :=
  ∃ i, t !! "id" = Some i ∧ Forall (outro_id i) (colecao w).

(** The accumulated time of a task, as the stopwatch reads it. *)
Definition total (t : tarefa) : valor := get_ou t "total_tempo_seg" (VInt 0).

(** "total after the operation is greater than or equal to its value
    before": the field is untouched, or both values are numbers and the
    later one is not smaller. *)
Definition nao_diminui (antes depois : tarefa) : Prop :=
  total depois = total antes ∨
  ∃ x y, num (total antes) = Some x ∧ num (total depois) = Some y ∧ x ≤ y.

(** "id is unique across the collection" *)
Definition ids_unicos (l : list tarefa) : Prop :=
  NoDup ((λ t : tarefa, t !! "id") <$> l).

(** The record Edit builds from the selected task [t] and the five answers
    (lines 236-261, without the prompts). *)
Definition campos_editados (x1 x2 x3 x4 x5 : string) (t : tarefa) : res tarefa :=
  tente t3 <- com_quantidade (strip x3)
                (com_descricao (strip x2) (com_titulo (strip x1) t)) em
  Ok (com_concluida (lower (strip x5)) (com_prazo (strip x4) t3)).

(** What one session of [dur] seconds makes of a task whose total is the
    integer [T]. *)
Definition com_sessao (T dur : Z) (item : tarefa) : tarefa :=
  <["total_tempo_seg" := VInt (T + dur)]> (<["ultimo_tempo_seg" := VInt dur]> item).

(** The side conditions of one core operation: a freshly generated id is
    not yet in use, and a stopwatch session is not negative. *)
Definition admissivel (op : operacao) (w : mundo) : Prop :=
  match op with
  | Criar novo_id _ => Forall (λ t : tarefa, t !! "id" ≠ Some (VStr novo_id)) (colecao w)
  | Cronometrar dur => 0 ≤ dur
  | _ => True
  end.

End Vocabulario.

(** ** Worked inputs *)

Module Exemplos.

Definition t_leite : tarefa :=
  nova_tarefa "0a1b2c3d-0000" "Buy milk" "" VNone
    (Ref.strptime_fmt "2020-01-01 00:00") (Ref.DataHora 2019 12 1 9 30 0 None).

Definition t_relatorio : tarefa :=
  nova_tarefa "7e8f9a0b-1111" "Write report" "" (VInt 3) None
    (Ref.DataHora 2019 12 1 9 31 0 None).

(** A record with a field that is not in the schema. *)
Definition t_extra : tarefa := <["nota" := VStr "x"]> t_relatorio.

(** A record with the deprecated field. *)
Definition t_antiga : tarefa := <["tipo" := VStr "meta"]> t_relatorio.

(** A record whose deadline carries a UTC offset, as a file written by
    another program or edited by hand may have it. *)
Definition t_fuso : tarefa :=
  <["prazo" := VStr "2020-01-01T00:00:00+00:00"]> t_relatorio.

Definition meio_2019 : @datetime RefDatas := Ref.DataHora 2019 6 15 12 0 0 None.
Definition meio_2021 : @datetime RefDatas := Ref.DataHora 2021 6 15 12 0 0 None.

(** The file holds the two tasks of the scenarios of the specification. *)
Definition w_dois (linhas : list string) : mundo :=
  mundo_inicial (Documento [t_leite; t_relatorio]) linhas.

(** The sweep has removed "Buy milk" in the meantime. *)
Definition w_sem_leite (linhas : list string) : mundo :=
  mundo_inicial (Documento [t_relatorio]) linhas.

(** The file holds an expired task and one whose deadline carries a UTC
    offset. *)
Definition w_fuso (linhas : list string) : mundo :=
  mundo_inicial (Documento [t_leite; t_fuso]) linhas.

(** After the selection prompt has been answered. *)
Definition w_selecionada (linhas : list string) : mundo :=
  Mundo (Documento [t_leite; t_relatorio]) linhas ["ID ou parte do título: "] 0.

End Exemplos.

(** ** Notions used in the proofs *)

(** A record without the deprecated field. *)
Definition sem_tipo (t : tarefa) : Prop := t !! "tipo" = None.

(** A command that only talks to the terminal: it leaves the file and the
    count of saves as they were. *)
Definition so_terminal {A} (c : M A) : Prop :=
  ∀ w, disco (snd (c w)) = disco w ∧ gravacoes (snd (c w)) = gravacoes w.

(** A command that leaves the file alone or writes a collection related by
    [P] to the one it could load. *)
Definition grava_so {A} (P : list tarefa -> list tarefa -> Prop) (c : M A) : Prop :=
  ∀ w, disco (snd (c w)) = disco w ∨
       ∃ l, disco (snd (c w)) = Documento l ∧ P (colecao w) l.

(** Every loaded task has a string as id: what a successful selection has
    checked, since [q in t["id"]] is evaluated for every task. *)
Definition ids_texto (l : list tarefa) : Prop :=
  Forall (λ x : tarefa, ∃ s, x !! "id" = Some (VStr s)) l.

(** [D1 + ... + Dn] *)
Definition soma_lista (l : list Z) : Z := foldr Z.add 0 l.

(** The task [d] descends from a task of [l]: same id, and a total that
    has not gone down. *)
Definition herdada (l : list tarefa) (d : tarefa) : Prop :=
  ∃ a, a ∈ l ∧ a !! "id" = d !! "id" ∧ nao_diminui a d.

(** Every task loaded from the file [a'] descends from a task of [l0] or
    is new in the sense of [N]. *)
Definition preserva (l0 : list tarefa) (N : tarefa -> Prop) (a' : arquivo) : Prop :=
  ∀ d, d ∈ conteudo a' → herdada l0 d ∨ N d.

(** Started on the file [d0], the command leaves a file that satisfies [R]. *)
Definition mantem {A} (d0 : arquivo) (R : arquivo -> Prop) (c : M A) : Prop :=
  ∀ w, disco w = d0 → R (disco (snd (c w))).

(** No task is new: the operations other than Create add none. *)
Definition nenhuma : tarefa -> Prop := λ _, False.

Section Decisao.
Context `{PT : PyTexto} `{PD : PyDatas}.

#[global] Instance prazo_vencido_dec agora_dt (t : tarefa) :
  Decision (prazo_vencido agora_dt t).
Proof.
  unfold prazo_vencido.
  destruct (t !! "prazo") as [[| | |s]|] eqn:Ht;
    try (right; intros (s' & d & ? & _); congruence).
  destruct (decide (s = "")) as [->|Hs].
  { right. intros (s' & d & ? & ? & _). congruence. }
  destruct (fromisoformat s) as [d|] eqn:Hd.
  - destruct (dt_le d agora_dt) as [[|]|] eqn:Hle.
    + left. by exists s, d.
    + right. intros (s' & d' & ? & _ & ? & ?). congruence.
    + right. intros (s' & d' & ? & _ & ? & ?). congruence.
  - right. intros (s' & d' & ? & _ & ? & _). congruence.
Defined.

#[global] Instance comparavel_dec agora_dt (t : tarefa) :
  Decision (comparavel agora_dt t).
Proof.
  unfold comparavel.
  destruct (t !! "prazo") as [[| | |s]|] eqn:Ht;
    try (left; intros s' d ?; congruence).
  destruct (decide (s = "")) as [->|Hs].
  { left. intros s' d ? ?. congruence. }
  destruct (fromisoformat s) as [d|] eqn:Hd.
  - destruct (dt_le d agora_dt) as [b|] eqn:Hle.
    + left. intros s' d' ? _ ?. assert (d' = d) as -> by congruence. by rewrite Hle.
    + right. intros H. destruct (H s d eq_refl Hs Hd) as [b Hb]. congruence.
  - left. intros s' d' ? _ ?. congruence.
Defined.

(** The task an operation may add: the one Create builds. *)
Definition recem_criada (op : operacao) (d : tarefa) : Prop :=
  match op with
  | Criar novo_id _ => d !! "id" = Some (VStr novo_id)
  | _ => False
  end.

End Decisao.

(** ** More of the program: listing and start-up *)

Section ProgramaRestante.
Context `{PT : PyTexto} `{PD : PyDatas}.

(** The line feed that opens the header of a group. *)
Definition NL : string := String (Ascii.ascii_of_nat 10) EmptyString.

(** Line 191: [t.get("quantidade") or "—"], as the f-string of line 193
    prints it. *)
Definition qtd_texto (t : tarefa) : string :=
  if truthy (get t "quantidade") then py_str (get t "quantidade") else "—".

(** [divmod(v, 60)] *)
Definition divmod60 (v : valor) : res (Z * Z) :=
  match num v with
  | Some n => Ok (n `div` 60, n `mod` 60)
  | None => Raise TypeError
  end.

(** Lines 196-199 *)
Definition imprimir_tempos (t : tarefa) : M unit :=
  if truthy (get t "ultimo_tempo_seg") then
    seja u <- puro (getitem t "ultimo_tempo_seg") em
    seja ms <- puro (divmod60 u) em
    seja tms <- puro (divmod60 (get_ou t "total_tempo_seg" (VInt 0))) em
    print ("   último: " +:+ pretty (fst ms) +:+ "m" +:+ pretty (snd ms)
           +:+ "s | total: " +:+ pretty (fst tms) +:+ "m" +:+ pretty (snd tms)
           +:+ "s")
  else ret tt.

(** Lines 194-195 *)
Definition imprimir_descricao (t : tarefa) : M unit :=
  if truthy (get t "descricao") then
    seja d <- puro (getitem t "descricao") em
    print ("   desc: " +:+ py_str d)
  else ret tt.

(** Lines 191-199: the body of the loop of [imprimir]. *)
Definition imprimir_tarefa (t : tarefa) : M unit :=
  let qtd := qtd_texto t in
  seja prazo <- puro (format_prazo (get t "prazo")) em
  seja r <- puro (rotulo t) em
  print (r +:+ " | qtd:" +:+ qtd +:+ " | prazo:" +:+ prazo);;;
  imprimir_descricao t;;;
  imprimir_tempos t.

(** Lines 188-199 *)
Definition imprimir (lista : list tarefa) (titulo : string) : M unit :=
  print (NL +:+ "--- " +:+ titulo +:+ " (" +:+ pretty (Z.of_nat (length lista))
         +:+ ") ---");;;
  para_cada imprimir_tarefa lista.

(** Line 185: [[t for t in tarefas if not t.get("concluida")]] *)
Definition pendentes (tarefas : list tarefa) : list tarefa :=
  filter (λ t : tarefa, truthy (get t "concluida") = false) tarefas.

(** Line 186: [[t for t in tarefas if t.get("concluida")]] *)
Definition concluidas (tarefas : list tarefa) : list tarefa :=
  filter (λ t : tarefa, truthy (get t "concluida") = true) tarefas.

(** Lines 177-202 *)
Definition listar_tarefas_interativo (agora_dt : datetime) : M unit :=
  remover_vencidas true agora_dt;;;
  seja tarefas <- carregar_tarefas em
  match tarefas with
  | [] => print "Nenhuma tarefa registrada."
  | _ :: _ =>
      imprimir (pendentes tarefas) "Pendentes";;;
      imprimir (concluidas tarefas) "Concluídas"
  end.

(** Lines 357-359: what the program does before it shows the menu. *)
Definition preparar_arquivo : M unit :=
  fun w =>
    match disco w with
    | Ausente => salvar_tarefas [] w
    | _ => (Ok tt, w)
    end.

Definition iniciar_programa : M unit :=
  preparar_arquivo;;;
  print ("Gerenciador iniciado | Datas: " +:+ DATE_FMT).

(** The first [n] rounds of the loop of [checador_periodico] (lines
    327-330), run on their own; [agoras] are the clock readings. *)
Definition rodadas_do_checador (agoras : list datetime) : M unit :=
  para_cada (remover_vencidas true) agoras.

(** *** Vocabulary for the properties below *)

(** The text [rotulo] gives, empty when it raises. *)
Definition rotulo_texto (t : tarefa) : string :=
  match rotulo t with
  | Ok s => s
  | Raise _ => ""
  end.

(** The id of the task is missing, or is [null], a boolean or an integer:
    the kinds of value on which [q in t["id"]] raises. *)
Definition id_sem_texto (t : tarefa) : Prop :=
  t !! "id" = None ∨ t !! "id" = Some VNone ∨
  (∃ b, t !! "id" = Some (VBool b)) ∨ (∃ n, t !! "id" = Some (VInt n)).

(** The exceptions of line 213: a missing key, [in] on a value that is no
    container, [lower] on a value that is no string. *)
Definition da_linha_213 (e : excecao) : Prop :=
  e = KeyError "id" ∨ e = KeyError "titulo" ∨ e = TypeError ∨ e = AttributeError.

(** The task matches the query [q] as line 213 tests it. *)
Definition corresponde (q : string) (t : tarefa) : Prop :=
  ∃ s, t !! "id" = Some (VStr s) ∧
       (contido q s = true ∨
        ∃ tit, t !! "titulo" = Some (VStr tit) ∧ contido q (lower tit) = true).

(** A record shaped like the ones the program writes: the nine fields with
    the kinds of value that Create, Edit, Toggle-Complete and the stopwatch
    store. *)
Definition conforme (t : tarefa) : Prop :=
  (∃ s, t !! "id" = Some (VStr s)) ∧
  (∃ s, t !! "titulo" = Some (VStr s)) ∧
  (∃ s, t !! "descricao" = Some (VStr s)) ∧
  (t !! "quantidade" = Some VNone ∨ ∃ n, t !! "quantidade" = Some (VInt n)) ∧
  (t !! "prazo" = Some VNone ∨ ∃ s, t !! "prazo" = Some (VStr s)) ∧
  (∃ b, t !! "concluida" = Some (VBool b)) ∧
  (∃ s, t !! "criado_em" = Some (VStr s)) ∧
  (∃ n, t !! "ultimo_tempo_seg" = Some (VInt n)) ∧
  (∃ n, t !! "total_tempo_seg" = Some (VInt n)).

(** The file loads to conforming records only. *)
Definition arquivo_conforme (a : arquivo) : Prop := Forall conforme (conteudo a).

End ProgramaRestante.

(** The exceptions that remain possible on conforming data: the input runs
    out, or a digit string that [int] rejects is typed. *)
Definition esperada (e : excecao) : Prop := e = EOFError ∨ e = ValueError.

(** Started on the file [d0], the command returns normally or raises an
    exception that satisfies [E]. *)
Definition so_levanta {A} (E : excecao -> Prop) (d0 : arquivo) (c : M A) : Prop :=
  ∀ w, disco w = d0 →
    match fst (c w) with
    | Ok _ => True
    | Raise e => E e
    end.

(** *** More worked inputs *)

Module ExemplosMais.
Import Exemplos.

(** "Write report" without its id, as a file edited by hand may have it. *)
Definition t_sem_id : tarefa := delete "id" t_relatorio.

(** "Write report" without the field of the accumulated time. *)
Definition t_sem_total : tarefa := delete "total_tempo_seg" t_relatorio.

(** "Write report" with [null] as accumulated time. *)
Definition t_total_nulo : tarefa := <["total_tempo_seg" := VNone]> t_relatorio.

Definition inicio_2020 : @datetime RefDatas := Ref.DataHora 2020 1 1 0 0 0 None.

(** After the prompt of the stopwatch has been answered. *)
Definition w_cronometro (linhas : list string) : mundo :=
  Mundo (Documento [t_leite; t_relatorio]) linhas ["Tarefa a cronometrar: "] 0.

End ExemplosMais.

(** *** Decidable equality of results and worlds

    Exceptions, results, files and worlds have a decidable equality, so
    that a closed equation between two runs is settled by evaluating
    [bool_decide]. *)

#[global] Instance excecao_eq_dec : EqDecision excecao.
Proof. solve_decision. Defined.

#[global] Instance res_eq_dec {A} `{EqDecision A} : EqDecision (res A).
Proof. solve_decision. Defined.

#[global] Instance arquivo_eq_dec : EqDecision arquivo.
Proof. solve_decision. Defined.

#[global] Instance mundo_eq_dec : EqDecision mundo.
Proof. solve_decision. Defined.

#[global] Instance data_hora_eq_dec : EqDecision Ref.data_hora.
Proof. solve_decision. Defined.

#[global] Instance datetime_ref_eq_dec : EqDecision (@datetime RefDatas) :=
  data_hora_eq_dec.

(** Settles a closed decidable proposition by evaluation; an equation with
    a value still to be found is left to [reflexivity]. *)
Ltac calcula :=
  lazymatch goal with
  | |- ?P =>
      tryif has_evar P then reflexivity
      else (apply (bool_decide_unpack _); vm_compute; exact I)
  end.

(** ** Basic facts *)

(** Unfolds the primitive commands and runs them. *)
Ltac executa :=
  unfold input, puro, ret, carregar_tarefas, salvar_tarefas;
  unfold bind, print, ler; simpl.

Section Basicos.

Lemma conteudo_sem_tipo (a : arquivo) : Forall sem_tipo (conteudo a).
Proof.
  destruct a as [| |ts]; simpl; try constructor.
  apply Forall_fmap, Forall_true. intros t. apply lookup_delete_eq.
Qed.

Lemma conteudo_Documento (l : list tarefa) :
  Forall sem_tipo l → conteudo (Documento l) = l.
Proof.
  intros H. unfold conteudo. induction H as [|t l Ht _ IH]; csimpl; [done|].
  rewrite IH. f_equal. by apply delete_id.
Qed.

Lemma so_terminal_ret {A} (a : A) : so_terminal (ret a).
Proof. by intros w. Qed.

Lemma so_terminal_puro {A} (r : res A) : so_terminal (puro r).
Proof. by intros w. Qed.

Lemma so_terminal_print s : so_terminal (print s).
Proof. by intros w. Qed.

Lemma so_terminal_ler : so_terminal ler.
Proof. intros w. unfold ler. by destruct (entrada w). Qed.

Lemma so_terminal_carregar : so_terminal carregar_tarefas.
Proof. by intros w. Qed.

Lemma so_terminal_bind {A B} (c : M A) (k : A → M B) :
  so_terminal c → (∀ a, so_terminal (k a)) → so_terminal (bind c k).
Proof.
  intros Hc Hk w. unfold bind. specialize (Hc w).
  destruct (c w) as [[a|e] w1]; simpl in *; [|done].
  destruct (Hk a w1) as [-> ->]. done.
Qed.

Lemma so_terminal_input s : so_terminal (input s).
Proof.
  apply so_terminal_bind; [apply so_terminal_print|intros _; apply so_terminal_ler].
Qed.

Lemma so_terminal_para_cada {A} (f : A → M unit) l :
  (∀ x, so_terminal (f x)) → so_terminal (para_cada f l).
Proof.
  intros Hf. induction l as [|x l IH]; simpl.
  - apply so_terminal_ret.
  - apply so_terminal_bind; [apply Hf|done].
Qed.

Lemma filter_todos {A} (P : A → Prop) `{!∀ x, Decision (P x)} (l : list A) :
  Forall P l → filter P l = l.
Proof.
  induction 1 as [|x l Hx _ IH]; [done|].
  by rewrite filter_cons_True, IH.
Qed.

Lemma filter_nenhum {A} (P : A → Prop) `{!∀ x, Decision (P x)} (l : list A) :
  Forall (λ x, ¬ P x) l → filter P l = [].
Proof.
  induction 1 as [|x l Hx _ IH]; [done|].
  by rewrite filter_cons_False.
Qed.

End Basicos.

(** The commands that only talk to the terminal. *)
Create HintDb terminal discriminated.

#[global] Hint Resolve so_terminal_ret so_terminal_puro so_terminal_print
  so_terminal_ler so_terminal_carregar so_terminal_input : terminal.

(** Splits a sequence of terminal commands into its steps. *)
Ltac so_no_terminal :=
  repeat first
    [ solve [auto with terminal]
    | apply so_terminal_bind; [solve [auto with terminal]|intros ?] ].

Section Varredura.
Context `{PT : PyTexto} `{PD : PyDatas}.

(** The test of the loop, case by case: when the deadline can be compared
    with the clock the test is the predicate of the specification; when it
    cannot, the test raises [TypeError]. *)
Lemma vencida_casos agora_dt (t : tarefa) :
  (comparavel agora_dt t ∧
   vencida agora_dt t = Ok (bool_decide (prazo_vencido agora_dt t))) ∨
  (¬ comparavel agora_dt t ∧ ¬ prazo_vencido agora_dt t ∧
   vencida agora_dt t = Raise TypeError).
Proof.
  unfold vencida, prazo_de, get, get_ou.
  destruct (t !! "prazo") as [[|b|n|s]|] eqn:Ht; simpl.
  1-3,5: left; split; [intros s' d' ?; congruence|];
    rewrite bool_decide_eq_false_2;
    [by repeat case_match|intros (s' & d' & ? & _); congruence].
  case_bool_decide as Hs; simpl.
  { left. split; [intros s' d' ? ?; congruence|].
    rewrite bool_decide_eq_false_2; [done|].
    intros (s' & d' & ? & ? & _). congruence. }
  destruct (fromisoformat s) as [d|] eqn:Hd.
  - destruct (dt_le d agora_dt) as [b|] eqn:Hle.
    + left. split.
      { intros s' d' ? _ ?. assert (d' = d) as -> by congruence. by rewrite Hle. }
      destruct b.
      * rewrite bool_decide_eq_true_2; [done|]. by exists s, d.
      * rewrite bool_decide_eq_false_2; [done|].
        intros (s' & d' & ? & _ & ? & ?). congruence.
    + right. split; [|split; [|done]].
      * intros H. destruct (H s d Ht Hs Hd) as [b Hb]. congruence.
      * intros (s' & d' & ? & _ & ? & ?). congruence.
  - left. split; [intros s' d' ? _ ?; congruence|].
    rewrite bool_decide_eq_false_2; [done|].
    intros (s' & d' & ? & _ & ? & _). congruence.
Qed.

(** The test of the loop is the predicate of the specification. *)
Lemma vencida_spec agora_dt (t : tarefa) :
  vencida agora_dt t = Ok true ↔ prazo_vencido agora_dt t.
Proof.
  destruct (vencida_casos agora_dt t) as [[_ ->]|(_ & Hn & ->)].
  - split.
    + intros [= H]. by apply bool_decide_eq_true in H.
    + intros H. by rewrite bool_decide_eq_true_2.
  - split; [done|tauto].
Qed.

(** The test raises exactly on a deadline that cannot be compared. *)
Lemma vencida_levanta agora_dt (t : tarefa) e :
  vencida agora_dt t = Raise e ↔ e = TypeError ∧ ¬ comparavel agora_dt t.
Proof.
  destruct (vencida_casos agora_dt t) as [[Hc ->]|(Hc & _ & ->)].
  - split; [done|tauto].
  - split; [by intros [= <-]|by intros [-> _]].
Qed.

Lemma separar_desde_filter agora_dt (l restantes removidas : list tarefa) :
  Forall (comparavel agora_dt) l →
  separar_desde agora_dt restantes removidas l =
    Ok (restantes ++ filter (λ t, ¬ prazo_vencido agora_dt t) l,
        removidas ++ filter (prazo_vencido agora_dt) l).
Proof.
  intros Hl. revert restantes removidas.
  induction Hl as [|t l Ht _ IH]; intros restantes removidas; simpl.
  { by rewrite !app_nil_r. }
  destruct (vencida_casos agora_dt t) as [[_ ->]|(Hn & _)]; [|done]. simpl.
  case_bool_decide as Hv.
  - rewrite IH, (filter_cons_True (prazo_vencido agora_dt)) by done.
    rewrite filter_cons_False by tauto. by rewrite <- app_assoc.
  - rewrite IH, (filter_cons_False (prazo_vencido agora_dt)) by done.
    rewrite filter_cons_True by done. by rewrite <- app_assoc.
Qed.

Lemma separar_desde_TypeError agora_dt (l restantes removidas : list tarefa) :
  ¬ Forall (comparavel agora_dt) l →
  separar_desde agora_dt restantes removidas l = Raise TypeError.
Proof.
  revert restantes removidas.
  induction l as [|t l IH]; intros restantes removidas Hl; simpl.
  { destruct Hl. constructor. }
  destruct (vencida_casos agora_dt t) as [[Ht ->]|(_ & _ & ->)]; [|done]. simpl.
  assert (¬ Forall (comparavel agora_dt) l) as Hl'.
  { intros H. apply Hl. by constructor. }
  destruct (bool_decide _); by apply IH.
Qed.

Lemma separar_filter agora_dt (l : list tarefa) :
  Forall (comparavel agora_dt) l →
  separar agora_dt l =
    Ok (filter (λ t, ¬ prazo_vencido agora_dt t) l,
        filter (prazo_vencido agora_dt) l).
Proof. intros Hl. unfold separar. by rewrite separar_desde_filter. Qed.

Lemma separar_TypeError agora_dt (l : list tarefa) :
  ¬ Forall (comparavel agora_dt) l → separar agora_dt l = Raise TypeError.
Proof. apply separar_desde_TypeError. Qed.

(** An expired deadline is one that can be compared. *)
Lemma prazo_vencido_comparavel agora_dt (t : tarefa) :
  prazo_vencido agora_dt t → comparavel agora_dt t.
Proof.
  intros Hv. destruct (vencida_casos agora_dt t) as [[Hc _]|(_ & Hn & _)]; tauto.
Qed.

Lemma so_terminal_avisar r : so_terminal (avisar_remocao r).
Proof. unfold avisar_remocao. so_no_terminal. Qed.

(** A deadline that cannot be compared stops the sweep: it raises
    [TypeError] before it has saved or printed anything. *)
Lemma remover_vencidas_TypeError notificar agora_dt w :
  ¬ Forall (comparavel agora_dt) (colecao w) →
  remover_vencidas notificar agora_dt w = (Raise TypeError, w).
Proof.
  intros Hl. unfold remover_vencidas, bind, carregar_tarefas, puro. cbn [fst snd].
  fold (colecao w). by rewrite separar_TypeError.
Qed.

(** What the sweep leaves on disk when every deadline can be compared. *)
Lemma remover_vencidas_disco notificar agora_dt w :
  Forall (comparavel agora_dt) (colecao w) →
  let w' := snd (remover_vencidas notificar agora_dt w) in
  (filter (prazo_vencido agora_dt) (colecao w) = [] ∧ w' = w) ∨
  (filter (prazo_vencido agora_dt) (colecao w) ≠ [] ∧
   disco w' = Documento (filter (λ t, ¬ prazo_vencido agora_dt t) (colecao w)) ∧
   gravacoes w' = S (gravacoes w)).
Proof.
  intros Hl. unfold remover_vencidas, bind, carregar_tarefas, puro. cbn [fst snd].
  fold (colecao w). rewrite separar_filter by done.
  destruct (filter (prazo_vencido agora_dt) (colecao w)) as [|r rs] eqn:Hrem.
  - left. done.
  - right. split; [done|]. unfold salvar_tarefas.
    destruct notificar.
    + pose proof (so_terminal_para_cada avisar_remocao (r :: rs) so_terminal_avisar) as H.
      match goal with |- context [para_cada _ _ ?w1] => specialize (H w1) end.
      destruct (para_cada _ _ _) as [[[]|e] w2]; simpl in *; tauto.
    + done.
Qed.

(** The collection that loads after the sweep. *)
Lemma colecao_apos_varredura notificar agora_dt w :
  Forall (comparavel agora_dt) (colecao w) →
  colecao (snd (remover_vencidas notificar agora_dt w)) =
    filter (λ t, ¬ prazo_vencido agora_dt t) (colecao w).
Proof.
  intros Hl.
  destruct (remover_vencidas_disco notificar agora_dt w Hl) as [[Hnil ->]|(_ & Hd & _)].
  - symmetry. apply filter_todos.
    apply Forall_forall. intros t Ht Hv.
    by apply (filter_nil_not_elem_of _ _ t Hnil).
  - unfold colecao at 1. rewrite Hd. apply conteudo_Documento.
    apply Forall_forall. intros t Ht. apply list_elem_of_filter in Ht as [_ Ht].
    revert t Ht. apply Forall_forall, conteudo_sem_tipo.
Qed.

(** With nothing expired the sweep changes nothing. *)
Lemma varredura_sem_vencidas notificar agora_dt w :
  Forall (comparavel agora_dt) (colecao w) →
  filter (prazo_vencido agora_dt) (colecao w) = [] →
  remover_vencidas notificar agora_dt w = (Ok tt, w).
Proof.
  intros Hl Hnil. unfold remover_vencidas, bind, carregar_tarefas, puro.
  cbn [fst snd]. fold (colecao w). by rewrite separar_filter, Hnil.
Qed.

(** C8. When no loaded task is expired the sweep writes nothing: the save
    primitive is not called, the file is left as it was and nothing is
    printed, so the world is unchanged.  The sweep returns normally, unless
    a stored deadline cannot be compared with the clock: then it raises
    [TypeError], still with the world unchanged. *)
Theorem C8_varredura_sem_vencidas_nao_grava notificar agora_dt w :
  (∀ t, t ∈ colecao w → ¬ prazo_vencido agora_dt t) →
  snd (remover_vencidas notificar agora_dt w) = w ∧
  (Forall (comparavel agora_dt) (colecao w) →
   remover_vencidas notificar agora_dt w = (Ok tt, w)) ∧
  (¬ Forall (comparavel agora_dt) (colecao w) →
   remover_vencidas notificar agora_dt w = (Raise TypeError, w)).
Proof.
  intros Hnone.
  assert (Forall (comparavel agora_dt) (colecao w) →
          remover_vencidas notificar agora_dt w = (Ok tt, w)) as Hok.
  { intros Hl. apply varredura_sem_vencidas; [done|].
    apply filter_nenhum. by apply Forall_forall. }
  split; [|split; [done|apply remover_vencidas_TypeError]].
  destruct (decide (Forall (comparavel agora_dt) (colecao w))) as [Hl|Hl].
  - by rewrite Hok.
  - by rewrite remover_vencidas_TypeError.
Qed.

End Varredura.

(** ** Save then load *)

Section Persistencia.

Lemma salvar_e_carregar_eq (tarefas : list tarefa) (w : mundo) :
  salvar_e_carregar tarefas w = Ok ((λ t : tarefa, delete "tipo" t) <$> tarefas).
Proof. done. Qed.

(** C3 (amended). Saving a collection and loading it again gives a
    collection of the same length in which every record has lost the field
    [tipo] and kept every other field, whether the schema knows it or not. *)
Theorem C3_ida_e_volta_remove_so_tipo (tarefas : list tarefa) (w : mundo) :
  ∃ l, salvar_e_carregar tarefas w = Ok l ∧
       length l = length tarefas ∧
       ∀ i t, tarefas !! i = Some t →
         ∃ t', l !! i = Some t' ∧ t' !! "tipo" = None ∧
               ∀ k, k ≠ "tipo" → t' !! k = t !! k.
Proof.
  eexists. split; [apply salvar_e_carregar_eq|]. split.
  - by rewrite length_fmap.
  - intros i t Hi. exists (delete "tipo" t). split.
    + by rewrite list_lookup_fmap, Hi.
    + split; [apply lookup_delete_eq|].
      intros k Hk. by apply lookup_delete_ne.
Qed.

End Persistencia.

(** ** Create *)

Section Criacao.
Context `{PT : PyTexto} `{PD : PyDatas}.

(** Create calls save only after four answers, a title that is not blank
    and a deadline answer that is blank or parses. *)
Lemma criar_so_grava_se_valido novo_id agora_dt w :
  gravacoes (snd (criar_tarefa_interativa novo_id agora_dt w)) ≠ gravacoes w →
  ∃ x1 x2 x3 x4 resto,
    entrada w = x1 :: x2 :: x3 :: x4 :: resto ∧ strip x1 ≠ "" ∧
    (strip x4 = "" ∨ is_Some (parse_prazo (strip x4))).
Proof.
  unfold criar_tarefa_interativa. executa.
  destruct (entrada w) as [|x1 [|x2 [|x3 [|x4 resto]]]] eqn:Hin; simpl;
    try done; try (case_bool_decide; simpl; done).
  - case_bool_decide; simpl; [done|]. by destruct (quantidade_de _).
  - case_bool_decide as H1; simpl; [done|].
    destruct (quantidade_de _); simpl; [|done].
    case_bool_decide as H4; simpl.
    + intros _. exists x1, x2, x3, x4, resto. auto.
    + case_bool_decide as Hp; simpl; [|done].
      intros _. exists x1, x2, x3, x4, resto. auto.
Qed.

(** C5. Create with a title that is empty after trimming prints the
    validation message and stops: nothing is saved and the file is left as
    it was.  Create with a non-empty deadline answer that does not parse
    against the fixed format prints the format message and stops in the same
    way: no record is created and nothing is saved. *)
Theorem C5_criar_valida_titulo_e_prazo novo_id agora_dt w :
  (∀ x resto,
     entrada w = x :: resto → strip x = "" →
     criar_tarefa_interativa novo_id agora_dt w =
       (Ok tt, Mundo (disco w) resto
                 (saida w ++ ["Título: "; "Título é obrigatório."])
                 (gravacoes w))) ∧
  (∀ x1 x2 x3 x4 resto q,
     entrada w = x1 :: x2 :: x3 :: x4 :: resto →
     strip x1 ≠ "" → quantidade_de (strip x3) = Ok q →
     strip x4 ≠ "" → parse_prazo (strip x4) = None →
     criar_tarefa_interativa novo_id agora_dt w =
       (Ok tt, Mundo (disco w) resto
                 (saida w ++ ["Título: "; "Descrição (opcional): ";
                              "Quantidade (opcional): ";
                              "Prazo (%Y-%m-%d %H:%M) ou Enter para nenhum: ";
                              "Formato de data inválido."])
                 (gravacoes w))).
Proof.
  split.
  - intros x resto Hin Hx.
    unfold criar_tarefa_interativa. executa.
    rewrite Hin, Hx. simpl. by rewrite <- app_assoc.
  - intros x1 x2 x3 x4 resto q Hin H1 Hq H4 Hp.
    unfold criar_tarefa_interativa. executa.
    rewrite Hin. simpl. rewrite bool_decide_eq_false_2 by done. simpl.
    rewrite Hq. simpl. rewrite Hp.
    rewrite (bool_decide_eq_false_2 (strip x4 = "")) by done. simpl.
    by rewrite <- !app_assoc.
Qed.

End Criacao.

(** ** Selection *)

Section Selecao.
Context `{PT : PyTexto} `{PD : PyDatas}.

Lemma bind_Ok_inv {A B} (c : M A) (k : A → M B) w b w2 :
  bind c k w = (Ok b, w2) → ∃ a w1, c w = (Ok a, w1) ∧ k a w1 = (Ok b, w2).
Proof.
  unfold bind. destruct (c w) as [[a|e] w1]; [|done]. intros H. by exists a, w1.
Qed.

Lemma bind_Ok {A B} (c : M A) (k : A → M B) w a w1 :
  c w = (Ok a, w1) → bind c k w = k a w1.
Proof. unfold bind. by intros ->. Qed.

Lemma input_cons prompt w x resto :
  entrada w = x :: resto →
  input prompt w = (Ok x, Mundo (disco w) resto (saida w ++ [prompt]) (gravacoes w)).
Proof. intros H. executa. by rewrite H. Qed.

Lemma so_terminal_enumerar i l : so_terminal (enumerar i l).
Proof.
  revert i. induction l as [|t l IH]; intros i; simpl; so_no_terminal.
Qed.

Lemma so_terminal_selecionar prompt : so_terminal (selecionar_tarefa prompt).
Proof.
  unfold selecionar_tarefa. so_no_terminal.
  case_bool_decide; so_no_terminal.
  match goal with |- context [match ?enc with _ => _ end] =>
    destruct enc as [|t [|t2 enc]] end; so_no_terminal.
  apply so_terminal_bind; [apply so_terminal_enumerar|intros _]. so_no_terminal.
Qed.

Lemma casa_Ok q (t : tarefa) b :
  casa q t = Ok b → ∃ s, t !! "id" = Some (VStr s).
Proof.
  unfold casa, getitem. destruct (t !! "id") as [[| | |s]|]; simpl; try done.
  intros _. by exists s.
Qed.

Lemma filtrar_Ok q l r :
  filtrar q l = Ok r → ids_texto l ∧ ∀ t, t ∈ r → t ∈ l.
Proof.
  revert r. induction l as [|t l IH]; intros r; simpl.
  - intros [= <-]. split; [constructor|done].
  - destruct (casa q t) as [b|e] eqn:Hc; simpl; [|done].
    destruct (filtrar q l) as [r'|e] eqn:Hf; simpl; [|done].
    intros [= <-]. destruct (IH r' eq_refl) as [Hids Hsub].
    split; [constructor; [by eapply casa_Ok|done]|].
    intros x Hx. destruct b.
    + apply elem_of_cons in Hx as [->|Hx]; [left|right; auto].
    + right. auto.
Qed.

Lemma escolher_Ok idx l (t : tarefa) :
  escolher idx l = Ok (Some t) → t ∈ l.
Proof.
  unfold escolher. destruct (isdigit idx); [|done].
  destruct (int_de idx) as [n|]; [|done].
  destruct (_ && _); [|done].
  intros [= H]. by eapply list_elem_of_lookup_2.
Qed.

(** A successful selection returns a loaded task, has checked that every
    loaded task has a string as id, and has neither written the file nor
    called save. *)
Lemma selecionar_tarefa_Some prompt w w1 (t : tarefa) :
  selecionar_tarefa prompt w = (Ok (Some t), w1) →
  disco w1 = disco w ∧ gravacoes w1 = gravacoes w ∧
  t ∈ colecao w ∧ ids_texto (colecao w).
Proof.
  intros Hsel.
  pose proof (so_terminal_selecionar prompt w) as Hterm.
  rewrite Hsel in Hterm. simpl in Hterm. destruct Hterm as [Hd Hg].
  split; [done|]. split; [done|].
  unfold selecionar_tarefa in Hsel.
  apply bind_Ok_inv in Hsel as (tarefas & wa & Hcar & Hsel).
  unfold carregar_tarefas in Hcar. injection Hcar as <- <-.
  apply bind_Ok_inv in Hsel as (x & wb & _ & Hsel).
  case_bool_decide; [by unfold ret in Hsel|].
  apply bind_Ok_inv in Hsel as (enc & wc & Hfil & Hsel).
  unfold puro in Hfil. injection Hfil as Hfil _.
  apply filtrar_Ok in Hfil as [Hids Hsub]. split; [|done].
  apply Hsub. destruct enc as [|t1 [|t2 enc]].
  - apply bind_Ok_inv in Hsel as (? & ? & _ & Hsel). by unfold ret in Hsel.
  - unfold ret in Hsel. injection Hsel as -> _. by left.
  - apply bind_Ok_inv in Hsel as (? & wd & _ & Hsel).
    apply bind_Ok_inv in Hsel as (idx & we & _ & Hsel).
    unfold puro in Hsel. injection Hsel as Hsel _.
    by eapply escolher_Ok.
Qed.

End Selecao.

(** ** Looking a task up by id *)

Section Ids.

Lemma py_eq_VStr (a : valor) s : py_eq a (VStr s) = true ↔ a = VStr s.
Proof.
  destruct a as [|b|n|s']; simpl; try (split; [done|congruence]).
  rewrite bool_decide_eq_true. split; congruence.
Qed.

Lemma tem_id_VStr s (y : tarefa) : tem_id (VStr s) y ↔ y !! "id" = Some (VStr s).
Proof.
  split.
  - intros (b & Hb & Heq). apply py_eq_VStr in Heq. by subst.
  - intros H. exists (VStr s). split; [done|]. by apply py_eq_VStr.
Qed.

Lemma tem_id_outro_id i (y : tarefa) : tem_id i y → outro_id i y → False.
Proof. intros (b & Hb & Heq) (b' & Hb' & Hne). congruence. Qed.

(** In a collection where every task has an id, either no task carries
    [i] or there is a first one that does. *)
Lemma primeira_ocorrencia i (l : list tarefa) :
  Forall (λ x : tarefa, is_Some (x !! "id")) l →
  Forall (outro_id i) l ∨
  ∃ antes item depois,
    l = antes ++ item :: depois ∧ Forall (outro_id i) antes ∧ tem_id i item.
Proof.
  induction 1 as [|x l [b Hb] _ IH]; [by left|].
  destruct (py_eq b i) eqn:Heq.
  - right. exists [], x, l. split; [done|]. split; [constructor|]. by exists b.
  - destruct IH as [Hall|(antes & item & depois & -> & Hantes & Hitem)].
    + left. constructor; [by exists b|done].
    + right. exists (x :: antes), item, depois. split; [done|].
      split; [|done]. constructor; [by exists b|done].
Qed.

Lemma ids_texto_is_Some (l : list tarefa) :
  ids_texto l → Forall (λ x : tarefa, is_Some (x !! "id")) l.
Proof. intros H. eapply Forall_impl; [exact H|]. intros x [s Hs]. by rewrite Hs. Qed.

(** A task of the collection with the id [s] makes the first case of
    [primeira_ocorrencia] impossible. *)
Lemma primeira_com_id s (t : tarefa) (l : list tarefa) :
  ids_texto l → t ∈ l → t !! "id" = Some (VStr s) →
  ∃ antes item depois,
    l = antes ++ item :: depois ∧ Forall (outro_id (VStr s)) antes ∧
    item !! "id" = Some (VStr s).
Proof.
  intros Hids Hin Hid.
  destruct (primeira_ocorrencia (VStr s) l (ids_texto_is_Some l Hids))
    as [Hall|(antes & item & depois & -> & Hantes & Hitem)].
  - exfalso. rewrite Forall_forall in Hall.
    eapply tem_id_outro_id; [|by apply Hall]. by apply tem_id_VStr.
  - exists antes, item, depois. by rewrite <- tem_id_VStr.
Qed.

(** With unique ids, the task found by id is the task itself. *)
Lemma ids_unicos_mesmo (l : list tarefa) (a b : tarefa) :
  ids_unicos l → a ∈ l → b ∈ l → a !! "id" = b !! "id" → a = b.
Proof.
  unfold ids_unicos. intros Hnd Ha Hb Heq.
  apply list_elem_of_lookup in Ha as [i Hi]. apply list_elem_of_lookup in Hb as [j Hj].
  assert (i = j) as ->; [|congruence].
  eapply NoDup_lookup; [exact Hnd| |].
  - rewrite list_lookup_fmap, Hi. done.
  - rewrite list_lookup_fmap, Hj. simpl. by rewrite Heq.
Qed.

(** *** The four loops over the reloaded collection *)

Lemma substituir_ausente (t : tarefa) i (l : list tarefa) :
  t !! "id" = Some i → Forall (outro_id i) l → substituir t l = Ok l.
Proof.
  intros Ht. induction 1 as [|x l (b & Hb & Hne) _ IH]; simpl; [done|].
  unfold getitem. rewrite Hb, Ht. simpl. rewrite Hne, IH. done.
Qed.

Lemma substituir_primeira (t : tarefa) i antes item depois :
  t !! "id" = Some i → Forall (outro_id i) antes → tem_id i item →
  substituir t (antes ++ item :: depois) = Ok (antes ++ t :: depois).
Proof.
  intros Ht Hantes (c & Hc & Heq).
  induction Hantes as [|x l (b & Hb & Hne) _ IH]; simpl.
  - unfold getitem. rewrite Hc, Ht. simpl. by rewrite Heq.
  - unfold getitem at 1 2. rewrite Hb, Ht. simpl. rewrite Hne, IH. done.
Qed.

Lemma sem_id_ausente (t : tarefa) i (l : list tarefa) :
  t !! "id" = Some i → Forall (outro_id i) l → sem_id t l = Ok l.
Proof.
  intros Ht. induction 1 as [|x l (b & Hb & Hne) _ IH]; simpl; [done|].
  unfold getitem. rewrite Hb, Ht. simpl. rewrite IH. simpl. by rewrite Hne.
Qed.

Lemma sem_id_Ok (t : tarefa) (l r : list tarefa) :
  sem_id t l = Ok r → ∀ x, x ∈ r → x ∈ l.
Proof.
  revert r. induction l as [|y l IH]; intros r; simpl.
  - by intros [= <-].
  - destruct (getitem y "id") as [a|]; simpl; [|done].
    destruct (getitem t "id") as [b|]; simpl; [|done].
    destruct (sem_id t l) as [r'|]; simpl; [|done].
    intros [= <-] x Hx. destruct (negb (py_eq a b)).
    + apply elem_of_cons in Hx as [->|Hx]; [left|right; eauto].
    + right. eauto.
Qed.

Lemma alternar_ausente (t : tarefa) i (l : list tarefa) :
  t !! "id" = Some i → Forall (outro_id i) l → alternar t l = Ok None.
Proof.
  intros Ht. induction 1 as [|x l (b & Hb & Hne) _ IH]; simpl; [done|].
  unfold getitem. rewrite Hb, Ht. simpl. rewrite Hne, IH. done.
Qed.

Lemma alternar_primeira (t : tarefa) i antes item depois :
  t !! "id" = Some i → Forall (outro_id i) antes → tem_id i item →
  alternar t (antes ++ item :: depois) =
    Ok (Some (antes ++
              <["concluida" :=
                  VBool (negb (truthy (get_ou item "concluida" (VBool false))))]> item
              :: depois)).
Proof.
  intros Ht Hantes (c & Hc & Heq).
  induction Hantes as [|x l (b & Hb & Hne) _ IH]; simpl.
  - unfold getitem. rewrite Hc, Ht. simpl. by rewrite Heq.
  - unfold getitem at 1 2. rewrite Hb, Ht. simpl. rewrite Hne, IH. done.
Qed.

Lemma acumular_ausente (t : tarefa) i dur (l : list tarefa) :
  t !! "id" = Some i → Forall (outro_id i) l → acumular t dur l = Ok None.
Proof.
  intros Ht. induction 1 as [|x l (b & Hb & Hne) _ IH]; simpl; [done|].
  unfold getitem. rewrite Hb, Ht. simpl. rewrite Hne, IH. done.
Qed.

Lemma acumular_primeira (t : tarefa) i dur antes item item' depois :
  t !! "id" = Some i → Forall (outro_id i) antes → tem_id i item →
  acumular_item dur item = Ok item' →
  acumular t dur (antes ++ item :: depois) = Ok (Some (antes ++ item' :: depois)).
Proof.
  intros Ht Hantes (c & Hc & Heq) Hacc.
  induction Hantes as [|x l (b & Hb & Hne) _ IH]; simpl.
  - unfold getitem. rewrite Hc, Ht. simpl. by rewrite Heq, Hacc.
  - unfold getitem at 1 2. rewrite Hb, Ht. simpl. rewrite Hne, IH. done.
Qed.

Lemma acumular_primeira_erro (t : tarefa) i dur antes item e depois :
  t !! "id" = Some i → Forall (outro_id i) antes → tem_id i item →
  acumular_item dur item = Raise e →
  acumular t dur (antes ++ item :: depois) = Raise e.
Proof.
  intros Ht Hantes (c & Hc & Heq) Hacc.
  induction Hantes as [|x l (b & Hb & Hne) _ IH]; simpl.
  - unfold getitem. rewrite Hc, Ht. simpl. by rewrite Heq, Hacc.
  - unfold getitem at 1 2. rewrite Hb, Ht. simpl. rewrite Hne, IH. done.
Qed.

End Ids.

(** ** Edit *)

Section Edicao.
Context `{PT : PyTexto} `{PD : PyDatas}.

Lemma com_titulo_outro s (t : tarefa) k :
  k ≠ "titulo" → com_titulo s t !! k = t !! k.
Proof. intros Hk. unfold com_titulo. case_bool_decide; [done|]. by rewrite lookup_insert_ne. Qed.

Lemma com_descricao_outro s (t : tarefa) k :
  k ≠ "descricao" → com_descricao s t !! k = t !! k.
Proof. intros Hk. unfold com_descricao. case_bool_decide; [done|]. by rewrite lookup_insert_ne. Qed.

Lemma com_quantidade_outro s (t t3 : tarefa) k :
  com_quantidade s t = Ok t3 → k ≠ "quantidade" → t3 !! k = t !! k.
Proof.
  unfold com_quantidade. intros H Hk. case_bool_decide; [congruence|].
  destruct (isdigit s); [destruct (int_de s); [|done]|];
    injection H as <-; by rewrite lookup_insert_ne.
Qed.

Lemma com_prazo_outro s (t : tarefa) k :
  k ≠ "prazo" → com_prazo s t !! k = t !! k.
Proof.
  intros Hk. unfold com_prazo. case_bool_decide; [done|].
  destruct (parse_prazo s); [|done]. by rewrite lookup_insert_ne.
Qed.

Lemma com_concluida_outro s (t : tarefa) k :
  k ≠ "concluida" → com_concluida s t !! k = t !! k.
Proof. intros Hk. unfold com_concluida. by rewrite lookup_insert_ne. Qed.

(** Edit touches no field besides the five it asks about. *)
Lemma campos_editados_outro x1 x2 x3 x4 x5 (t t' : tarefa) k :
  campos_editados x1 x2 x3 x4 x5 t = Ok t' →
  k ≠ "titulo" → k ≠ "descricao" → k ≠ "quantidade" → k ≠ "prazo" →
  k ≠ "concluida" →
  t' !! k = t !! k.
Proof.
  unfold campos_editados. intros H ? ? ? ? ?.
  destruct (com_quantidade _ _) as [t3|] eqn:Hq; simpl in H; [|done].
  injection H as <-.
  rewrite com_concluida_outro, com_prazo_outro by done.
  rewrite (com_quantidade_outro _ _ _ _ Hq) by done.
  by rewrite com_descricao_outro, com_titulo_outro.
Qed.

(** The quantity answer is the only one that can make the edit raise. *)
Lemma campos_editados_Ok x1 x2 x3 x4 x5 (t : tarefa) :
  (isdigit (strip x3) = true → is_Some (int_de (strip x3))) →
  ∃ t', campos_editados x1 x2 x3 x4 x5 t = Ok t'.
Proof.
  intros Hq. unfold campos_editados, com_quantidade.
  case_bool_decide; simpl; [by eexists|].
  destruct (isdigit (strip x3)); simpl; [|by eexists].
  destruct Hq as [n ->]; [done|]. by eexists.
Qed.

(** The fields of the edited record, one answer at a time. *)
Lemma campos_editados_campos x1 x2 x3 x4 x5 (t t' : tarefa) :
  campos_editados x1 x2 x3 x4 x5 t = Ok t' →
  t' !! "titulo" =
    (if bool_decide (strip x1 = "") then t !! "titulo" else Some (VStr (strip x1))) ∧
  t' !! "descricao" =
    (if bool_decide (strip x2 = "") then t !! "descricao" else Some (VStr (strip x2))) ∧
  t' !! "quantidade" =
    (if bool_decide (strip x3 = "") then t !! "quantidade"
     else if isdigit (strip x3) then VInt <$> int_de (strip x3)
     else Some VNone) ∧
  t' !! "prazo" =
    (if bool_decide (strip x4 = "") then t !! "prazo"
     else match parse_prazo (strip x4) with
          | Some p => Some (VStr (isoformat p))
          | None => t !! "prazo"
          end) ∧
  t' !! "concluida" = Some (VBool (afirmativa (lower (strip x5)))).
Proof.
  unfold campos_editados. intros H.
  destruct (com_quantidade _ _) as [t3|] eqn:Hq; simpl in H; [|done].
  injection H as <-.
  repeat split.
  - rewrite com_concluida_outro, com_prazo_outro by done.
    rewrite (com_quantidade_outro _ _ _ _ Hq) by done.
    rewrite com_descricao_outro by done.
    unfold com_titulo. case_bool_decide; [done|]. by rewrite lookup_insert_eq.
  - rewrite com_concluida_outro, com_prazo_outro by done.
    rewrite (com_quantidade_outro _ _ _ _ Hq) by done.
    unfold com_descricao. case_bool_decide.
    + by rewrite com_titulo_outro.
    + by rewrite lookup_insert_eq.
  - rewrite com_concluida_outro, com_prazo_outro by done.
    unfold com_quantidade in Hq. case_bool_decide.
    + injection Hq as <-. by rewrite com_descricao_outro, com_titulo_outro.
    + destruct (isdigit (strip x3)); [destruct (int_de (strip x3)); [|done]|];
        injection Hq as <-; by rewrite lookup_insert_eq.
  - rewrite com_concluida_outro by done.
    unfold com_prazo. case_bool_decide.
    + rewrite (com_quantidade_outro _ _ _ _ Hq) by done.
      by rewrite com_descricao_outro, com_titulo_outro.
    + destruct (parse_prazo (strip x4)).
      * by rewrite lookup_insert_eq.
      * rewrite (com_quantidade_outro _ _ _ _ Hq) by done.
        by rewrite com_descricao_outro, com_titulo_outro.
  - unfold com_concluida. by rewrite lookup_insert_eq.
Qed.

(** Running Edit on the selected task [t] with five answers at hand: the
    lines it prints are the heading, the five questions, each showing the
    current value of its field, and the success message. *)
Lemma editar_selecionada_falas (t t' : tarefa) w x1 x2 x3 x4 x5 resto l' atual pz :
  entrada w = x1 :: x2 :: x3 :: x4 :: x5 :: resto →
  t !! "titulo" = Some atual →
  format_prazo (get t "prazo") = Ok pz →
  campos_editados x1 x2 x3 x4 x5 t = Ok t' →
  substituir t' (colecao w) = Ok l' →
  editar_selecionada t w =
    (Ok tt, Mundo (Documento l') resto
              (saida w ++
               ["Deixe em branco para manter.";
                "Título [" +:+ py_str atual +:+ "]: ";
                "Descrição [" +:+ py_str (get_ou t "descricao" (VStr "")) +:+ "]: ";
                "Quantidade [" +:+ py_str (get_ou t "quantidade" (VStr "")) +:+ "]: ";
                "Prazo [" +:+ pz +:+ "]: ";
                "Marcar como concluída? (s/N): ";
                "Tarefa atualizada."])
              (S (gravacoes w))).
Proof.
  intros Hin Hat Hpz Hed Hsub.
  unfold campos_editados in Hed.
  destruct (com_quantidade _ _) as [t3|] eqn:Hq; simpl in Hed; [|done].
  injection Hed as <-.
  assert (get t3 "prazo" = get t "prazo") as Hprazo.
  { unfold get, get_ou. rewrite (com_quantidade_outro _ _ _ _ Hq) by done.
    by rewrite com_descricao_outro, com_titulo_outro. }
  unfold editar_selecionada, getitem. rewrite Hat. executa.
  rewrite Hin. simpl. rewrite Hq. simpl. rewrite Hprazo, Hpz. simpl.
  fold (colecao w). rewrite Hsub. simpl.
  unfold get_ou. rewrite com_descricao_outro, !com_titulo_outro by done.
  by rewrite <- !app_assoc.
Qed.

(** Running Edit on the selected task [t] with five answers at hand. *)
Lemma editar_selecionada_executa (t t' : tarefa) w x1 x2 x3 x4 x5 resto l' :
  entrada w = x1 :: x2 :: x3 :: x4 :: x5 :: resto →
  is_Some (t !! "titulo") →
  (∃ pz, format_prazo (get t "prazo") = Ok pz) →
  campos_editados x1 x2 x3 x4 x5 t = Ok t' →
  substituir t' (colecao w) = Ok l' →
  ∃ falas,
    editar_selecionada t w =
      (Ok tt, Mundo (Documento l') resto
                (saida w ++ falas ++ ["Tarefa atualizada."]) (S (gravacoes w))).
Proof.
  intros Hin [atual Hat] [pz Hpz] Hed Hsub.
  rewrite (editar_selecionada_falas t t' w x1 x2 x3 x4 x5 resto l' atual pz) by done.
  by eexists [_; _; _; _; _; _].
Qed.

Lemma afirmativa_spec r : afirmativa r = true ↔ r = "s" ∨ r = "sim".
Proof.
  unfold afirmativa. rewrite orb_true_iff, !bool_decide_eq_true. done.
Qed.

(** Edit from the menu: the selection has returned [t] and five answers are
    at hand.  The first loaded task with the id of [t] is replaced by the
    edited record, the collection is saved once and the success message is
    the last thing printed. *)
Lemma editar_tarefa_interativa_executa w w1 (t : tarefa) x1 x2 x3 x4 x5 resto :
  selecionar_tarefa PROMPT_SELECAO w = (Ok (Some t), w1) →
  entrada w1 = x1 :: x2 :: x3 :: x4 :: x5 :: resto →
  is_Some (t !! "titulo") →
  (∃ pz, format_prazo (get t "prazo") = Ok pz) →
  (isdigit (strip x3) = true → is_Some (int_de (strip x3))) →
  ∃ t' antes item depois falas,
    campos_editados x1 x2 x3 x4 x5 t = Ok t' ∧
    colecao w = antes ++ item :: depois ∧
    Forall (λ x : tarefa, x !! "id" ≠ t !! "id") antes ∧
    item !! "id" = t !! "id" ∧ t' !! "id" = t !! "id" ∧
    editar_tarefa_interativa w =
      (Ok tt, Mundo (Documento (antes ++ t' :: depois)) resto
                (saida w1 ++ falas ++ ["Tarefa atualizada."]) (S (gravacoes w))).
Proof.
  intros Hsel Hin Htit Hpz Hq.
  destruct (selecionar_tarefa_Some _ _ _ _ Hsel) as (Hd & Hg & Ht & Hids).
  destruct (campos_editados_Ok x1 x2 x3 x4 x5 t Hq) as [t' Ht'].
  assert (∃ s, t !! "id" = Some (VStr s)) as [s Hs].
  { unfold ids_texto in Hids. rewrite Forall_forall in Hids. by apply Hids. }
  destruct (primeira_com_id s t (colecao w) Hids Ht Hs)
    as (antes & item & depois & Hl & Hantes & Hitem).
  assert (t' !! "id" = Some (VStr s)) as Hs'.
  { by rewrite (campos_editados_outro _ _ _ _ _ _ _ "id" Ht'). }
  assert (substituir t' (colecao w1) = Ok (antes ++ t' :: depois)) as Hsub.
  { unfold colecao. rewrite Hd. fold (colecao w). rewrite Hl.
    eapply substituir_primeira; [done|done|]. by apply tem_id_VStr. }
  destruct (editar_selecionada_executa t t' w1 _ _ _ _ _ _ _ Hin Htit Hpz Ht' Hsub)
    as [falas Hrun].
  exists t', antes, item, depois, falas.
  split; [done|]. split; [done|]. split.
  { eapply Forall_impl; [exact Hantes|]. intros x (b & Hb & Hne) Heq.
    rewrite Hb, Hs in Heq. injection Heq as ->.
    rewrite (proj2 (py_eq_VStr _ _) eq_refl) in Hne. done. }
  split; [congruence|]. split; [congruence|].
  unfold editar_tarefa_interativa. rewrite (bind_Ok _ _ _ _ _ Hsel).
  assert (nada (Some t) = false) as ->.
  { simpl. apply bool_decide_eq_false_2. intros ->. by rewrite lookup_empty in Hs. }
  by rewrite Hrun, Hg.
Qed.

(** What goes wrong with the quantity: an answer that [isdigit] accepts and
    [int] rejects makes Edit raise [ValueError] right after the quantity
    question; nothing is saved. *)
Lemma editar_quantidade_ValueError w w1 (t : tarefa) atual x1 x2 x3 resto :
  selecionar_tarefa PROMPT_SELECAO w = (Ok (Some t), w1) →
  entrada w1 = x1 :: x2 :: x3 :: resto →
  t !! "titulo" = Some atual →
  strip x3 ≠ "" → isdigit (strip x3) = true → int_de (strip x3) = None →
  ∃ falas,
    editar_tarefa_interativa w =
      (Raise ValueError, Mundo (disco w) resto (saida w1 ++ falas) (gravacoes w)).
Proof.
  intros Hsel Hin Hat Hne Hdig Hint.
  destruct (selecionar_tarefa_Some _ _ _ _ Hsel) as (Hd & Hg & Ht & Hids).
  assert (nada (Some t) = false) as Hnada.
  { unfold ids_texto in Hids. rewrite Forall_forall in Hids.
    destruct (Hids t Ht) as [s Hs].
    simpl. apply bool_decide_eq_false_2. intros ->. by rewrite lookup_empty in Hs. }
  unfold editar_tarefa_interativa. rewrite (bind_Ok _ _ _ _ _ Hsel), Hnada.
  unfold editar_selecionada, getitem. rewrite Hat. executa.
  rewrite Hin. simpl. unfold com_quantidade.
  rewrite bool_decide_eq_false_2 by done. rewrite Hdig, Hint. simpl.
  rewrite Hd, Hg. eexists [_; _; _; _]. by rewrite <- !app_assoc.
Qed.

(** C7. On every edit of an existing task an answer that is empty (after
    trimming, which is how every answer is read) for title, description,
    quantity or deadline leaves that field as it was, while the completion
    status is always written: it becomes true exactly when the answer is
    "s" or "sim" and false otherwise, whatever it was before. *)
Theorem C7_editar_mantem_campos_vazios_e_define_concluida
    w w1 (t : tarefa) x1 x2 x3 x4 x5 resto :
  selecionar_tarefa PROMPT_SELECAO w = (Ok (Some t), w1) →
  entrada w1 = x1 :: x2 :: x3 :: x4 :: x5 :: resto →
  is_Some (t !! "titulo") →
  (∃ pz, format_prazo (get t "prazo") = Ok pz) →
  (isdigit (strip x3) = true → is_Some (int_de (strip x3))) →
  ∃ t' antes item depois falas,
    colecao w = antes ++ item :: depois ∧
    Forall (λ x : tarefa, x !! "id" ≠ t !! "id") antes ∧
    item !! "id" = t !! "id" ∧ t' !! "id" = t !! "id" ∧
    editar_tarefa_interativa w =
      (Ok tt, Mundo (Documento (antes ++ t' :: depois)) resto
                (saida w1 ++ falas ++ ["Tarefa atualizada."]) (S (gravacoes w))) ∧
    (strip x1 = "" → t' !! "titulo" = t !! "titulo") ∧
    (strip x2 = "" → t' !! "descricao" = t !! "descricao") ∧
    (strip x3 = "" → t' !! "quantidade" = t !! "quantidade") ∧
    (strip x4 = "" → t' !! "prazo" = t !! "prazo") ∧
    ∃ b, t' !! "concluida" = Some (VBool b) ∧
         (b = true ↔ lower (strip x5) = "s" ∨ lower (strip x5) = "sim").
Proof.
  intros Hsel Hin Htit Hpz Hq.
  destruct (editar_tarefa_interativa_executa _ _ _ _ _ _ _ _ _ Hsel Hin Htit Hpz Hq)
    as (t' & antes & item & depois & falas & Ht' & Hl & Hantes & Hitem & Hid & Hrun).
  exists t', antes, item, depois, falas.
  destruct (campos_editados_campos _ _ _ _ _ _ _ Ht') as (H1 & H2 & H3 & H4 & H5).
  repeat (split; [done|]).
  split; [intros E; by rewrite H1, E|].
  split; [intros E; by rewrite H2, E|].
  split; [intros E; by rewrite H3, E|].
  split; [intros E; by rewrite H4, E|].
  eexists. split; [exact H5|]. apply afirmativa_spec.
Qed.


End Edicao.

(** ** The stopwatch *)

Section Cronometro.
Context `{PT : PyTexto} `{PD : PyDatas}.

Lemma acumular_item_int dur (item : tarefa) T :
  item !! "total_tempo_seg" = Some (VInt T) →
  acumular_item dur item = Ok (com_sessao T dur item).
Proof.
  intros HT. unfold acumular_item, com_sessao, get_ou.
  rewrite lookup_insert_ne by done. by rewrite HT.
Qed.

Lemma com_sessao_campos T dur (item : tarefa) :
  com_sessao T dur item !! "ultimo_tempo_seg" = Some (VInt dur) ∧
  com_sessao T dur item !! "total_tempo_seg" = Some (VInt (T + dur)) ∧
  ∀ k, k ≠ "ultimo_tempo_seg" → k ≠ "total_tempo_seg" →
       com_sessao T dur item !! k = item !! k.
Proof.
  unfold com_sessao. split; [|split].
  - rewrite lookup_insert_ne by done. by rewrite lookup_insert_eq.
  - by rewrite lookup_insert_eq.
  - intros k H1 H2. by rewrite !lookup_insert_ne.
Qed.

Lemma sem_tipo_meio (antes depois : list tarefa) (item item' : tarefa) :
  Forall sem_tipo (antes ++ item :: depois) →
  item' !! "tipo" = item !! "tipo" →
  Forall sem_tipo (antes ++ item' :: depois).
Proof.
  rewrite !Forall_app, !Forall_cons.
  intros (? & Hitem & ?) Heq. split; [done|]. split; [|done].
  unfold sem_tipo in *. by rewrite Heq.
Qed.

(** One session on the first task that carries the id of [t]. *)
Lemma acumular_cronometro_executa (t : tarefa) i w antes item depois T D :
  t !! "id" = Some i →
  colecao w = antes ++ item :: depois →
  Forall (outro_id i) antes → tem_id i item →
  item !! "total_tempo_seg" = Some (VInt T) →
  ∃ w', acumular_cronometro t D w = (Ok tt, w') ∧
        colecao w' = antes ++ com_sessao T D item :: depois ∧
        gravacoes w' = S (gravacoes w) ∧ entrada w' = entrada w.
Proof.
  intros Ht Hl Hantes Hitem HT.
  unfold acumular_cronometro. executa. fold (colecao w). rewrite Hl.
  rewrite (acumular_primeira t i D antes item (com_sessao T D item) depois)
    by (done || by apply acumular_item_int).
  eexists. split; [done|]. unfold colecao. simpl. split; [|done].
  apply (conteudo_Documento (antes ++ com_sessao T D item :: depois)).
  eapply sem_tipo_meio.
  - rewrite <- Hl. apply conteudo_sem_tipo.
  - by apply com_sessao_campos.
Qed.

(** Sessions in a row: the total grows by the sum, the last duration is that
    of the last session, nothing else moves. *)
Lemma sessoes_executa (t : tarefa) i antes depois Ds :
  t !! "id" = Some i → Forall (outro_id i) antes →
  ∀ w item T,
    colecao w = antes ++ item :: depois → tem_id i item →
    item !! "total_tempo_seg" = Some (VInt T) →
    ∃ w' item',
      sessoes t Ds w = (Ok tt, w') ∧
      colecao w' = antes ++ item' :: depois ∧
      item' !! "total_tempo_seg" = Some (VInt (T + soma_lista Ds)) ∧
      (∀ D, last Ds = Some D → item' !! "ultimo_tempo_seg" = Some (VInt D)) ∧
      (Ds = [] → item' = item) ∧
      (∀ k, k ≠ "ultimo_tempo_seg" → k ≠ "total_tempo_seg" →
            item' !! k = item !! k).
Proof.
  intros Ht Hantes. induction Ds as [|D Ds IH]; intros w item T Hl Hitem HT.
  - exists w, item. simpl. rewrite Z.add_0_r. by repeat split.
  - destruct (acumular_cronometro_executa t i w antes item depois T D
                Ht Hl Hantes Hitem HT) as (w1 & Hrun & Hl1 & _ & _).
    destruct (com_sessao_campos T D item) as (Hult & Htot & Hout).
    assert (tem_id i (com_sessao T D item)) as Hitem1.
    { destruct Hitem as (b & Hb & Heq). exists b. by rewrite Hout. }
    destruct (IH w1 _ _ Hl1 Hitem1 Htot) as (w' & item' & Hrun' & Hl' & Htot' & Hlast & Hnil & Hout').
    exists w', item'. split.
    { unfold sessoes in *. simpl. by rewrite (bind_Ok _ _ _ _ _ Hrun). }
    split; [done|]. split.
    { rewrite Htot'. simpl. do 2 f_equal. lia. }
    split.
    { intros D'. destruct Ds as [|D2 Ds'].
      - simpl. intros [= <-]. by rewrite (Hnil eq_refl).
      - intros Hl2. apply Hlast. exact Hl2. }
    split; [done|].
    intros k H1 H2. by rewrite Hout', Hout.
Qed.

(** C4. In a collection whose first task with id X has the total T, one
    run of the timer accumulator with (X, D) saves a collection in which
    that task has last = D and total = T + D, every other field of it and
    every other task being as before; N runs in a row with D1..DN leave
    total = T + (D1 + ... + DN) and last = DN.  (Nothing here needs D to be
    non-negative.) *)
Theorem C4_cronometro_acumula (t : tarefa) i w antes item depois T :
  t !! "id" = Some i →
  colecao w = antes ++ item :: depois →
  Forall (outro_id i) antes → tem_id i item →
  item !! "total_tempo_seg" = Some (VInt T) →
  (∀ D, ∃ w' item',
     acumular_cronometro t D w = (Ok tt, w') ∧
     colecao w' = antes ++ item' :: depois ∧
     item' !! "ultimo_tempo_seg" = Some (VInt D) ∧
     item' !! "total_tempo_seg" = Some (VInt (T + D)) ∧
     (∀ k, k ≠ "ultimo_tempo_seg" → k ≠ "total_tempo_seg" →
           item' !! k = item !! k)) ∧
  (∀ Ds, ∃ w' item',
     sessoes t Ds w = (Ok tt, w') ∧
     colecao w' = antes ++ item' :: depois ∧
     item' !! "total_tempo_seg" = Some (VInt (T + soma_lista Ds)) ∧
     (∀ D, last Ds = Some D → item' !! "ultimo_tempo_seg" = Some (VInt D)) ∧
     (∀ k, k ≠ "ultimo_tempo_seg" → k ≠ "total_tempo_seg" →
           item' !! k = item !! k)).
Proof.
  intros Ht Hl Hantes Hitem HT. split.
  - intros D.
    destruct (acumular_cronometro_executa t i w antes item depois T D
                Ht Hl Hantes Hitem HT) as (w' & Hrun & Hl' & _).
    exists w', (com_sessao T D item).
    destruct (com_sessao_campos T D item) as (? & ? & ?). done.
  - intros Ds.
    destruct (sessoes_executa t i antes depois Ds Ht Hantes w item T Hl Hitem HT)
      as (w' & item' & ? & ? & ? & ? & _ & ?).
    by exists w', item'.
Qed.

End Cronometro.

(** ** The selected task is gone when the collection is reloaded *)

Section Ausente.
Context `{PT : PyTexto} `{PD : PyDatas}.

Lemma colecao_recarregada w e s g :
  colecao (Mundo (Documento (colecao w)) e s g) = colecao w.
Proof. apply (conteudo_Documento (colecao w)), conteudo_sem_tipo. Qed.

(** C2 (amended). When the id of the selected task is not in the freshly
    reloaded collection, Toggle-Complete returns without calling save and
    without printing anything; Edit and a confirmed Delete still call save
    once, writing back the reloaded collection as it was loaded (no task
    added, removed or changed), and print their usual success message.  None
    of the three reports "not found": Toggle-Complete prints nothing, and
    the lines that Edit and Delete print are exactly their questions and
    their success message. *)
Theorem C2_id_ausente_na_recarga (t : tarefa) w :
  id_ausente t w →
  marcar_selecionada t w = (Ok tt, w) ∧
  (∀ x1 x2 x3 x4 x5 resto t' atual pz,
     entrada w = x1 :: x2 :: x3 :: x4 :: x5 :: resto →
     t !! "titulo" = Some atual →
     format_prazo (get t "prazo") = Ok pz →
     campos_editados x1 x2 x3 x4 x5 t = Ok t' →
     editar_selecionada t w =
       (Ok tt, Mundo (Documento (colecao w)) resto
                 (saida w ++
                  ["Deixe em branco para manter.";
                   "Título [" +:+ py_str atual +:+ "]: ";
                   "Descrição [" +:+ py_str (get_ou t "descricao" (VStr "")) +:+ "]: ";
                   "Quantidade [" +:+ py_str (get_ou t "quantidade" (VStr "")) +:+ "]: ";
                   "Prazo [" +:+ pz +:+ "]: ";
                   "Marcar como concluída? (s/N): ";
                   "Tarefa atualizada."])
                 (S (gravacoes w)))) ∧
  (∀ x resto atual,
     entrada w = x :: resto →
     t !! "titulo" = Some atual →
     afirmativa (lower (strip x)) = true →
     excluir_selecionada t w =
       (Ok tt, Mundo (Documento (colecao w)) resto
                 (saida w ++ ["Excluir [" +:+ py_str atual +:+ "]? (s/N): ";
                              "Tarefa excluída."])
                 (S (gravacoes w)))) ∧
  (∀ e s g, colecao (Mundo (Documento (colecao w)) e s g) = colecao w).
Proof.
  intros (i & Hi & Hall). split; [|split; [|split]].
  - unfold marcar_selecionada. executa. fold (colecao w).
    rewrite (alternar_ausente t i (colecao w) Hi Hall). by destruct w.
  - intros x1 x2 x3 x4 x5 resto t' atual pz Hin Htit Hpz Ht'.
    eapply editar_selecionada_falas; [done..|].
    eapply substituir_ausente; [|exact Hall].
    by rewrite (campos_editados_outro _ _ _ _ _ _ _ "id" Ht').
  - intros x resto atual Hin Hat Hsim.
    unfold excluir_selecionada, getitem. rewrite Hat. executa.
    rewrite Hin. simpl. rewrite Hsim. simpl. fold (colecao w).
    rewrite (sem_id_ausente t i (colecao w) Hi Hall). simpl.
    by rewrite <- app_assoc.
  - intros. apply colecao_recarregada.
Qed.

End Ausente.

(** ** The accumulated time never goes down *)

Section Total.
Context `{PT : PyTexto} `{PD : PyDatas}.

Lemma nao_diminui_refl (a : tarefa) : nao_diminui a a.
Proof. by left. Qed.

Lemma herdada_refl (l : list tarefa) (a : tarefa) : a ∈ l → herdada l a.
Proof. intros H. exists a. split; [done|]. split; [done|apply nao_diminui_refl]. Qed.

Lemma herdada_campos (l : list tarefa) (d d' : tarefa) :
  d' !! "id" = d !! "id" → d' !! "total_tempo_seg" = d !! "total_tempo_seg" →
  herdada l d → herdada l d'.
Proof.
  intros Hid Htot (a & Ha & Heq & Hnd). exists a. split; [done|].
  split; [congruence|].
  unfold nao_diminui, total, get_ou in *. by rewrite Htot.
Qed.

Lemma preserva_inicial d0 N : preserva (conteudo d0) N d0.
Proof. intros d Hd. left. by apply herdada_refl. Qed.

Lemma preserva_Documento l0 (N : tarefa → Prop) (l' : list tarefa) :
  (∀ x, x ∈ l' → herdada l0 x ∨ N x) →
  (∀ x : tarefa, N x → N (delete "tipo" x)) →
  preserva l0 N (Documento l').
Proof.
  intros Hl' HN d Hd. simpl in Hd. apply list_elem_of_fmap in Hd as (x & -> & Hx).
  destruct (Hl' x Hx) as [H|H]; [left|right; auto].
  eapply herdada_campos; [| |exact H]; by rewrite lookup_delete_ne.
Qed.

Lemma mantem_terminal {A} d0 (R : arquivo → Prop) (c : M A) :
  so_terminal c → R d0 → mantem d0 R c.
Proof. intros Hc HR w Hw. destruct (Hc w) as [-> _]. by rewrite Hw. Qed.

Lemma mantem_bind {A B} d0 (R : arquivo → Prop) (c : M A) (k : A → M B) :
  so_terminal c → R d0 → (∀ a, mantem d0 R (k a)) → mantem d0 R (bind c k).
Proof.
  intros Hc HR Hk w Hw. unfold bind. destruct (Hc w) as [Hd _].
  destruct (c w) as [[a|e] w1]; simpl in *.
  - apply Hk. congruence.
  - by rewrite Hd, Hw.
Qed.

Lemma mantem_bind_puro {A B} d0 (R : arquivo → Prop) (r : res A) (k : A → M B) :
  R d0 → (∀ a, r = Ok a → mantem d0 R (k a)) → mantem d0 R (bind (puro r) k).
Proof.
  intros HR Hk w Hw. unfold bind, puro. destruct r as [a|e]; simpl.
  - by apply Hk.
  - by rewrite Hw.
Qed.

Lemma mantem_apos_selecao {B} prompt d0 (R : arquivo → Prop)
    (k : option tarefa → M B) :
  R d0 →
  (∀ t, t ∈ conteudo d0 → mantem d0 R (k (Some t))) →
  mantem d0 R (k None) →
  mantem d0 R (bind (selecionar_tarefa prompt) k).
Proof.
  intros HR Hsome Hnone w Hw. unfold bind.
  destruct (selecionar_tarefa prompt w) as [[[t|]|e] w1] eqn:Hsel.
  - destruct (selecionar_tarefa_Some _ _ _ _ Hsel) as (Hd & _ & Ht & _).
    apply Hsome; [|congruence]. unfold colecao in Ht. by rewrite Hw in Ht.
  - pose proof (so_terminal_selecionar prompt w) as [Hd _].
    rewrite Hsel in Hd. apply Hnone. simpl in Hd. congruence.
  - pose proof (so_terminal_selecionar prompt w) as [Hd _].
    rewrite Hsel in Hd. simpl in *. by rewrite Hd, Hw.
Qed.

Lemma mantem_ret {A} d0 (R : arquivo → Prop) (a : A) : R d0 → mantem d0 R (ret a).
Proof. intros HR. by apply mantem_terminal; [apply so_terminal_ret|]. Qed.

(** *** The loops keep every task they do not pick *)

Lemma substituir_elem (t : tarefa) (l l' : list tarefa) :
  substituir t l = Ok l' → ∀ x, x ∈ l' → x ∈ l ∨ x = t.
Proof.
  revert l'. induction l as [|y l IH]; intros l'; simpl.
  - intros [= <-] x Hx. by left.
  - destruct (getitem y "id") as [a|]; simpl; [|done].
    destruct (getitem t "id") as [b|]; simpl; [|done].
    destruct (py_eq a b).
    + intros [= <-] x Hx. apply elem_of_cons in Hx as [->|Hx]; [by right|].
      left. by right.
    + destruct (substituir t l) as [r|]; simpl; [|done].
      intros [= <-] x Hx. apply elem_of_cons in Hx as [->|Hx]; [left; by left|].
      destruct (IH r eq_refl x Hx); [left; by right|by right].
Qed.

Lemma alternar_elem (t : tarefa) (l l' : list tarefa) :
  alternar t l = Ok (Some l') →
  ∀ x, x ∈ l' → x ∈ l ∨ ∃ item v, item ∈ l ∧ x = <["concluida" := v]> item.
Proof.
  revert l'. induction l as [|y l IH]; intros l'; simpl; [done|].
  destruct (getitem y "id") as [a|]; simpl; [|done].
  destruct (getitem t "id") as [b|]; simpl; [|done].
  destruct (py_eq a b).
  - intros [= <-] x Hx. apply elem_of_cons in Hx as [->|Hx].
    + right. eexists y, _. split; [by left|done].
    + left. by right.
  - destruct (alternar t l) as [[r|]|]; simpl; try done.
    intros [= <-] x Hx. apply elem_of_cons in Hx as [->|Hx]; [left; by left|].
    destruct (IH r eq_refl x Hx) as [?|(item & v & ? & ?)]; [left; by right|].
    right. exists item, v. split; [by right|done].
Qed.

Lemma acumular_elem (t : tarefa) dur (l l' : list tarefa) :
  acumular t dur l = Ok (Some l') →
  ∀ x, x ∈ l' → x ∈ l ∨ ∃ item, item ∈ l ∧ acumular_item dur item = Ok x.
Proof.
  revert l'. induction l as [|y l IH]; intros l'; simpl; [done|].
  destruct (getitem y "id") as [a|]; simpl; [|done].
  destruct (getitem t "id") as [b|]; simpl; [|done].
  destruct (py_eq a b).
  - destruct (acumular_item dur y) as [y'|] eqn:Hy; simpl; [|done].
    intros [= <-] x Hx. apply elem_of_cons in Hx as [->|Hx].
    + right. exists y. split; [by left|done].
    + left. by right.
  - destruct (acumular t dur l) as [[r|]|]; simpl; try done.
    intros [= <-] x Hx. apply elem_of_cons in Hx as [->|Hx]; [left; by left|].
    destruct (IH r eq_refl x Hx) as [?|(item & ? & ?)]; [left; by right|].
    right. exists item. split; [by right|done].
Qed.

Lemma acumular_item_herdada dur (item x : tarefa) (l : list tarefa) :
  0 ≤ dur → item ∈ l → acumular_item dur item = Ok x → herdada l x.
Proof.
  intros Hdur Hin. unfold acumular_item, somar.
  destruct (num _) as [a|] eqn:Hnum; simpl; [|done].
  intros [= <-]. exists item. split; [done|]. split.
  - by rewrite !lookup_insert_ne.
  - right. exists a, (a + dur).
    unfold total, get_ou in *. rewrite lookup_insert_ne in Hnum by done.
    split; [done|]. rewrite lookup_insert_eq. simpl. split; [done|lia].
Qed.

(** *** Each operation, started on the file [d0] *)

Ltac passo_terminal :=
  first
    [ apply mantem_bind;
      [ solve [auto with terminal] | apply preserva_inicial | intros ? ]
    | apply mantem_terminal;
      [ solve [auto with terminal] | apply preserva_inicial ] ].

Lemma criar_mantem novo_id agora_dt d0 :
  mantem d0 (preserva (conteudo d0) (λ d : tarefa, d !! "id" = Some (VStr novo_id)))
    (criar_tarefa_interativa novo_id agora_dt).
Proof.
  unfold criar_tarefa_interativa.
  passo_terminal. case_bool_decide; [passo_terminal|].
  do 4 passo_terminal.
  destruct (_ && _); [passo_terminal|].
  intros w Hw. executa. rewrite Hw. apply preserva_Documento.
  - intros x Hx. apply elem_of_app in Hx as [Hx|Hx].
    + left. by apply herdada_refl.
    + right. apply list_elem_of_singleton in Hx as ->. unfold nova_tarefa.
      rewrite !lookup_insert_ne by done. by rewrite lookup_insert_eq.
  - intros x Hx. by rewrite lookup_delete_ne.
Qed.

Lemma remover_vencidas_mantem notificar agora_dt d0 :
  mantem d0 (preserva (conteudo d0) nenhuma) (remover_vencidas notificar agora_dt).
Proof.
  intros w Hw.
  destruct (decide (Forall (comparavel agora_dt) (colecao w))) as [Hl|Hl];
    [|rewrite remover_vencidas_TypeError by done; simpl; rewrite Hw; apply preserva_inicial].
  destruct (remover_vencidas_disco notificar agora_dt w Hl) as [[_ ->]|(_ & -> & _)].
  - rewrite Hw. apply preserva_inicial.
  - intros d Hd. left. apply herdada_refl.
    rewrite conteudo_Documento in Hd.
    + apply list_elem_of_filter in Hd as [_ Hd]. unfold colecao in Hd. by rewrite Hw in Hd.
    + apply Forall_forall. intros t Ht. apply list_elem_of_filter in Ht as [_ Ht].
      revert t Ht. apply Forall_forall, conteudo_sem_tipo.
Qed.

Lemma editar_selecionada_mantem (t : tarefa) d0 :
  t ∈ conteudo d0 →
  mantem d0 (preserva (conteudo d0) nenhuma) (editar_selecionada t).
Proof.
  intros Ht. unfold editar_selecionada.
  do 5 passo_terminal.
  apply mantem_bind_puro; [apply preserva_inicial|intros t3 Ht3].
  do 3 passo_terminal.
  intros w Hw. executa. rewrite Hw.
  destruct (substituir _ _) as [l'|e] eqn:Hsub; simpl; [|rewrite Hw; apply preserva_inicial].
  apply preserva_Documento; [|done].
  intros x Hx. left.
  destruct (substituir_elem _ _ _ Hsub x Hx) as [Hin| ->]; [by apply herdada_refl|].
  eapply herdada_campos; [| |by apply (herdada_refl _ t)].
  - rewrite com_concluida_outro, com_prazo_outro by done.
    rewrite (com_quantidade_outro _ _ _ _ Ht3) by done.
    by rewrite com_descricao_outro, com_titulo_outro.
  - rewrite com_concluida_outro, com_prazo_outro by done.
    rewrite (com_quantidade_outro _ _ _ _ Ht3) by done.
    by rewrite com_descricao_outro, com_titulo_outro.
Qed.

Lemma excluir_selecionada_mantem (t : tarefa) d0 :
  mantem d0 (preserva (conteudo d0) nenhuma) (excluir_selecionada t).
Proof.
  unfold excluir_selecionada.
  do 2 passo_terminal.
  destruct (afirmativa _); [|passo_terminal].
  intros w Hw. executa. rewrite Hw.
  destruct (sem_id _ _) as [l'|e] eqn:Hsub; simpl; [|rewrite Hw; apply preserva_inicial].
  apply preserva_Documento; [|done].
  intros x Hx. left. apply herdada_refl. by eapply sem_id_Ok.
Qed.

Lemma marcar_selecionada_mantem (t : tarefa) d0 :
  mantem d0 (preserva (conteudo d0) nenhuma) (marcar_selecionada t).
Proof.
  unfold marcar_selecionada.
  intros w Hw. executa. rewrite Hw.
  destruct (alternar _ _) as [[l'|]|e] eqn:Halt; simpl;
    [|rewrite Hw; apply preserva_inicial..].
  apply preserva_Documento; [|done].
  intros x Hx. left.
  destruct (alternar_elem _ _ _ Halt x Hx) as [Hin|(item & v & Hin & ->)];
    [by apply herdada_refl|].
  eapply herdada_campos; [| |by apply (herdada_refl _ item)];
    by rewrite lookup_insert_ne.
Qed.

Lemma acumular_cronometro_mantem (t : tarefa) dur d0 :
  0 ≤ dur →
  mantem d0 (preserva (conteudo d0) nenhuma) (acumular_cronometro t dur).
Proof.
  intros Hdur. unfold acumular_cronometro.
  intros w Hw. executa. rewrite Hw.
  destruct (acumular _ _ _) as [[l'|]|e] eqn:Hacc; simpl;
    [|rewrite Hw; apply preserva_inicial..].
  apply preserva_Documento; [|done].
  intros x Hx. left.
  destruct (acumular_elem _ _ _ _ Hacc x Hx) as [Hin|(item & Hin & Hitem)];
    [by apply herdada_refl|].
  by eapply acumular_item_herdada.
Qed.

Lemma mantem_nenhuma {A} d0 (N : tarefa → Prop) (c : M A) :
  mantem d0 (preserva (conteudo d0) nenhuma) c →
  mantem d0 (preserva (conteudo d0) N) c.
Proof.
  intros H w Hw d Hd. destruct (H w Hw d Hd) as [?|[]]. by left.
Qed.

Lemma com_selecao_mantem prompt (corpo : tarefa → M unit) d0 :
  (∀ t, t ∈ conteudo d0 → mantem d0 (preserva (conteudo d0) nenhuma) (corpo t)) →
  mantem d0 (preserva (conteudo d0) nenhuma)
    (seja sel <- selecionar_tarefa prompt em
     match sel with
     | Some t => if nada sel then ret tt else corpo t
     | None => ret tt
     end).
Proof.
  intros Hcorpo. apply mantem_apos_selecao.
  - apply preserva_inicial.
  - intros t Ht. destruct (nada (Some t)); [|by apply Hcorpo].
    apply mantem_ret, preserva_inicial.
  - apply mantem_ret, preserva_inicial.
Qed.

(** Whatever the operation does with the terminal, every task it leaves in
    the file descends from a task that was there, or is the one Create has
    just built. *)
Lemma executar_mantem op d0 :
  (∀ dur, op = Cronometrar dur → 0 ≤ dur) →
  mantem d0 (preserva (conteudo d0) (recem_criada op)) (executar op).
Proof.
  intros Hdur. destruct op as [novo_id agora_dt| | | |notificar agora_dt|dur]; simpl.
  - apply criar_mantem.
  - apply mantem_nenhuma, com_selecao_mantem. intros. by apply editar_selecionada_mantem.
  - apply mantem_nenhuma, com_selecao_mantem. intros. apply excluir_selecionada_mantem.
  - apply mantem_nenhuma, com_selecao_mantem. intros. apply marcar_selecionada_mantem.
  - apply mantem_nenhuma, remover_vencidas_mantem.
  - apply mantem_nenhuma. unfold iniciar_cronometro.
    apply (com_selecao_mantem _
             (λ t, print "Enter inicia | Enter para parar | q cancela";;;
                   seja x <- ler em
                   if bool_decide (lower (strip x) = "q") then ret tt
                   else ler;;; acumular_cronometro t dur)).
    intros t _. do 2 passo_terminal. case_bool_decide; [passo_terminal|].
    passo_terminal. apply acumular_cronometro_mantem. by apply Hdur.
Qed.

(** C6. Across one core operation (Create with a fresh id, Edit, Delete,
    Toggle-Complete, the sweep, or a stopwatch session that is not
    negative) on a collection with unique ids, a task present before and
    after (same id) has a total that is unchanged or a number not smaller
    than before. *)
Theorem C6_total_nunca_diminui op w (a d : tarefa) :
  ids_unicos (colecao w) →
  admissivel op w →
  a ∈ colecao w →
  d ∈ colecao (snd (executar op w)) →
  a !! "id" = d !! "id" →
  nao_diminui a d.
Proof.
  intros Hun Hadm Ha Hd Hid.
  assert (∀ dur, op = Cronometrar dur → 0 ≤ dur) as Hdur.
  { intros dur ->. exact Hadm. }
  destruct (executar_mantem op (disco w) Hdur w eq_refl d Hd) as [(a' & Ha' & Hid' & Hnd)|Hnew].
  - assert (a = a') as ->; [|done].
    eapply ids_unicos_mesmo; [exact Hun|done|done|congruence].
  - exfalso. destruct op; try done. simpl in Hadm, Hnew.
    rewrite Forall_forall in Hadm. apply (Hadm a Ha). congruence.
Qed.

End Total.

(** ** More about the sweep *)

Section VarreduraMais.
Context `{PT : PyTexto} `{PD : PyDatas}.

Lemma filter_sem_tipo (P : tarefa → Prop) `{!∀ t, Decision (P t)} (a : arquivo) :
  Forall sem_tipo (filter P (conteudo a)).
Proof.
  apply Forall_forall. intros t Ht. apply list_elem_of_filter in Ht as [_ Ht].
  revert t Ht. apply Forall_forall, conteudo_sem_tipo.
Qed.

Lemma Forall_filter_de {A} (P Q : A → Prop) `{!∀ x, Decision (Q x)} (l : list A) :
  Forall P l → Forall P (filter Q l).
Proof.
  intros HP. apply Forall_forall. intros x Hx. apply list_elem_of_filter in Hx as [_ Hx].
  revert x Hx. by apply Forall_forall.
Qed.

Lemma Exists_filter_nao_vazio {A} (P : A → Prop) `{!∀ x, Decision (P x)} (l : list A) :
  Exists P l ↔ filter P l ≠ [].
Proof.
  rewrite Exists_exists. split.
  - intros (t & Ht & Hv) Hnil. by apply (filter_nil_not_elem_of _ _ t Hnil).
  - intros Hne. destruct (filter P l) as [|t l'] eqn:Hf; [done|].
    exists t. apply and_comm. apply (list_elem_of_filter P).
    rewrite Hf. by left.
Qed.

(** X30. One sweep over a collection whose deadlines can all be compared
    with the clock removes exactly the tasks whose deadline is set,
    parseable and not after the current time: the collection loaded after
    the sweep is the collection loaded before it, filtered by "not expired",
    so every expired task is absent and every other task is present,
    unmodified and in the same relative order; this holds also when printing
    a removal raises.  If some deadline cannot be compared, the sweep raises
    [TypeError] and leaves the world as it was. *)
Theorem varredura_remove_exatamente_as_vencidas notificar agora_dt w :
  let w' := snd (remover_vencidas notificar agora_dt w) in
  (Forall (comparavel agora_dt) (colecao w) →
   colecao w' = filter (λ t, ¬ prazo_vencido agora_dt t) (colecao w) ∧
   (∀ t, prazo_vencido agora_dt t → t ∉ colecao w') ∧
   (∀ t, t ∈ colecao w → ¬ prazo_vencido agora_dt t → t ∈ colecao w')) ∧
  (¬ Forall (comparavel agora_dt) (colecao w) →
   remover_vencidas notificar agora_dt w = (Raise TypeError, w)).
Proof.
  intros w'. split; [|apply remover_vencidas_TypeError].
  intros Hl.
  assert (colecao w' = filter (λ t, ¬ prazo_vencido agora_dt t) (colecao w)) as Heq
    by by apply colecao_apos_varredura.
  split; [done|]. rewrite Heq. split.
  - intros t Hv Hin. apply list_elem_of_filter in Hin. tauto.
  - intros t Hin Hn. by apply list_elem_of_filter.
Qed.

(** X1. A second sweep at the same instant changes nothing: whatever the
    first one did (even if it raised while printing), the second leaves the
    world exactly as the first left it.  It returns normally when every
    deadline can be compared with the clock; otherwise it raises
    [TypeError], as the first did. *)
Theorem varredura_idempotente n1 n2 agora_dt w :
  let w1 := snd (remover_vencidas n1 agora_dt w) in
  snd (remover_vencidas n2 agora_dt w1) = w1 ∧
  (Forall (comparavel agora_dt) (colecao w) →
   remover_vencidas n2 agora_dt w1 = (Ok tt, w1)) ∧
  (¬ Forall (comparavel agora_dt) (colecao w) →
   remover_vencidas n1 agora_dt w = (Raise TypeError, w) ∧
   remover_vencidas n2 agora_dt w1 = (Raise TypeError, w1)).
Proof.
  intros w1.
  assert (Forall (comparavel agora_dt) (colecao w) →
          remover_vencidas n2 agora_dt w1 = (Ok tt, w1)) as Hok.
  { intros Hl.
    assert (colecao w1 = filter (λ t, ¬ prazo_vencido agora_dt t) (colecao w)) as Hcol
      by by apply colecao_apos_varredura.
    apply varredura_sem_vencidas; rewrite Hcol.
    - by apply Forall_filter_de.
    - apply filter_nenhum, Forall_forall. intros t Ht.
      apply list_elem_of_filter in Ht as [Ht _]. tauto. }
  assert (¬ Forall (comparavel agora_dt) (colecao w) →
          remover_vencidas n1 agora_dt w = (Raise TypeError, w) ∧
          remover_vencidas n2 agora_dt w1 = (Raise TypeError, w1)) as Hraise.
  { intros Hl. split; [by apply remover_vencidas_TypeError|].
    unfold w1. rewrite (remover_vencidas_TypeError n1) by done. simpl.
    by apply remover_vencidas_TypeError. }
  split; [|done].
  destruct (decide (Forall (comparavel agora_dt) (colecao w))) as [Hl|Hl].
  - by rewrite Hok.
  - by rewrite (proj2 (Hraise Hl)).
Qed.

(** X2. The sweep calls save exactly once when every deadline can be
    compared with the clock and some loaded task is expired, and not at all
    otherwise; the flag [notificar] changes nothing but the output: with or
    without it the file and the count of saves end up the same, and without
    it nothing is printed and the sweep raises only the [TypeError] of a
    deadline that cannot be compared. *)
Theorem varredura_grava_uma_vez_e_notificar_so_imprime agora_dt w :
  (∀ notificar,
     gravacoes (snd (remover_vencidas notificar agora_dt w)) =
       if bool_decide (Forall (comparavel agora_dt) (colecao w) ∧
                       Exists (prazo_vencido agora_dt) (colecao w))
       then S (gravacoes w) else gravacoes w) ∧
  disco (snd (remover_vencidas true agora_dt w)) =
    disco (snd (remover_vencidas false agora_dt w)) ∧
  saida (snd (remover_vencidas false agora_dt w)) = saida w ∧
  fst (remover_vencidas false agora_dt w) =
    if bool_decide (Forall (comparavel agora_dt) (colecao w))
    then Ok tt else Raise TypeError.
Proof.
  pose proof (Exists_filter_nao_vazio (prazo_vencido agora_dt) (colecao w)) as Hex.
  destruct (decide (Forall (comparavel agora_dt) (colecao w))) as [Hl|Hl].
  2:{ rewrite (bool_decide_eq_false_2 (Forall _ _)) by done.
      split; [|by rewrite !remover_vencidas_TypeError].
      intros notificar. rewrite remover_vencidas_TypeError by done.
      rewrite bool_decide_eq_false_2; [done|tauto]. }
  rewrite (bool_decide_eq_true_2 (Forall _ _)) by done.
  split; [|split; [|split]].
  - intros notificar.
    destruct (remover_vencidas_disco notificar agora_dt w Hl)
      as [[Hnil ->]|(Hne & _ & Hg)].
    + rewrite bool_decide_eq_false_2; [done|]. rewrite Hex. tauto.
    + rewrite bool_decide_eq_true_2; [done|]. split; [done|]. by apply Hex.
  - destruct (remover_vencidas_disco true agora_dt w Hl) as [[Hnil ->]|(Hne & Hd & _)];
      destruct (remover_vencidas_disco false agora_dt w Hl)
        as [[Hnil' ->]|(Hne' & Hd' & _)];
      congruence.
  - unfold remover_vencidas. executa. fold (colecao w).
    rewrite separar_filter by done. by destruct (filter (prazo_vencido _) _).
  - unfold remover_vencidas. executa. fold (colecao w).
    rewrite separar_filter by done. by destruct (filter (prazo_vencido _) _).
Qed.

Lemma para_cada_avisar (l : list tarefa) w :
  Forall (λ t, ∃ s, rotulo t = Ok s) l →
  para_cada avisar_remocao l w =
    (Ok tt, Mundo (disco w) (entrada w)
              (saida w ++ ((λ t, "[AUTO] Removida por prazo vencido: " +:+ rotulo_texto t) <$> l))
              (gravacoes w)).
Proof.
  intros H. revert w. induction H as [|t l [s Hs] _ IH]; intros w; simpl.
  - rewrite app_nil_r. by destruct w.
  - unfold avisar_remocao at 1. unfold rotulo_texto at 1. rewrite Hs. executa.
    rewrite IH. simpl. by rewrite <- app_assoc.
Qed.

Lemma rotulo_Ok (t : tarefa) s tit :
  t !! "id" = Some (VStr s) → t !! "titulo" = Some tit →
  rotulo t = Ok ("[" +:+ fatia 8 s +:+ "] " +:+ py_str tit).
Proof. intros Hs Ht. unfold rotulo, getitem. by rewrite Hs, Ht. Qed.

Lemma varredura_com_avisos agora_dt w :
  Forall (comparavel agora_dt) (colecao w) →
  filter (prazo_vencido agora_dt) (colecao w) ≠ [] →
  Forall (λ t, ∃ s, rotulo t = Ok s) (filter (prazo_vencido agora_dt) (colecao w)) →
  remover_vencidas true agora_dt w =
    (Ok tt,
     Mundo (Documento (filter (λ t, ¬ prazo_vencido agora_dt t) (colecao w)))
       (entrada w)
       (saida w ++ ((λ t, "[AUTO] Removida por prazo vencido: " +:+ rotulo_texto t)
                      <$> filter (prazo_vencido agora_dt) (colecao w)))
       (S (gravacoes w))).
Proof.
  intros Hl Hne Hrot. unfold remover_vencidas, bind at 1, carregar_tarefas.
  fold (colecao w). unfold bind at 1, puro. rewrite separar_filter by done.
  destruct (filter (prazo_vencido agora_dt) (colecao w)) as [|r rs] eqn:Hf; [done|].
  unfold bind, salvar_tarefas. by rewrite para_cada_avisar.
Qed.

(** X3. When every deadline can be compared with the clock and every
    expired task has a string id and a title, a sweep with notification
    returns normally, saves the remaining tasks and prints one line per
    removed task, in the order of the collection, made of the first eight
    characters of the id and the title. *)
Theorem varredura_avisa_cada_remocao agora_dt w :
  Forall (comparavel agora_dt) (colecao w) →
  filter (prazo_vencido agora_dt) (colecao w) ≠ [] →
  Forall (λ t : tarefa, ∃ s tit, t !! "id" = Some (VStr s) ∧ t !! "titulo" = Some tit)
    (filter (prazo_vencido agora_dt) (colecao w)) →
  remover_vencidas true agora_dt w =
    (Ok tt,
     Mundo (Documento (filter (λ t, ¬ prazo_vencido agora_dt t) (colecao w)))
       (entrada w)
       (saida w ++ ((λ t, "[AUTO] Removida por prazo vencido: [" +:+
                          fatia 8 (py_str (get t "id")) +:+ "] " +:+
                          py_str (get t "titulo"))
                      <$> filter (prazo_vencido agora_dt) (colecao w)))
       (S (gravacoes w))).
Proof.
  intros Hl Hne Hrot. rewrite varredura_com_avisos; [|done|done|].
  - do 3 f_equal. apply Forall_fmap_ext_1.
    eapply Forall_impl; [exact Hrot|]. intros t (s & tit & Hs & Ht).
    unfold rotulo_texto, get, get_ou. rewrite (rotulo_Ok t s tit Hs Ht), Hs, Ht.
    reflexivity.
  - eapply Forall_impl; [exact Hrot|]. intros t (s & tit & Hs & Ht).
    eexists. by apply rotulo_Ok.
Qed.

Lemma filter_nao_vencido_duas_vezes a u (l : list tarefa) :
  (∀ d, dt_le d a = Some true → dt_le d u = Some true) →
  filter (λ t, ¬ prazo_vencido u t) (filter (λ t, ¬ prazo_vencido a t) l) =
    filter (λ t, ¬ prazo_vencido u t) l.
Proof.
  intros Hmono. rewrite list_filter_filter. apply list_filter_iff.
  intros t. split; [tauto|]. intros Hu. split; [done|].
  intros (s & d & Hs & Hne & Hd & Hle). apply Hu. exists s, d. auto.
Qed.

Lemma varredura_Ok agora_dt w :
  Forall (comparavel agora_dt) (colecao w) →
  Forall (λ t, ∃ s, rotulo t = Ok s) (colecao w) →
  fst (remover_vencidas true agora_dt w) = Ok tt.
Proof.
  intros Hl Hrot.
  destruct (decide (filter (prazo_vencido agora_dt) (colecao w) = [])) as [Hnil|Hne].
  - by rewrite varredura_sem_vencidas.
  - rewrite varredura_com_avisos; [done|done|done|]. by apply Forall_filter_de.
Qed.

(** X4. The loop of the background checker, run on its own over a
    collection whose tasks all have a string id and a title and whose
    deadlines can be compared with every clock reading: if nothing that is
    expired at an earlier reading is unexpired at the last one, every round
    returns normally and the rounds together leave the collection that a
    single sweep at the last reading leaves.  If a deadline cannot be
    compared with the first reading, the first round raises [TypeError],
    which ends the loop with the world as it was. *)
Theorem rodadas_do_checador_como_uma agoras ultimo w :
  (Forall (λ t, ∃ s, rotulo t = Ok s) (colecao w) →
   Forall (λ a, Forall (comparavel a) (colecao w)) (agoras ++ [ultimo]) →
   Forall (λ a, ∀ d, dt_le d a = Some true → dt_le d ultimo = Some true) agoras →
   fst (rodadas_do_checador (agoras ++ [ultimo]) w) = Ok tt ∧
   colecao (snd (rodadas_do_checador (agoras ++ [ultimo]) w)) =
     filter (λ t, ¬ prazo_vencido ultimo t) (colecao w)) ∧
  (∀ a, ¬ Forall (comparavel a) (colecao w) →
        rodadas_do_checador (a :: agoras) w = (Raise TypeError, w)).
Proof.
  split.
  2:{ intros a Hl. unfold rodadas_do_checador. simpl. unfold bind.
      by rewrite remover_vencidas_TypeError. }
  intros Hrot Hcmp Hmono. revert w Hrot Hcmp.
  induction Hmono as [|a agoras Ha _ IH]; intros w Hrot Hcmp.
  - simpl in Hcmp. apply Forall_inv in Hcmp.
    unfold rodadas_do_checador. simpl. unfold bind, ret.
    pose proof (varredura_Ok ultimo w Hcmp Hrot) as Hok.
    pose proof (colecao_apos_varredura true ultimo w Hcmp) as Hcol.
    destruct (remover_vencidas true ultimo w) as [[[]|e] w1]; simpl in *; done.
  - unfold rodadas_do_checador in *.
    change (para_cada (remover_vencidas true) ((a :: agoras) ++ [ultimo]))
      with (remover_vencidas true a;;;
            para_cada (remover_vencidas true) (agoras ++ [ultimo])).
    apply Forall_cons in Hcmp as [Hcmpa Hcmp].
    pose proof (varredura_Ok a w Hcmpa Hrot) as Hok.
    pose proof (colecao_apos_varredura true a w Hcmpa) as Hcol.
    destruct (remover_vencidas true a w) as [[[]|e] w1] eqn:Hrun; simpl in Hok, Hcol;
      [|done].
    rewrite (bind_Ok _ _ _ _ _ Hrun).
    assert (Forall (λ t, ∃ s, rotulo t = Ok s) (colecao w1)) as Hrot1.
    { rewrite Hcol. by apply Forall_filter_de. }
    assert (Forall (λ a, Forall (comparavel a) (colecao w1)) (agoras ++ [ultimo]))
      as Hcmp1.
    { eapply Forall_impl; [exact Hcmp|]. intros a' Ha'. rewrite Hcol.
      by apply Forall_filter_de. }
    destruct (IH w1 Hrot1 Hcmp1) as [Hok1 Hcol1]. split; [done|].
    rewrite Hcol1, Hcol. by apply filter_nao_vencido_duas_vezes.
Qed.

End VarreduraMais.

(** ** More about selection *)

Section SelecaoMais.
Context `{PT : PyTexto} `{PD : PyDatas}.

Lemma casa_corresponde q (t : tarefa) b :
  casa q t = Ok b → (b = true ↔ corresponde q t).
Proof.
  unfold casa, corresponde, getitem, contem.
  destruct (t !! "id") as [[| | |s]|] eqn:Hid; simpl; try done.
  destruct (contido q s) eqn:Hq; simpl.
  - intros [= <-]. split; [|done]. intros _. exists s. auto.
  - destruct (t !! "titulo") as [[| | |tit]|] eqn:Htit; simpl; try done.
    intros [= <-]. split.
    + intros Hc. exists s. split; [done|]. right. by exists tit.
    + intros (s' & [= <-] & [Hc|(tit' & [= <-] & Hc)]); congruence.
Qed.

Lemma filtrar_corresponde q (l r : list tarefa) :
  filtrar q l = Ok r → ∀ t, t ∈ r → corresponde q t.
Proof.
  revert r. induction l as [|t l IH]; intros r; simpl.
  - intros [= <-] x Hx. by apply elem_of_nil in Hx.
  - destruct (casa q t) as [b|e] eqn:Hc; simpl; [|done].
    destruct (filtrar q l) as [r'|e] eqn:Hf; simpl; [|done].
    intros [= <-] x Hx. destruct b.
    + apply elem_of_cons in Hx as [->|Hx]; [|by eapply IH].
      by apply (casa_corresponde q t true).
    + by eapply IH.
Qed.

Lemma filtrar_nenhuma q (l : list tarefa) :
  Forall (λ t, ∃ b, casa q t = Ok b) l → Forall (λ t, ¬ corresponde q t) l →
  filtrar q l = Ok [].
Proof.
  induction 1 as [|t l [b Hb] _ IH]; intros Hn; simpl; [done|].
  apply Forall_cons in Hn as [Ht Hl]. rewrite Hb, (IH Hl). simpl.
  destruct b; [|done]. exfalso. apply Ht. by apply (casa_corresponde q t true).
Qed.

Lemma filtrar_unica q (antes depois : list tarefa) (t : tarefa) :
  Forall (λ t, ∃ b, casa q t = Ok b) (antes ++ t :: depois) →
  Forall (λ t, ¬ corresponde q t) antes → corresponde q t →
  Forall (λ t, ¬ corresponde q t) depois →
  filtrar q (antes ++ t :: depois) = Ok [t].
Proof.
  intros Hok Hantes Ht Hdepois.
  apply Forall_app in Hok as [Hok1 Hok2]. apply Forall_cons in Hok2 as [[b Hb] Hok2].
  induction Hok1 as [|x l [bx Hbx] _ IH]; simpl.
  - rewrite Hb, (filtrar_nenhuma q depois Hok2 Hdepois). simpl.
    destruct b; [done|]. apply (casa_corresponde q t false Hb) in Ht. done.
  - apply Forall_cons in Hantes as [Hx Hl]. rewrite Hbx, (IH Hl). simpl.
    destruct bx; [|done]. exfalso. apply Hx. by apply (casa_corresponde q x true).
Qed.

Lemma casa_levanta q (t : tarefa) e : casa q t = Raise e → da_linha_213 e.
Proof.
  unfold casa, getitem, contem, da_linha_213.
  destruct (t !! "id") as [[| | |s]|]; simpl; try (intros [= <-]; tauto).
  destruct (contido q s); [done|].
  destruct (t !! "titulo") as [[| | |s']|]; simpl; intros [= <-]; tauto.
Qed.

Lemma filtrar_levanta q (l : list tarefa) :
  Exists id_sem_texto l → ∃ e, da_linha_213 e ∧ filtrar q l = Raise e.
Proof.
  intros Hex.
  assert (∀ e, filtrar q l = Raise e → da_linha_213 e) as Hcls.
  { clear Hex. induction l as [|t l IH]; intros e; simpl; [done|].
    destruct (casa q t) as [b|e'] eqn:Hc; simpl.
    - destruct (filtrar q l) as [r|e'']; simpl; [done|].
      intros [= <-]. by apply IH.
    - intros [= <-]. by eapply casa_levanta. }
  destruct (filtrar q l) as [r|e] eqn:Hf; [|exists e; split; [by apply Hcls|done]].
  exfalso. apply (filtrar_Ok q l r) in Hf as [Hids _].
  apply Exists_exists in Hex as (t & Ht & Hid).
  unfold ids_texto in Hids. rewrite Forall_forall in Hids.
  destruct (Hids t Ht) as [s Hs].
  destruct Hid as [Hid|[Hid|[[b Hid]|[n Hid]]]]; congruence.
Qed.

(** X8. Selection never touches the file: whatever is typed and whatever
    the file holds, after [selecionar_tarefa] the file and the count of saves
    are what they were. *)
Theorem selecao_nunca_grava prompt w :
  disco (snd (selecionar_tarefa prompt w)) = disco w ∧
  gravacoes (snd (selecionar_tarefa prompt w)) = gravacoes w.
Proof. apply so_terminal_selecionar. Qed.

(** X9. A task returned by the selection is one of the loaded tasks and
    matches the query, the first answer lower-cased and trimmed: the query
    occurs in its id, or in its title lower-cased. *)
Theorem selecao_devolve_tarefa_que_corresponde prompt w w1 (t : tarefa) :
  selecionar_tarefa prompt w = (Ok (Some t), w1) →
  ∃ x resto,
    entrada w = x :: resto ∧ lower (strip x) ≠ "" ∧
    t ∈ colecao w ∧ corresponde (lower (strip x)) t.
Proof.
  intros Hsel. unfold selecionar_tarefa in Hsel.
  apply bind_Ok_inv in Hsel as (tarefas & wa & Hcar & Hsel).
  unfold carregar_tarefas in Hcar. injection Hcar as <- <-.
  apply bind_Ok_inv in Hsel as (x & wb & Hinp & Hsel).
  destruct (entrada w) as [|x' resto] eqn:Hin.
  { unfold input, bind, print, ler in Hinp. simpl in Hinp. by rewrite Hin in Hinp. }
  rewrite (input_cons _ _ _ _ Hin) in Hinp. injection Hinp as <- <-.
  exists x', resto. split; [done|].
  case_bool_decide as Hq; [by unfold ret in Hsel|]. split; [done|].
  apply bind_Ok_inv in Hsel as (enc & wc & Hfil & Hsel).
  unfold puro in Hfil. injection Hfil as Hfil _.
  assert (t ∈ enc) as Ht.
  { destruct enc as [|t1 [|t2 enc]].
    - apply bind_Ok_inv in Hsel as (? & ? & _ & Hsel). by unfold ret in Hsel.
    - unfold ret in Hsel. injection Hsel as -> _. by left.
    - apply bind_Ok_inv in Hsel as (? & wd & _ & Hsel).
      apply bind_Ok_inv in Hsel as (idx & we & _ & Hsel).
      unfold puro in Hsel. injection Hsel as Hsel _. by eapply escolher_Ok. }
  split.
  - by apply (filtrar_Ok _ _ _ Hfil).
  - by apply (filtrar_corresponde _ _ _ Hfil).
Qed.

(** X10. One loaded task whose id is missing, [null], a boolean or an
    integer is enough to make every selection with a non-blank query raise,
    right after the prompt, with nothing written: no task can be selected,
    so no task can be edited, deleted, toggled or timed.  The exception is
    one of those of line 213: [KeyError], [TypeError] or
    [AttributeError]. *)
Theorem selecao_levanta_sem_id_texto prompt w x resto :
  entrada w = x :: resto → lower (strip x) ≠ "" →
  Exists id_sem_texto (colecao w) →
  ∃ e, (e = KeyError "id" ∨ e = KeyError "titulo" ∨ e = TypeError ∨
        e = AttributeError) ∧
       selecionar_tarefa prompt w =
         (Raise e, Mundo (disco w) resto (saida w ++ [prompt]) (gravacoes w)).
Proof.
  intros Hin Hq Hn.
  destruct (filtrar_levanta (lower (strip x)) _ Hn) as (e & Hcls & He).
  exists e. split; [exact Hcls|]. unfold selecionar_tarefa. executa.
  rewrite Hin. simpl.
  rewrite bool_decide_eq_false_2 by done. fold (colecao w). by rewrite He.
Qed.

(** X11. With the first answer [x] read as the query: a blank query returns
    nothing and prints only the prompt; when the query can be tested on
    every loaded task, no match returns nothing after the message
    "Nenhuma tarefa encontrada.", and a single match is returned at once,
    with no further question. *)
Theorem selecao_sem_escolha prompt w x resto :
  entrada w = x :: resto →
  let q := lower (strip x) in
  (q = "" →
   selecionar_tarefa prompt w =
     (Ok None, Mundo (disco w) resto (saida w ++ [prompt]) (gravacoes w))) ∧
  (q ≠ "" → Forall (λ t, ∃ b, casa q t = Ok b) (colecao w) →
   Forall (λ t, ¬ corresponde q t) (colecao w) →
   selecionar_tarefa prompt w =
     (Ok None, Mundo (disco w) resto
                 (saida w ++ [prompt; "Nenhuma tarefa encontrada."])
                 (gravacoes w))) ∧
  (∀ antes t depois,
     q ≠ "" → Forall (λ t, ∃ b, casa q t = Ok b) (colecao w) →
     colecao w = antes ++ t :: depois →
     Forall (λ t, ¬ corresponde q t) antes → corresponde q t →
     Forall (λ t, ¬ corresponde q t) depois →
     selecionar_tarefa prompt w =
       (Ok (Some t), Mundo (disco w) resto (saida w ++ [prompt]) (gravacoes w))).
Proof.
  intros Hin q. unfold q. split; [|split].
  - intros Hq. unfold selecionar_tarefa. executa. rewrite Hin. simpl.
    by rewrite bool_decide_eq_true_2.
  - intros Hq Hok Hn. unfold selecionar_tarefa. executa. rewrite Hin. simpl.
    rewrite bool_decide_eq_false_2 by done. fold (colecao w).
    rewrite (filtrar_nenhuma _ _ Hok Hn). simpl. by rewrite <- app_assoc.
  - intros antes t depois Hq Hok Hl Hantes Ht Hdepois.
    unfold selecionar_tarefa. executa. rewrite Hin. simpl.
    rewrite bool_decide_eq_false_2 by done. fold (colecao w).
    rewrite Hl in Hok |- *. by rewrite (filtrar_unica _ _ _ _ Hok Hantes Ht Hdepois).
Qed.

(** X12. The numbered choice among several matches: an answer made of
    digits whose value [n] lies between 1 and the number of matches returns
    the match at position [n]; the guard lets no index outside the list
    through, and any other value or a non-digit answer returns nothing. *)
Theorem escolha_numerada_dentro_dos_limites idx (encontrados : list tarefa) :
  (∀ n, isdigit idx = true → int_de idx = Some n →
        0 < n ≤ Z.of_nat (length encontrados) →
        ∃ t, escolher idx encontrados = Ok (Some t) ∧
             encontrados !! Z.to_nat (n - 1) = Some t) ∧
  (∀ n, isdigit idx = true → int_de idx = Some n →
        ¬ (0 < n ≤ Z.of_nat (length encontrados)) →
        escolher idx encontrados = Ok None) ∧
  (isdigit idx = false → escolher idx encontrados = Ok None).
Proof.
  unfold escolher. split; [|split].
  - intros n -> -> [Hlo Hhi].
    assert ((0 <? n) && (n <=? Z.of_nat (length encontrados)) = true) as ->.
    { apply andb_true_iff. split; [by apply Z.ltb_lt|by apply Z.leb_le]. }
    destruct (lookup_lt_is_Some_2 encontrados (Z.to_nat (n - 1))) as [t Ht]; [lia|].
    exists t. by rewrite Ht.
  - intros n -> -> Hout.
    destruct ((0 <? n) && (n <=? Z.of_nat (length encontrados))) eqn:Hb; [|done].
    apply andb_true_iff in Hb as [Hlo%Z.ltb_lt Hhi%Z.leb_le]. lia.
  - by intros ->.
Qed.

End SelecaoMais.

(** ** More about Edit and Delete *)

Section EditarExcluirMais.
Context `{PT : PyTexto} `{PD : PyDatas}.

Lemma selecionada_nao_vazia prompt w w1 (t : tarefa) :
  selecionar_tarefa prompt w = (Ok (Some t), w1) → nada (Some t) = false.
Proof.
  intros Hsel. destruct (selecionar_tarefa_Some _ _ _ _ Hsel) as (_ & _ & Ht & Hids).
  unfold ids_texto in Hids. rewrite Forall_forall in Hids.
  destruct (Hids t Ht) as [s Hs].
  simpl. apply bool_decide_eq_false_2. intros ->. by rewrite lookup_empty in Hs.
Qed.

(** X13. On an edit that runs to its end, the stored record differs from
    the selected one in nothing but the five fields Edit asks about: id,
    creation time, both time counters and any other field are as before.  A
    non-blank title or description answer replaces that field with the
    trimmed answer, and a deadline answer that parses is stored in ISO
    form. *)
Theorem editar_so_muda_os_campos_perguntados
    w w1 (t : tarefa) x1 x2 x3 x4 x5 resto :
  selecionar_tarefa PROMPT_SELECAO w = (Ok (Some t), w1) →
  entrada w1 = x1 :: x2 :: x3 :: x4 :: x5 :: resto →
  is_Some (t !! "titulo") →
  (∃ pz, format_prazo (get t "prazo") = Ok pz) →
  (isdigit (strip x3) = true → is_Some (int_de (strip x3))) →
  ∃ t' antes item depois falas,
    colecao w = antes ++ item :: depois ∧
    Forall (λ x : tarefa, x !! "id" ≠ t !! "id") antes ∧
    item !! "id" = t !! "id" ∧
    editar_tarefa_interativa w =
      (Ok tt, Mundo (Documento (antes ++ t' :: depois)) resto
                (saida w1 ++ falas ++ ["Tarefa atualizada."]) (S (gravacoes w))) ∧
    (∀ k, k ≠ "titulo" → k ≠ "descricao" → k ≠ "quantidade" → k ≠ "prazo" →
          k ≠ "concluida" → t' !! k = t !! k) ∧
    (strip x1 ≠ "" → t' !! "titulo" = Some (VStr (strip x1))) ∧
    (strip x2 ≠ "" → t' !! "descricao" = Some (VStr (strip x2))) ∧
    (∀ p, strip x4 ≠ "" → parse_prazo (strip x4) = Some p →
          t' !! "prazo" = Some (VStr (isoformat p))).
Proof.
  intros Hsel Hin Htit Hpz Hq.
  destruct (editar_tarefa_interativa_executa _ _ _ _ _ _ _ _ _ Hsel Hin Htit Hpz Hq)
    as (t' & antes & item & depois & falas & Ht' & Hl & Hantes & Hitem & Hid & Hrun).
  exists t', antes, item, depois, falas.
  destruct (campos_editados_campos _ _ _ _ _ _ _ Ht') as (H1 & H2 & _ & H4 & _).
  repeat (split; [done|]).
  split; [intros k ? ? ? ? ?; by apply (campos_editados_outro _ _ _ _ _ _ _ k Ht')|].
  split; [intros E; rewrite H1; by rewrite bool_decide_eq_false_2|].
  split; [intros E; rewrite H2; by rewrite bool_decide_eq_false_2|].
  intros p E Hp. rewrite H4, Hp. by rewrite bool_decide_eq_false_2.
Qed.

(** X14. Edit saves only after it has read five answers: when fewer than
    five lines of input are left, whatever they are, the file and the count
    of saves stay as they were. *)
Theorem editar_interrompida_nao_grava (t : tarefa) w :
  (length (entrada w) < 5)%nat →
  disco (snd (editar_selecionada t w)) = disco w ∧
  gravacoes (snd (editar_selecionada t w)) = gravacoes w.
Proof.
  intros Hlen. unfold editar_selecionada.
  destruct (getitem t "titulo") as [atual|e]; [|done].
  executa.
  destruct (entrada w) as [|x1 [|x2 [|x3 [|x4 [|x5 resto]]]]] eqn:Hin;
    simpl in *; try done; try lia.
  all: destruct (com_quantidade _ _); simpl; [|done].
  all: by destruct (format_prazo _).
Qed.

Lemma sem_id_filter (t : tarefa) s (l : list tarefa) :
  t !! "id" = Some (VStr s) → ids_texto l →
  sem_id t l = Ok (filter (λ y : tarefa, y !! "id" ≠ Some (VStr s)) l).
Proof.
  intros Ht. induction 1 as [|y l [sy Hy] _ IH]; simpl; [done|].
  unfold getitem. rewrite Hy, Ht. simpl. rewrite IH. simpl.
  rewrite filter_cons. case_bool_decide as Heq.
  - subst. rewrite decide_False; [done|]. intros Hne. by apply Hne.
  - rewrite decide_True; [done|]. congruence.
Qed.

(** X15. A confirmed Delete removes from the loaded collection every task
    that carries the id of the selected one and nothing else: the other
    tasks are saved unchanged and in order, the selected task is no longer
    loaded, one save is made and the success message is printed. *)
Theorem excluir_remove_as_do_mesmo_id w w1 (t : tarefa) x resto atual :
  selecionar_tarefa PROMPT_SELECAO w = (Ok (Some t), w1) →
  entrada w1 = x :: resto →
  t !! "titulo" = Some atual →
  afirmativa (lower (strip x)) = true →
  let restantes := filter (λ y : tarefa, y !! "id" ≠ t !! "id") (colecao w) in
  excluir_tarefa_interativa w =
    (Ok tt, Mundo (Documento restantes) resto
              (saida w1 ++ ["Excluir [" +:+ py_str atual +:+ "]? (s/N): ";
                            "Tarefa excluída."])
              (S (gravacoes w))) ∧
  colecao (snd (excluir_tarefa_interativa w)) = restantes ∧
  t ∉ restantes.
Proof.
  intros Hsel Hin Hat Hsim restantes.
  destruct (selecionar_tarefa_Some _ _ _ _ Hsel) as (Hd & Hg & Ht & Hids).
  assert (∃ s, t !! "id" = Some (VStr s)) as [s Hs].
  { unfold ids_texto in Hids. rewrite Forall_forall in Hids. by apply Hids. }
  assert (excluir_tarefa_interativa w =
    (Ok tt, Mundo (Documento restantes) resto
              (saida w1 ++ ["Excluir [" +:+ py_str atual +:+ "]? (s/N): ";
                            "Tarefa excluída."])
              (S (gravacoes w)))) as Hrun.
  { unfold excluir_tarefa_interativa. rewrite (bind_Ok _ _ _ _ _ Hsel).
    rewrite (selecionada_nao_vazia _ _ _ _ Hsel).
    unfold excluir_selecionada, getitem. rewrite Hat. executa.
    rewrite Hin. simpl. rewrite Hsim. simpl. rewrite Hd. fold (colecao w).
    rewrite (sem_id_filter t s (colecao w) Hs Hids). simpl.
    unfold restantes. rewrite Hs, Hg. by rewrite <- app_assoc. }
  split; [exact Hrun|]. rewrite Hrun. split.
  - unfold colecao at 1. simpl disco. apply conteudo_Documento, filter_sem_tipo.
  - intros Hin'. apply list_elem_of_filter in Hin' as [Hne _]. by apply Hne.
Qed.

(** X16. A Delete that is not confirmed with "s" or "sim" writes nothing:
    it returns after its question with the file and the count of saves as
    they were and nothing more printed. *)
Theorem excluir_sem_confirmacao_nao_grava w w1 (t : tarefa) x resto atual :
  selecionar_tarefa PROMPT_SELECAO w = (Ok (Some t), w1) →
  entrada w1 = x :: resto →
  t !! "titulo" = Some atual →
  afirmativa (lower (strip x)) = false →
  excluir_tarefa_interativa w =
    (Ok tt, Mundo (disco w) resto
              (saida w1 ++ ["Excluir [" +:+ py_str atual +:+ "]? (s/N): "])
              (gravacoes w)).
Proof.
  intros Hsel Hin Hat Hnao.
  destruct (selecionar_tarefa_Some _ _ _ _ Hsel) as (Hd & Hg & _ & _).
  unfold excluir_tarefa_interativa. rewrite (bind_Ok _ _ _ _ _ Hsel).
  rewrite (selecionada_nao_vazia _ _ _ _ Hsel).
  unfold excluir_selecionada, getitem. rewrite Hat. executa.
  rewrite Hin. simpl. rewrite Hnao. by rewrite Hd, Hg.
Qed.

End EditarExcluirMais.

(** ** More about Create *)

Section CriarMais.
Context `{PT : PyTexto} `{PD : PyDatas}.

Lemma nova_tarefa_sem_tipo novo_id titulo descricao q prazo agora_dt :
  sem_tipo (nova_tarefa novo_id titulo descricao q prazo agora_dt).
Proof. unfold sem_tipo, nova_tarefa. by rewrite !lookup_insert_ne. Qed.

Lemma criar_executa novo_id agora_dt w x1 x2 x3 x4 resto q :
  entrada w = x1 :: x2 :: x3 :: x4 :: resto →
  strip x1 ≠ "" →
  quantidade_de (strip x3) = Ok q →
  (strip x4 = "" ∨ is_Some (parse_prazo (strip x4))) →
  criar_tarefa_interativa novo_id agora_dt w =
    (Ok tt, Mundo (Documento (colecao w ++
                     [nova_tarefa novo_id (strip x1) (strip x2) q
                        (parse_prazo (strip x4)) agora_dt])) resto
              (saida w ++ ["Título: "; "Descrição (opcional): ";
                           "Quantidade (opcional): ";
                           "Prazo (%Y-%m-%d %H:%M) ou Enter para nenhum: ";
                           "Tarefa criada: " +:+ fatia 8 novo_id])
              (S (gravacoes w))).
Proof.
  intros Hin H1 Hq H4.
  unfold criar_tarefa_interativa. executa.
  rewrite Hin. simpl. rewrite bool_decide_eq_false_2 by done. simpl.
  rewrite Hq. simpl.
  assert (negb (bool_decide (strip x4 = "")) &&
          negb (bool_decide (is_Some (parse_prazo (strip x4)))) = false) as ->.
  { destruct H4 as [H4|H4].
    - by rewrite bool_decide_eq_true_2.
    - rewrite (bool_decide_eq_true_2 (is_Some _)) by done. apply andb_false_r. }
  cbn [disco entrada saida gravacoes]. fold (colecao w).
  by rewrite <- !app_assoc.
Qed.

Lemma colecao_com_nova (l : list tarefa) (nova : tarefa) e s g :
  Forall sem_tipo l → sem_tipo nova →
  colecao (Mundo (Documento (l ++ [nova])) e s g) = l ++ [nova].
Proof.
  intros Hl Hn. apply (conteudo_Documento (l ++ [nova])).
  apply Forall_app. split; [done|]. by constructor.
Qed.

(** X5. Create with a title that is not blank, a quantity answer that
    converts and a deadline answer that is blank or parses appends exactly
    one record, built from the trimmed answers, to the loaded collection,
    saves once and prints the first eight characters of the new id; every
    task that was there stays as it was, in place. *)
Theorem criar_acrescenta_ao_fim novo_id agora_dt w x1 x2 x3 x4 resto q :
  entrada w = x1 :: x2 :: x3 :: x4 :: resto →
  strip x1 ≠ "" →
  quantidade_de (strip x3) = Ok q →
  (strip x4 = "" ∨ is_Some (parse_prazo (strip x4))) →
  let nova := nova_tarefa novo_id (strip x1) (strip x2) q
                (parse_prazo (strip x4)) agora_dt in
  criar_tarefa_interativa novo_id agora_dt w =
    (Ok tt, Mundo (Documento (colecao w ++ [nova])) resto
              (saida w ++ ["Título: "; "Descrição (opcional): ";
                           "Quantidade (opcional): ";
                           "Prazo (%Y-%m-%d %H:%M) ou Enter para nenhum: ";
                           "Tarefa criada: " +:+ fatia 8 novo_id])
              (S (gravacoes w))) ∧
  colecao (snd (criar_tarefa_interativa novo_id agora_dt w)) = colecao w ++ [nova].
Proof.
  intros Hin H1 Hq H4 nova.
  rewrite (criar_executa novo_id agora_dt w x1 x2 x3 x4 resto q Hin H1 Hq H4).
  split; [done|]. simpl snd.
  apply colecao_com_nova; [apply conteudo_sem_tipo|apply nova_tarefa_sem_tipo].
Qed.

(** X6. Deleting the record that Create has just stored gives back the
    collection as it was: when every loaded task has a string id other than
    the new one, Create followed by a confirmed Delete of the created record
    leaves the collection that loaded before, after two saves. *)
Theorem criar_depois_excluir_restaura
    novo_id agora_dt w x1 x2 x3 x4 y resto q :
  entrada w = x1 :: x2 :: x3 :: x4 :: y :: resto →
  strip x1 ≠ "" →
  quantidade_de (strip x3) = Ok q →
  (strip x4 = "" ∨ is_Some (parse_prazo (strip x4))) →
  afirmativa (lower (strip y)) = true →
  ids_texto (colecao w) →
  Forall (λ t : tarefa, t !! "id" ≠ Some (VStr novo_id)) (colecao w) →
  let nova := nova_tarefa novo_id (strip x1) (strip x2) q
                (parse_prazo (strip x4)) agora_dt in
  let w1 := snd (criar_tarefa_interativa novo_id agora_dt w) in
  let w2 := snd (excluir_selecionada nova w1) in
  colecao w1 = colecao w ++ [nova] ∧
  fst (excluir_selecionada nova w1) = Ok tt ∧
  colecao w2 = colecao w ∧
  gravacoes w2 = S (S (gravacoes w)).
Proof.
  intros Hin H1 Hq H4 Hsim Hids Hfresco nova w1 w2.
  assert (nova !! "id" = Some (VStr novo_id)) as Hid.
  { unfold nova, nova_tarefa. rewrite !lookup_insert_ne by done.
    by rewrite lookup_insert_eq. }
  assert (nova !! "titulo" = Some (VStr (strip x1))) as Htit.
  { unfold nova, nova_tarefa. rewrite !lookup_insert_ne by done.
    by rewrite lookup_insert_eq. }
  assert (colecao w1 = colecao w ++ [nova]) as Hl1.
  { unfold w1. rewrite (criar_executa novo_id agora_dt w x1 x2 x3 x4 (y :: resto) q
                          Hin H1 Hq H4). simpl snd.
    apply colecao_com_nova; [apply conteudo_sem_tipo|apply nova_tarefa_sem_tipo]. }
  assert (entrada w1 = y :: resto ∧ gravacoes w1 = S (gravacoes w)) as [Hin1 Hg1].
  { unfold w1. by rewrite (criar_executa novo_id agora_dt w x1 x2 x3 x4 (y :: resto) q
                             Hin H1 Hq H4). }
  assert (ids_texto (colecao w1)) as Hids1.
  { rewrite Hl1. apply Forall_app. split; [done|]. constructor; [|constructor].
    by exists novo_id. }
  assert (filter (λ t : tarefa, t !! "id" ≠ Some (VStr novo_id)) (colecao w1) = colecao w)
    as Hfil.
  { rewrite Hl1, filter_app, (filter_todos _ _ Hfresco).
    rewrite filter_cons_False by (intros Hne; by apply Hne). by rewrite app_nil_r. }
  assert (excluir_selecionada nova w1 =
            (Ok tt, Mundo (Documento (colecao w)) resto
                      (saida w1 ++ ["Excluir [" +:+ strip x1 +:+ "]? (s/N): ";
                                    "Tarefa excluída."])
                      (S (S (gravacoes w))))) as Hrun.
  { unfold excluir_selecionada, getitem. rewrite Htit. executa.
    rewrite Hin1. simpl. rewrite Hsim. simpl. fold (colecao w1).
    rewrite (sem_id_filter nova novo_id (colecao w1) Hid Hids1), Hfil. simpl.
    by rewrite Hg1, <- app_assoc. }
  split; [done|]. unfold w2. rewrite Hrun. split; [done|]. split; [|done].
  apply colecao_recarregada.
Qed.

Lemma nova_tarefa_prazo novo_id titulo descricao q prazo criada :
  nova_tarefa novo_id titulo descricao q prazo criada !! "prazo" =
    Some (match prazo with Some p => VStr (isoformat p) | None => VNone end).
Proof. unfold nova_tarefa. by simplify_map_eq. Qed.

(** The test of the sweep on a record created with the deadline [d]. *)
Lemma nova_tarefa_vencida novo_id titulo descricao q (d : datetime) criada agora_dt b :
  isoformat d ≠ "" →
  fromisoformat (isoformat d) = Some d →
  dt_le d agora_dt = Some b →
  vencida agora_dt (nova_tarefa novo_id titulo descricao q (Some d) criada) = Ok b.
Proof.
  intros Hne Hiso Hle. unfold vencida, prazo_de, get, get_ou.
  rewrite nova_tarefa_prazo. simpl.
  rewrite bool_decide_eq_false_2 by done. simpl. by rewrite Hiso, Hle.
Qed.

Lemma nova_tarefa_sem_prazo novo_id titulo descricao q criada agora_dt :
  vencida agora_dt (nova_tarefa novo_id titulo descricao q None criada) = Ok false.
Proof. unfold vencida, prazo_de, get, get_ou. by rewrite nova_tarefa_prazo. Qed.

(** What a test that returns says about the two predicates. *)
Lemma vencida_Ok agora_dt (t : tarefa) b :
  vencida agora_dt t = Ok b →
  comparavel agora_dt t ∧ (prazo_vencido agora_dt t ↔ b = true).
Proof.
  intros Hv. destruct (vencida_casos agora_dt t) as [[Hc Hb]|(_ & _ & Hb)];
    [|congruence].
  split; [done|]. rewrite Hb in Hv. injection Hv as <-.
  by rewrite bool_decide_eq_true.
Qed.

(** X7. Create, then the sweep, over a collection whose deadlines can be
    compared with the clock of the sweep.  A record created without a
    deadline survives the sweep, at the end of what the sweep leaves of the
    older tasks.  A record created with the deadline [d], provided the
    library reads back the ISO text it writes for [d] and can compare [d]
    with the clock, is tested by the sweep as [d <= agora]: it is removed
    when that holds and survives otherwise. *)
Theorem criar_depois_varrer_remove_pelo_prazo
    novo_id agora_dt notificar depois_dt w x1 x2 x3 x4 resto q :
  entrada w = x1 :: x2 :: x3 :: x4 :: resto →
  strip x1 ≠ "" →
  quantidade_de (strip x3) = Ok q →
  Forall (comparavel depois_dt) (colecao w) →
  let nova := nova_tarefa novo_id (strip x1) (strip x2) q
                (parse_prazo (strip x4)) agora_dt in
  let w1 := snd (criar_tarefa_interativa novo_id agora_dt w) in
  let w2 := snd (remover_vencidas notificar depois_dt w1) in
  (strip x4 = "" →
   vencida depois_dt nova = Ok false ∧
   colecao w2 = filter (λ t, ¬ prazo_vencido depois_dt t) (colecao w) ++ [nova]) ∧
  (∀ d b,
     parse_prazo (strip x4) = Some d →
     isoformat d ≠ "" →
     fromisoformat (isoformat d) = Some d →
     dt_le d depois_dt = Some b →
     vencida depois_dt nova = Ok b ∧
     colecao w2 = filter (λ t, ¬ prazo_vencido depois_dt t) (colecao w) ++
                  (if b then [] else [nova])).
Proof.
  intros Hin H1 Hq Hl nova w1 w2.
  assert (∀ b, (strip x4 = "" ∨ is_Some (parse_prazo (strip x4))) →
               vencida depois_dt nova = Ok b →
               colecao w2 = filter (λ t, ¬ prazo_vencido depois_dt t) (colecao w) ++
                            (if b then [] else [nova])) as Hgeral.
  { intros b H4 Hv. apply vencida_Ok in Hv as [Hc Hb].
    assert (colecao w1 = colecao w ++ [nova]) as Hcol1.
    { unfold w1. rewrite (criar_executa _ _ _ _ _ _ _ _ _ Hin H1 Hq H4). simpl.
      apply colecao_com_nova; [apply conteudo_sem_tipo|apply nova_tarefa_sem_tipo]. }
    unfold w2. rewrite colecao_apos_varredura; rewrite Hcol1.
    2:{ apply Forall_app. split; [done|]. by constructor. }
    rewrite filter_app. f_equal. destruct b.
    - rewrite filter_cons_False; [done|]. intros Hn. apply Hn. by apply Hb.
    - rewrite filter_cons_True; [done|]. intros Hv. apply Hb in Hv. done. }
  split.
  - intros H4. assert (parse_prazo (strip x4) = None) as Hp.
    { unfold parse_prazo. by rewrite bool_decide_eq_true_2. }
    assert (vencida depois_dt nova = Ok false) as Hv.
    { unfold nova. rewrite Hp. apply nova_tarefa_sem_prazo. }
    split; [done|]. apply (Hgeral false); [by left|done].
  - intros d b Hp Hne Hiso Hle.
    assert (vencida depois_dt nova = Ok b) as Hv.
    { unfold nova. rewrite Hp. by apply nova_tarefa_vencida. }
    split; [done|]. apply (Hgeral b); [|done]. right. by rewrite Hp.
Qed.

End CriarMais.

(** ** More about Toggle-Complete and the stopwatch *)

Section MarcarCronometroMais.
Context `{PT : PyTexto} `{PD : PyDatas}.

Lemma marcar_selecionada_executa (t : tarefa) i w antes item depois :
  t !! "id" = Some i →
  colecao w = antes ++ item :: depois →
  Forall (outro_id i) antes → tem_id i item →
  let item' := <["concluida" :=
                   VBool (negb (truthy (get_ou item "concluida" (VBool false))))]> item in
  marcar_selecionada t w =
    (Ok tt, Mundo (Documento (antes ++ item' :: depois)) (entrada w)
              (saida w ++ ["Estado alterado."]) (S (gravacoes w))) ∧
  colecao (snd (marcar_selecionada t w)) = antes ++ item' :: depois.
Proof.
  intros Ht Hl Hantes Hitem item'.
  assert (marcar_selecionada t w =
    (Ok tt, Mundo (Documento (antes ++ item' :: depois)) (entrada w)
              (saida w ++ ["Estado alterado."]) (S (gravacoes w)))) as Hrun.
  { unfold marcar_selecionada. executa. fold (colecao w). rewrite Hl.
    by rewrite (alternar_primeira t i antes item depois Ht Hantes Hitem). }
  split; [exact Hrun|]. rewrite Hrun. unfold colecao at 1. simpl disco.
  apply (conteudo_Documento (antes ++ item' :: depois)).
  eapply sem_tipo_meio.
  - rewrite <- Hl. apply conteudo_sem_tipo.
  - unfold item'. by rewrite lookup_insert_ne.
Qed.

(** X17. Toggle-Complete from the menu negates the completion status of the
    first loaded task that carries the id of the selected one and changes
    nothing else: every other field of that task and every other task are
    saved as they were, with one save and the message "Estado alterado.". *)
Theorem marcar_tarefa_so_inverte_concluida w w1 (t : tarefa) :
  selecionar_tarefa PROMPT_SELECAO w = (Ok (Some t), w1) →
  ∃ antes item depois b,
    colecao w = antes ++ item :: depois ∧
    Forall (λ x : tarefa, x !! "id" ≠ t !! "id") antes ∧
    item !! "id" = t !! "id" ∧
    b = negb (truthy (get_ou item "concluida" (VBool false))) ∧
    marcar_tarefa w =
      (Ok tt, Mundo (Documento (antes ++ <["concluida" := VBool b]> item :: depois))
                (entrada w1) (saida w1 ++ ["Estado alterado."])
                (S (gravacoes w))) ∧
    ∀ k, k ≠ "concluida" → (<["concluida" := VBool b]> item) !! k = item !! k.
Proof.
  intros Hsel.
  destruct (selecionar_tarefa_Some _ _ _ _ Hsel) as (Hd & Hg & Ht & Hids).
  assert (∃ s, t !! "id" = Some (VStr s)) as [s Hs].
  { unfold ids_texto in Hids. rewrite Forall_forall in Hids. by apply Hids. }
  destruct (primeira_com_id s t (colecao w) Hids Ht Hs)
    as (antes & item & depois & Hl & Hantes & Hitem).
  exists antes, item, depois, (negb (truthy (get_ou item "concluida" (VBool false)))).
  split; [done|]. split.
  { eapply Forall_impl; [exact Hantes|]. intros x (b & Hb & Hne) Heq.
    rewrite Hb, Hs in Heq. injection Heq as ->.
    rewrite (proj2 (py_eq_VStr _ _) eq_refl) in Hne. done. }
  split; [congruence|]. split; [done|]. split.
  - unfold marcar_tarefa. rewrite (bind_Ok _ _ _ _ _ Hsel).
    assert (nada (Some t) = false) as ->.
    { simpl. apply bool_decide_eq_false_2. intros ->. by rewrite lookup_empty in Hs. }
    assert (colecao w1 = antes ++ item :: depois) as Hl1
      by (unfold colecao; rewrite Hd; exact Hl).
    destruct (marcar_selecionada_executa t (VStr s) w1 antes item depois Hs Hl1 Hantes)
      as [Hrun _]; [by apply tem_id_VStr|].
    by rewrite Hrun, Hg.
  - intros k Hk. by rewrite lookup_insert_ne.
Qed.

(** X18. Toggling twice gives back the collection: for a task whose
    completion status is a boolean, the first toggle stores its negation and
    the second one restores the record, so that the collection loaded after
    two toggles is the one loaded before them; each toggle saves once. *)
Theorem marcar_duas_vezes_restaura (t : tarefa) i w antes item depois b :
  t !! "id" = Some i →
  colecao w = antes ++ item :: depois →
  Forall (outro_id i) antes → tem_id i item →
  item !! "concluida" = Some (VBool b) →
  let w1 := snd (marcar_selecionada t w) in
  let w2 := snd (marcar_selecionada t w1) in
  colecao w1 = antes ++ <["concluida" := VBool (negb b)]> item :: depois ∧
  colecao w2 = colecao w ∧
  gravacoes w2 = S (S (gravacoes w)).
Proof.
  intros Ht Hl Hantes Hitem Hb w1 w2.
  destruct (marcar_selecionada_executa t i w antes item depois Ht Hl Hantes Hitem)
    as [Hrun1 Hl1].
  assert (get_ou item "concluida" (VBool false) = VBool b) as Hg
    by (unfold get_ou; by rewrite Hb).
  rewrite Hg in Hrun1, Hl1. simpl in Hrun1, Hl1. fold w1 in Hl1.
  assert (tem_id i (<["concluida" := VBool (negb b)]> item)) as Hitem1.
  { destruct Hitem as (c & Hc & Heq). exists c. by rewrite lookup_insert_ne. }
  destruct (marcar_selecionada_executa t i w1 antes _ depois Ht Hl1 Hantes Hitem1)
    as [Hrun2 Hl2].
  fold w2 in Hl2. split; [done|]. split.
  - rewrite Hl2, Hl. do 2 f_equal. unfold get_ou. rewrite lookup_insert_eq. simpl.
    rewrite insert_insert_eq, negb_involutive. by apply insert_id.
  - unfold w2. rewrite Hrun2. simpl. unfold w1. by rewrite Hrun1.
Qed.

(** X19. When no loaded task carries the id of the selected one, the timer
    accumulator does nothing at all: no save, nothing printed, the world is
    as it was. *)
Theorem cronometro_sem_tarefa_nao_faz_nada (t : tarefa) dur w :
  id_ausente t w →
  acumular_cronometro t dur w = (Ok tt, w).
Proof.
  intros (i & Hi & Hall). unfold acumular_cronometro. executa. fold (colecao w).
  rewrite (acumular_ausente t i dur (colecao w) Hi Hall). by destruct w.
Qed.

(** X20. The stopwatch cancelled with "q" at its first question never
    reloads or saves: the file and the count of saves are as they were and
    only the instructions have been printed. *)
Theorem cronometro_cancelado_nao_grava dur w w1 (t : tarefa) x resto :
  selecionar_tarefa "Tarefa a cronometrar: " w = (Ok (Some t), w1) →
  entrada w1 = x :: resto →
  lower (strip x) = "q" →
  iniciar_cronometro dur w =
    (Ok tt, Mundo (disco w) resto
              (saida w1 ++ ["Enter inicia | Enter para parar | q cancela"])
              (gravacoes w)).
Proof.
  intros Hsel Hin Hq.
  destruct (selecionar_tarefa_Some _ _ _ _ Hsel) as (Hd & Hg & _ & _).
  unfold iniciar_cronometro. rewrite (bind_Ok _ _ _ _ _ Hsel).
  rewrite (selecionada_nao_vazia _ _ _ _ Hsel). executa.
  rewrite Hin. simpl. rewrite bool_decide_eq_true_2 by done. by rewrite Hd, Hg.
Qed.

(** X21. What the accumulator does with the stored total of the first task
    that carries the id: a missing total counts as 0 and a boolean as 0 or
    1, and the new total is that number plus the session; a total that is
    not a number (a string, or null) makes it raise [TypeError] with nothing
    saved and nothing printed. *)
Theorem cronometro_total_ausente_ou_nao_numerico
    (t : tarefa) i w antes item depois dur :
  t !! "id" = Some i →
  colecao w = antes ++ item :: depois →
  Forall (outro_id i) antes → tem_id i item →
  (∀ T, num (get_ou item "total_tempo_seg" (VInt 0)) = Some T →
        ∃ w', acumular_cronometro t dur w = (Ok tt, w') ∧
              colecao w' = antes ++ com_sessao T dur item :: depois ∧
              gravacoes w' = S (gravacoes w)) ∧
  (num (get_ou item "total_tempo_seg" (VInt 0)) = None →
   acumular_cronometro t dur w = (Raise TypeError, w)).
Proof.
  intros Ht Hl Hantes Hitem. split.
  - intros T HT.
    assert (acumular_item dur item = Ok (com_sessao T dur item)) as Hacc.
    { unfold acumular_item, com_sessao, somar, get_ou in *.
      rewrite lookup_insert_ne by done. by rewrite HT. }
    unfold acumular_cronometro. executa. fold (colecao w). rewrite Hl.
    rewrite (acumular_primeira t i dur antes item _ depois Ht Hantes Hitem Hacc).
    eexists. split; [done|]. unfold colecao. simpl. split; [|done].
    apply (conteudo_Documento (antes ++ com_sessao T dur item :: depois)).
    eapply sem_tipo_meio.
    + rewrite <- Hl. apply conteudo_sem_tipo.
    + by apply com_sessao_campos.
  - intros HT.
    assert (acumular_item dur item = Raise TypeError) as Hacc.
    { unfold acumular_item, somar, get_ou in *.
      rewrite lookup_insert_ne by done. by rewrite HT. }
    unfold acumular_cronometro. executa. fold (colecao w). rewrite Hl.
    rewrite (acumular_primeira_erro t i dur antes item _ depois Ht Hantes Hitem Hacc).
    by destruct w.
Qed.

(** X22. The stopwatch from the menu, not cancelled: after the selection
    and the two presses of Enter, the session of [dur] seconds is added to
    the first task that carries the selected id, the collection is saved
    once, and the message shows the session as minutes and seconds
    ([dur] divided by 60 and the remainder). *)
Theorem iniciar_cronometro_registra_sessao dur w w1 (t : tarefa) x y resto T :
  selecionar_tarefa "Tarefa a cronometrar: " w = (Ok (Some t), w1) →
  entrada w1 = x :: y :: resto →
  lower (strip x) ≠ "q" →
  t !! "total_tempo_seg" = Some (VInt T) →
  ids_unicos (colecao w) →
  ∃ antes depois,
    colecao w = antes ++ t :: depois ∧
    iniciar_cronometro dur w =
      (Ok tt, Mundo (Documento (antes ++ com_sessao T dur t :: depois)) resto
                (saida w1 ++ ["Enter inicia | Enter para parar | q cancela";
                              "Cronômetro salvo: " +:+ pretty (dur `div` 60) +:+ "m"
                              +:+ pretty (dur `mod` 60) +:+ "s"])
                (S (gravacoes w))).
Proof.
  intros Hsel Hin Hq HT Hun.
  destruct (selecionar_tarefa_Some _ _ _ _ Hsel) as (Hd & Hg & Ht & Hids).
  assert (∃ s, t !! "id" = Some (VStr s)) as [s Hs].
  { unfold ids_texto in Hids. rewrite Forall_forall in Hids. by apply Hids. }
  destruct (primeira_com_id s t (colecao w) Hids Ht Hs)
    as (antes & item & depois & Hl & Hantes & Hitem).
  assert (item = t) as ->.
  { eapply ids_unicos_mesmo; [exact Hun| |exact Ht|congruence].
    rewrite Hl. apply elem_of_app. right. by left. }
  exists antes, depois. split; [done|].
  unfold iniciar_cronometro. rewrite (bind_Ok _ _ _ _ _ Hsel).
  rewrite (selecionada_nao_vazia _ _ _ _ Hsel).
  unfold acumular_cronometro. executa. rewrite Hin. simpl.
  rewrite bool_decide_eq_false_2 by done. simpl.
  rewrite Hd. fold (colecao w). rewrite Hl.
  rewrite (acumular_primeira t (VStr s) dur antes t (com_sessao T dur t) depois);
    [|done|done|by apply tem_id_VStr|by apply acumular_item_int].
  simpl. rewrite Hg. by rewrite <- !app_assoc.
Qed.

End MarcarCronometroMais.

(** ** Listing and start-up *)

Section ListarMais.
Context `{PT : PyTexto} `{PD : PyDatas}.

Lemma so_terminal_imprimir_tarefa t : so_terminal (imprimir_tarefa t).
Proof.
  unfold imprimir_tarefa, imprimir_descricao, imprimir_tempos. so_no_terminal.
  apply so_terminal_bind.
  - destruct (truthy _); so_no_terminal.
  - intros _. destruct (truthy _); so_no_terminal.
Qed.

Lemma so_terminal_imprimir lista titulo : so_terminal (imprimir lista titulo).
Proof.
  unfold imprimir. so_no_terminal.
  apply so_terminal_para_cada. apply so_terminal_imprimir_tarefa.
Qed.

Lemma bind_terminal_depois {A B} (c : M A) (k : A → M B) w :
  (∀ a, so_terminal (k a)) →
  disco (snd (bind c k w)) = disco (snd (c w)) ∧
  gravacoes (snd (bind c k w)) = gravacoes (snd (c w)).
Proof.
  intros Hk. unfold bind. destruct (c w) as [[a|e] w1]; [|done]. apply Hk.
Qed.

(** X23. Listing writes what its sweep writes and nothing more: after
    [listar_tarefas_interativo] the file and the count of saves are exactly
    what the sweep with notification leaves at the same instant. *)
Theorem listar_so_grava_pela_varredura agora_dt w :
  disco (snd (listar_tarefas_interativo agora_dt w)) =
    disco (snd (remover_vencidas true agora_dt w)) ∧
  gravacoes (snd (listar_tarefas_interativo agora_dt w)) =
    gravacoes (snd (remover_vencidas true agora_dt w)).
Proof.
  unfold listar_tarefas_interativo. apply bind_terminal_depois. intros _.
  so_no_terminal.
  match goal with |- context [match ?l with _ => _ end] => destruct l end;
    so_no_terminal.
  apply so_terminal_bind; [apply so_terminal_imprimir|intros _].
  apply so_terminal_imprimir.
Qed.

(** X24. The two groups of the listing split the collection: every task is
    in exactly one of them, each group keeps the order of the collection,
    and the two counts shown in the headers add up to the number of tasks. *)
Theorem listar_reparte_em_dois_grupos (tarefas : list tarefa) :
  pendentes tarefas ++ concluidas tarefas ≡ₚ tarefas ∧
  (length (pendentes tarefas) + length (concluidas tarefas))%nat = length tarefas ∧
  (∀ t, t ∈ pendentes tarefas → t ∉ concluidas tarefas) ∧
  sublist (pendentes tarefas) tarefas ∧ sublist (concluidas tarefas) tarefas.
Proof.
  assert (pendentes tarefas ++ concluidas tarefas ≡ₚ tarefas) as Hperm.
  { unfold pendentes, concluidas. induction tarefas as [|t l IH]; [done|].
    rewrite !filter_cons. destruct (truthy (get t "concluida")) eqn:Hc.
    - rewrite decide_False by done. rewrite decide_True by done.
      rewrite <- Permutation_middle. by constructor.
    - rewrite decide_True by done. rewrite decide_False by done.
      simpl. by constructor. }
  split; [done|]. split.
  { rewrite <- length_app. by rewrite Hperm. }
  split.
  { unfold pendentes, concluidas. intros t Hp Hc.
    apply list_elem_of_filter in Hp as [Hp _]. apply list_elem_of_filter in Hc as [Hc _].
    congruence. }
  split; apply sublist_filter.
Qed.

(** X25. With no file, with a file that cannot be parsed, or with an empty
    array, listing does not fail: it prints "Nenhuma tarefa registrada." and
    nothing else, and leaves the file as it found it. *)
Theorem listar_sem_tarefas agora_dt w :
  disco w = Ausente ∨ disco w = Ilegivel ∨ disco w = Documento [] →
  listar_tarefas_interativo agora_dt w =
    (Ok tt, Mundo (disco w) (entrada w)
              (saida w ++ ["Nenhuma tarefa registrada."]) (gravacoes w)).
Proof.
  intros Hd.
  assert (conteudo (disco w) = []) as Hvazia
    by (by destruct Hd as [-> | [-> | ->]]).
  unfold listar_tarefas_interativo, remover_vencidas. executa.
  rewrite Hvazia. simpl. by rewrite Hvazia.
Qed.

(** X26. Start-up creates an empty document when there is no file and
    never touches a file that exists, readable or not: the collection that
    loads is the same before and after, the file exists afterwards, and the
    banner is printed. *)
Theorem iniciar_programa_nao_altera_colecao w :
  let w' := snd (iniciar_programa w) in
  fst (iniciar_programa w) = Ok tt ∧
  colecao w' = colecao w ∧
  disco w' ≠ Ausente ∧
  (disco w ≠ Ausente → disco w' = disco w ∧ gravacoes w' = gravacoes w) ∧
  (disco w = Ausente → disco w' = Documento [] ∧ gravacoes w' = S (gravacoes w)) ∧
  saida w' = saida w ++ ["Gerenciador iniciado | Datas: %Y-%m-%d %H:%M"].
Proof.
  unfold iniciar_programa, preparar_arquivo. executa.
  destruct (disco w) eqn:Hd; simpl; unfold colecao; simpl; rewrite ?Hd;
    repeat split; try done.
Qed.

End ListarMais.

(** ** Conforming records stay conforming *)

Section Conforme.
Context `{PT : PyTexto} `{PD : PyDatas}.

Ltac campos_conformes H :=
  unfold conforme in *;
  destruct H as (? & ? & ? & ? & ? & ? & ? & ? & ?);
  repeat split; simplify_map_eq; eauto.

Lemma conforme_delete_tipo (t : tarefa) : conforme t → conforme (delete "tipo" t).
Proof. intros H. campos_conformes H. Qed.

Lemma arquivo_conforme_Documento (l : list tarefa) :
  Forall conforme l → arquivo_conforme (Documento l).
Proof.
  intros H. unfold arquivo_conforme. simpl. apply Forall_fmap.
  eapply Forall_impl; [exact H|]. intros t Ht. simpl. by apply conforme_delete_tipo.
Qed.

Lemma conforme_de_arquivo d0 (x : tarefa) :
  arquivo_conforme d0 → x ∈ conteudo d0 → conforme x.
Proof. intros H Hx. revert x Hx. by apply Forall_forall. Qed.

Lemma conforme_nova novo_id titulo descricao s q prazo agora_dt :
  quantidade_de s = Ok q →
  conforme (nova_tarefa novo_id titulo descricao q prazo agora_dt).
Proof.
  intros Hq. unfold quantidade_de in Hq.
  assert (q = VNone ∨ ∃ n, q = VInt n) as Hq'.
  { destruct (isdigit s); [destruct (int_de s); [|done]|]; injection Hq as <-; eauto. }
  unfold conforme, nova_tarefa. repeat split; simplify_map_eq; eauto.
  - destruct Hq' as [->|[n ->]]; eauto.
  - destruct prazo; eauto.
Qed.

Lemma conforme_com_titulo s (t : tarefa) : conforme t → conforme (com_titulo s t).
Proof. intros H. unfold com_titulo. case_bool_decide; [done|]. campos_conformes H. Qed.

Lemma conforme_com_descricao s (t : tarefa) :
  conforme t → conforme (com_descricao s t).
Proof. intros H. unfold com_descricao. case_bool_decide; [done|]. campos_conformes H. Qed.

Lemma conforme_com_quantidade s (t t3 : tarefa) :
  conforme t → com_quantidade s t = Ok t3 → conforme t3.
Proof.
  intros H. unfold com_quantidade. case_bool_decide; [by intros [= <-]|].
  destruct (isdigit s); [destruct (int_de s); [|done]|]; intros [= <-];
    campos_conformes H.
Qed.

Lemma conforme_com_prazo s (t : tarefa) : conforme t → conforme (com_prazo s t).
Proof.
  intros H. unfold com_prazo. case_bool_decide; [done|].
  destruct (parse_prazo s); [|done]. campos_conformes H.
Qed.

Lemma conforme_prazo_texto s (t : tarefa) :
  conforme t → conforme (<["prazo" := VStr s]> t).
Proof. intros H. campos_conformes H. Qed.

Lemma conforme_com_concluida s (t : tarefa) :
  conforme t → conforme (com_concluida s t).
Proof. intros H. unfold com_concluida. campos_conformes H. Qed.

Lemma conforme_acumular_item dur (item x : tarefa) :
  conforme item → acumular_item dur item = Ok x → conforme x.
Proof.
  intros H. unfold acumular_item, somar. destruct (num _); simpl; [|done].
  intros [= <-]. campos_conformes H.
Qed.

Lemma alternar_elem_bool (t : tarefa) (l l' : list tarefa) :
  alternar t l = Ok (Some l') →
  ∀ x, x ∈ l' → x ∈ l ∨ ∃ item b, item ∈ l ∧ x = <["concluida" := VBool b]> item.
Proof.
  revert l'. induction l as [|y l IH]; intros l'; simpl; [done|].
  destruct (getitem y "id") as [a|]; simpl; [|done].
  destruct (getitem t "id") as [b|]; simpl; [|done].
  destruct (py_eq a b).
  - intros [= <-] x Hx. apply elem_of_cons in Hx as [->|Hx].
    + right. eexists y, _. split; [by left|done].
    + left. by right.
  - destruct (alternar t l) as [[r|]|]; simpl; try done.
    intros [= <-] x Hx. apply elem_of_cons in Hx as [->|Hx]; [left; by left|].
    destruct (IH r eq_refl x Hx) as [?|(item & v & ? & ?)]; [left; by right|].
    right. exists item, v. split; [by right|done].
Qed.

Lemma conforme_alternado b (item : tarefa) :
  conforme item → conforme (<["concluida" := VBool b]> item).
Proof. intros H. campos_conformes H. Qed.

(** One step of a command that only talks to the terminal, on a conforming
    file. *)
Ltac passo_conforme :=
  first
    [ apply mantem_bind; [ solve [auto with terminal] | assumption | intros ? ]
    | apply mantem_terminal; [ solve [auto with terminal] | assumption ] ].

Lemma criar_conforme novo_id agora_dt d0 :
  arquivo_conforme d0 →
  mantem d0 arquivo_conforme (criar_tarefa_interativa novo_id agora_dt).
Proof.
  intros Hd0. unfold criar_tarefa_interativa.
  passo_conforme. case_bool_decide; [passo_conforme|].
  do 2 passo_conforme.
  apply mantem_bind_puro; [done|intros q Hq].
  passo_conforme. destruct (_ && _); [passo_conforme|].
  intros w Hw. executa. rewrite Hw. apply arquivo_conforme_Documento.
  apply Forall_app. split; [exact Hd0|].
  constructor; [by eapply conforme_nova|constructor].
Qed.

Lemma remover_vencidas_conforme notificar agora_dt d0 :
  arquivo_conforme d0 →
  mantem d0 arquivo_conforme (remover_vencidas notificar agora_dt).
Proof.
  intros Hd0 w Hw.
  destruct (decide (Forall (comparavel agora_dt) (colecao w))) as [Hl|Hl];
    [|rewrite remover_vencidas_TypeError by done; simpl; by rewrite Hw].
  destruct (remover_vencidas_disco notificar agora_dt w Hl) as [[_ ->]|(_ & -> & _)].
  - by rewrite Hw.
  - apply arquivo_conforme_Documento. apply Forall_forall. intros t Ht.
    apply list_elem_of_filter in Ht as [_ Ht]. unfold colecao in Ht. rewrite Hw in Ht.
    by eapply conforme_de_arquivo.
Qed.

Lemma editar_selecionada_conforme (t : tarefa) d0 :
  arquivo_conforme d0 → t ∈ conteudo d0 →
  mantem d0 arquivo_conforme (editar_selecionada t).
Proof.
  intros Hd0 Ht.
  assert (conforme t) as Hct by by eapply conforme_de_arquivo.
  unfold editar_selecionada.
  do 5 passo_conforme.
  apply mantem_bind_puro; [done|intros t3 Ht3].
  do 3 passo_conforme.
  intros w Hw. executa. rewrite Hw.
  destruct (substituir _ _) as [l'|e] eqn:Hsub; simpl; [|by rewrite Hw].
  apply arquivo_conforme_Documento. apply Forall_forall. intros x Hx.
  destruct (substituir_elem _ _ _ Hsub x Hx) as [Hin| ->].
  - by eapply conforme_de_arquivo.
  - apply conforme_com_concluida, conforme_com_prazo.
    eapply conforme_com_quantidade; [|exact Ht3].
    by apply conforme_com_descricao, conforme_com_titulo.
Qed.

Lemma excluir_selecionada_conforme (t : tarefa) d0 :
  arquivo_conforme d0 →
  mantem d0 arquivo_conforme (excluir_selecionada t).
Proof.
  intros Hd0. unfold excluir_selecionada.
  do 2 passo_conforme.
  destruct (afirmativa _); [|passo_conforme].
  intros w Hw. executa. rewrite Hw.
  destruct (sem_id _ _) as [l'|e] eqn:Hsub; simpl; [|by rewrite Hw].
  apply arquivo_conforme_Documento. apply Forall_forall. intros x Hx.
  apply (sem_id_Ok _ _ _ Hsub) in Hx. by eapply conforme_de_arquivo.
Qed.

Lemma marcar_selecionada_conforme (t : tarefa) d0 :
  arquivo_conforme d0 →
  mantem d0 arquivo_conforme (marcar_selecionada t).
Proof.
  intros Hd0. unfold marcar_selecionada.
  intros w Hw. executa. rewrite Hw.
  destruct (alternar _ _) as [[l'|]|e] eqn:Halt; simpl; [|by rewrite Hw..].
  apply arquivo_conforme_Documento. apply Forall_forall. intros x Hx.
  destruct (alternar_elem_bool _ _ _ Halt x Hx) as [Hin|(item & b & Hin & ->)].
  - by eapply conforme_de_arquivo.
  - apply conforme_alternado. by eapply conforme_de_arquivo.
Qed.

Lemma acumular_cronometro_conforme (t : tarefa) dur d0 :
  arquivo_conforme d0 →
  mantem d0 arquivo_conforme (acumular_cronometro t dur).
Proof.
  intros Hd0. unfold acumular_cronometro.
  intros w Hw. executa. rewrite Hw.
  destruct (acumular _ _ _) as [[l'|]|e] eqn:Hacc; simpl; [|by rewrite Hw..].
  apply arquivo_conforme_Documento. apply Forall_forall. intros x Hx.
  destruct (acumular_elem _ _ _ _ Hacc x Hx) as [Hin|(item & Hin & Hitem)].
  - by eapply conforme_de_arquivo.
  - eapply conforme_acumular_item; [|exact Hitem]. by eapply conforme_de_arquivo.
Qed.

Lemma com_selecao_geral prompt (corpo : tarefa → M unit) d0 (R : arquivo → Prop) :
  R d0 →
  (∀ t, t ∈ conteudo d0 → mantem d0 R (corpo t)) →
  mantem d0 R
    (seja sel <- selecionar_tarefa prompt em
     match sel with
     | Some t => if nada sel then ret tt else corpo t
     | None => ret tt
     end).
Proof.
  intros HR Hcorpo. apply mantem_apos_selecao; [done| |by apply mantem_ret].
  intros t Ht. destruct (nada (Some t)); [by apply mantem_ret|by apply Hcorpo].
Qed.

Lemma executar_conforme op d0 :
  arquivo_conforme d0 → mantem d0 arquivo_conforme (executar op).
Proof.
  intros Hd0. destruct op as [novo_id agora_dt| | | |notificar agora_dt|dur]; simpl.
  - by apply criar_conforme.
  - apply com_selecao_geral; [done|]. intros. by apply editar_selecionada_conforme.
  - apply com_selecao_geral; [done|]. intros. by apply excluir_selecionada_conforme.
  - apply com_selecao_geral; [done|]. intros. by apply marcar_selecionada_conforme.
  - by apply remover_vencidas_conforme.
  - unfold iniciar_cronometro.
    apply (com_selecao_geral _
             (λ t, print "Enter inicia | Enter para parar | q cancela";;;
                   seja x <- ler em
                   if bool_decide (lower (strip x) = "q") then ret tt
                   else ler;;; acumular_cronometro t dur)); [done|].
    intros t _. do 2 passo_conforme. case_bool_decide; [passo_conforme|].
    passo_conforme. by apply acumular_cronometro_conforme.
Qed.

(** X27. Every core operation (Create, Edit, Delete, Toggle-Complete, the
    sweep, the stopwatch), whatever is typed and however it ends, and the
    listing as well, leaves a collection of conforming records conforming:
    each record that loads afterwards still has the nine fields of the schema
    with the kinds of value the program stores in them. *)
Theorem operacoes_mantem_registros_conformes w :
  Forall conforme (colecao w) →
  (∀ op, Forall conforme (colecao (snd (executar op w)))) ∧
  (∀ agora_dt, Forall conforme (colecao (snd (listar_tarefas_interativo agora_dt w)))).
Proof.
  intros Hc. split.
  - intros op. by apply (executar_conforme op (disco w) Hc w).
  - intros agora_dt. unfold colecao.
    destruct (bind_terminal_depois (remover_vencidas true agora_dt)
                (λ _, seja tarefas <- carregar_tarefas em
                      match tarefas with
                      | [] => print "Nenhuma tarefa registrada."
                      | _ :: _ =>
                          imprimir (pendentes tarefas) "Pendentes";;;
                          imprimir (concluidas tarefas) "Concluídas"
                      end) w) as [Hd _].
    { intros _. so_no_terminal.
      match goal with |- context [match ?l with _ => _ end] => destruct l end;
        so_no_terminal.
      apply so_terminal_bind; [apply so_terminal_imprimir|intros _].
      apply so_terminal_imprimir. }
    unfold listar_tarefas_interativo. rewrite Hd.
    by apply (remover_vencidas_conforme true agora_dt (disco w) Hc w).
Qed.

End Conforme.

(** ** On conforming data only two exceptions are possible *)

Section Excecoes.
Context `{PT : PyTexto} `{PD : PyDatas}.
Context (E : excecao → Prop) (d0 : arquivo).

Lemma so_levanta_ret {A} (a : A) : so_levanta E d0 (ret a).
Proof. by intros w Hw. Qed.

Lemma so_levanta_print s : so_levanta E d0 (print s).
Proof. by intros w Hw. Qed.

Lemma so_levanta_puro {A} (r : res A) :
  (∀ e, r = Raise e → E e) → so_levanta E d0 (puro r).
Proof. intros H w Hw. unfold puro. simpl. destruct r; [done|]. by apply H. Qed.

Lemma so_levanta_ler : E EOFError → so_levanta E d0 ler.
Proof. intros H w Hw. unfold ler. by destruct (entrada w). Qed.

Lemma so_levanta_input s : E EOFError → so_levanta E d0 (input s).
Proof. intros H w Hw. unfold input. executa. by destruct (entrada w). Qed.

Lemma so_levanta_bind {A B} (c : M A) (k : A → M B) :
  so_terminal c → so_levanta E d0 c → (∀ a, so_levanta E d0 (k a)) →
  so_levanta E d0 (bind c k).
Proof.
  intros Hterm Hc Hk w Hw. unfold bind. specialize (Hc w Hw).
  destruct (Hterm w) as [Hd _].
  destruct (c w) as [[a|e] w1]; simpl in *; [|done].
  apply Hk. congruence.
Qed.

Lemma so_levanta_bind_puro {A B} (r : res A) (k : A → M B) :
  (∀ e, r = Raise e → E e) → (∀ a, r = Ok a → so_levanta E d0 (k a)) →
  so_levanta E d0 (bind (puro r) k).
Proof.
  intros Hr Hk w Hw. unfold bind, puro. destruct r as [a|e]; simpl.
  - by apply Hk.
  - by apply Hr.
Qed.

Lemma so_levanta_bind_carregar {B} (k : list tarefa → M B) :
  so_levanta E d0 (k (conteudo d0)) → so_levanta E d0 (bind carregar_tarefas k).
Proof.
  intros Hk w Hw. unfold bind, carregar_tarefas. rewrite Hw. by apply Hk.
Qed.

Lemma so_levanta_salvar_print l s : so_levanta E d0 (salvar_tarefas l;;; print s).
Proof. by intros w Hw. Qed.

Lemma so_levanta_para_cada {A} (f : A → M unit) (l : list A) :
  (∀ x, so_terminal (f x)) → Forall (λ x, so_levanta E d0 (f x)) l →
  so_levanta E d0 (para_cada f l).
Proof.
  intros Hterm. induction 1 as [|x l Hx _ IH]; simpl.
  - apply so_levanta_ret.
  - apply so_levanta_bind; [apply Hterm|done|done].
Qed.

(** *** The pure parts never raise on conforming records *)

Lemma rotulo_conforme (t : tarefa) : conforme t → ∃ s, rotulo t = Ok s.
Proof.
  intros ([s Hs] & [tit Ht] & _). unfold rotulo, getitem. rewrite Hs, Ht. simpl.
  by eexists.
Qed.

Lemma casa_conforme q (t : tarefa) : conforme t → ∃ b, casa q t = Ok b.
Proof.
  intros ([s Hs] & [tit Ht] & _). unfold casa, getitem. rewrite Hs. simpl.
  destruct (contido q s); [by eexists|]. rewrite Ht. simpl. by eexists.
Qed.

Lemma filtrar_conforme q (l : list tarefa) :
  Forall conforme l → ∃ r, filtrar q l = Ok r ∧ Forall conforme r.
Proof.
  induction 1 as [|t l Ht _ (r & Hr & Hcr)]; simpl; [by exists []|].
  destruct (casa_conforme q t Ht) as [b ->]. rewrite Hr. simpl.
  eexists. split; [done|]. destruct b; [by constructor|done].
Qed.

Lemma format_prazo_conforme (t : tarefa) :
  conforme t → ∃ s, format_prazo (get t "prazo") = Ok s.
Proof.
  intros (_ & _ & _ & _ & Hp & _). unfold format_prazo, get, get_ou.
  destruct Hp as [->|[s ->]]; simpl; [by eexists|].
  case_bool_decide; simpl; [by eexists|].
  destruct (fromisoformat s); by eexists.
Qed.

Lemma substituir_conforme (t : tarefa) (l : list tarefa) :
  conforme t → Forall conforme l → ∃ l', substituir t l = Ok l'.
Proof.
  intros ([s Hs] & _). induction 1 as [|x l ([sx Hx] & _) _ [l' IH]]; simpl.
  - by eexists.
  - unfold getitem. rewrite Hx, Hs. simpl. destruct (bool_decide _); [by eexists|].
    rewrite IH. by eexists.
Qed.

Lemma sem_id_conforme (t : tarefa) (l : list tarefa) :
  conforme t → Forall conforme l → ∃ l', sem_id t l = Ok l'.
Proof.
  intros ([s Hs] & _). induction 1 as [|x l ([sx Hx] & _) _ [l' IH]]; simpl.
  - by eexists.
  - unfold getitem. rewrite Hx, Hs. simpl. rewrite IH. by eexists.
Qed.

Lemma alternar_conforme (t : tarefa) (l : list tarefa) :
  conforme t → Forall conforme l → ∃ r, alternar t l = Ok r.
Proof.
  intros ([s Hs] & _). induction 1 as [|x l ([sx Hx] & _) _ [r IH]]; simpl.
  - by eexists.
  - unfold getitem. rewrite Hx, Hs. simpl. destruct (bool_decide _); [by eexists|].
    rewrite IH. by eexists.
Qed.

Lemma acumular_conforme (t : tarefa) dur (l : list tarefa) :
  conforme t → Forall conforme l → ∃ r, acumular t dur l = Ok r.
Proof.
  intros ([s Hs] & _). induction 1 as [|x l Hcx _ [r IH]]; simpl.
  - by eexists.
  - destruct Hcx as ([sx Hx] & _ & _ & _ & _ & _ & _ & _ & [n Hn]).
    unfold getitem. rewrite Hx, Hs. simpl. destruct (bool_decide _).
    + unfold acumular_item, somar, get_ou. rewrite lookup_insert_ne by done.
      rewrite Hn. simpl. by eexists.
    + rewrite IH. by eexists.
Qed.

End Excecoes.

Section ExcecoesDasOperacoes.
Context `{PT : PyTexto} `{PD : PyDatas}.

Lemma esperada_EOF : esperada EOFError.
Proof. by left. Qed.

(** One step of a command on the terminal that can only run out of input. *)
Ltac passo_esperado :=
  first
    [ apply so_levanta_bind;
      [ solve [auto with terminal]
      | first [ apply so_levanta_input; apply esperada_EOF
              | apply so_levanta_ler; apply esperada_EOF
              | apply so_levanta_print ]
      | intros ? ]
    | apply so_levanta_print
    | apply so_levanta_ret ].

Lemma enumerar_so_levanta Ex d0 i (l : list tarefa) :
  Forall conforme l → so_levanta Ex d0 (enumerar i l).
Proof.
  intros H. revert i. induction H as [|t l Ht _ IH]; intros i; simpl.
  - apply so_levanta_ret.
  - destruct (rotulo_conforme t Ht) as [s Hs].
    apply so_levanta_bind_puro; rewrite Hs; [done|intros a [= <-]].
    apply so_levanta_bind; [auto with terminal|apply so_levanta_print|intros _; apply IH].
Qed.

Lemma escolher_esperada idx (l : list tarefa) e :
  escolher idx l = Raise e → esperada e.
Proof.
  unfold escolher. destruct (isdigit idx); [|done].
  destruct (int_de idx); [by destruct (_ && _)|]. intros [= <-]. by right.
Qed.

Lemma selecionar_so_levanta prompt d0 :
  arquivo_conforme d0 → so_levanta esperada d0 (selecionar_tarefa prompt).
Proof.
  intros Hd0. unfold selecionar_tarefa. apply so_levanta_bind_carregar.
  passo_esperado. case_bool_decide; [passo_esperado|].
  destruct (filtrar_conforme (lower (strip a)) _ Hd0) as (enc & Hf & Hc).
  apply so_levanta_bind_puro; rewrite Hf; [done|intros ? [= <-]].
  destruct enc as [|t [|t2 enc]].
  - do 2 passo_esperado.
  - passo_esperado.
  - apply so_levanta_bind;
      [apply so_terminal_enumerar|by apply enumerar_so_levanta|intros _].
    passo_esperado. apply so_levanta_puro. apply escolher_esperada.
Qed.

Lemma so_levanta_apos_selecao {B} prompt d0 (k : option tarefa → M B) :
  arquivo_conforme d0 →
  (∀ t, t ∈ conteudo d0 → so_levanta esperada d0 (k (Some t))) →
  so_levanta esperada d0 (k None) →
  so_levanta esperada d0 (bind (selecionar_tarefa prompt) k).
Proof.
  intros Hd0 Hsome Hnone w Hw. unfold bind.
  pose proof (selecionar_so_levanta prompt d0 Hd0 w Hw) as Hexc.
  pose proof (so_terminal_selecionar prompt w) as [Hd _].
  destruct (selecionar_tarefa prompt w) as [[[t|]|e] w1] eqn:Hsel; simpl in *.
  - destruct (selecionar_tarefa_Some _ _ _ _ Hsel) as (_ & _ & Ht & _).
    apply Hsome; [|congruence]. unfold colecao in Ht. by rewrite Hw in Ht.
  - apply Hnone. congruence.
  - done.
Qed.

Lemma com_selecao_so_levanta prompt (corpo : tarefa → M unit) d0 :
  arquivo_conforme d0 →
  (∀ t, t ∈ conteudo d0 → so_levanta esperada d0 (corpo t)) →
  so_levanta esperada d0
    (seja sel <- selecionar_tarefa prompt em
     match sel with
     | Some t => if nada sel then ret tt else corpo t
     | None => ret tt
     end).
Proof.
  intros Hd0 Hcorpo. apply so_levanta_apos_selecao; [done| |apply so_levanta_ret].
  intros t Ht. destruct (nada (Some t)); [apply so_levanta_ret|by apply Hcorpo].
Qed.

Lemma quantidade_de_esperada s e : quantidade_de s = Raise e → esperada e.
Proof.
  unfold quantidade_de. destruct (isdigit s); [|done].
  destruct (int_de s); [done|]. intros [= <-]. by right.
Qed.

Lemma com_quantidade_esperada s (t : tarefa) e :
  com_quantidade s t = Raise e → esperada e.
Proof.
  unfold com_quantidade. case_bool_decide; [done|]. destruct (isdigit s); [|done].
  destruct (int_de s); [done|]. intros [= <-]. by right.
Qed.

Lemma criar_so_levanta novo_id agora_dt d0 :
  so_levanta esperada d0 (criar_tarefa_interativa novo_id agora_dt).
Proof.
  unfold criar_tarefa_interativa.
  passo_esperado. case_bool_decide; [passo_esperado|].
  do 2 passo_esperado.
  apply so_levanta_bind_puro; [apply quantidade_de_esperada|intros q _].
  passo_esperado. destruct (_ && _); [passo_esperado|].
  apply so_levanta_bind_carregar. apply so_levanta_salvar_print.
Qed.

Lemma remover_vencidas_Ok notificar agora_dt w :
  Forall conforme (colecao w) →
  Forall (comparavel agora_dt) (colecao w) →
  fst (remover_vencidas notificar agora_dt w) = Ok tt.
Proof.
  intros Hc Hl. destruct notificar.
  - apply varredura_Ok; [done|]. eapply Forall_impl; [exact Hc|]. apply rotulo_conforme.
  - unfold remover_vencidas. executa. fold (colecao w).
    rewrite separar_filter by done. by destruct (filter (prazo_vencido _) _).
Qed.

Lemma editar_selecionada_so_levanta (t : tarefa) d0 :
  arquivo_conforme d0 → t ∈ conteudo d0 →
  so_levanta esperada d0 (editar_selecionada t).
Proof.
  intros Hd0 Ht.
  assert (conforme t) as Hct by by eapply conforme_de_arquivo.
  unfold editar_selecionada. passo_esperado.
  pose proof Hct as (Hid & [tit Htit] & Hresto).
  apply so_levanta_bind_puro; unfold getitem; rewrite Htit; [done|intros ? [= <-]].
  do 3 passo_esperado.
  apply so_levanta_bind_puro; [apply com_quantidade_esperada|intros t3 Ht3].
  assert (conforme t3) as Hc3.
  { eapply conforme_com_quantidade; [|exact Ht3].
    by apply conforme_com_descricao, conforme_com_titulo. }
  destruct (format_prazo_conforme t3 Hc3) as [pz Hpz].
  apply so_levanta_bind_puro; rewrite Hpz; [done|intros ? [= <-]].
  do 2 passo_esperado.
  apply so_levanta_bind_carregar.
  match goal with |- context [substituir ?t' _] =>
    destruct (substituir_conforme t' (conteudo d0)) as [l' Hl'];
      [by apply conforme_com_concluida, conforme_com_prazo|exact Hd0|]
  end.
  apply so_levanta_bind_puro; rewrite Hl'; [done|intros ? [= <-]].
  apply so_levanta_salvar_print.
Qed.

Lemma excluir_selecionada_so_levanta (t : tarefa) d0 :
  arquivo_conforme d0 → t ∈ conteudo d0 →
  so_levanta esperada d0 (excluir_selecionada t).
Proof.
  intros Hd0 Ht.
  assert (conforme t) as Hct by by eapply conforme_de_arquivo.
  unfold excluir_selecionada.
  destruct (Hct) as (_ & [tit Htit] & _).
  apply so_levanta_bind_puro; unfold getitem; rewrite Htit; [done|intros ? [= <-]].
  passo_esperado. destruct (afirmativa _); [|passo_esperado].
  apply so_levanta_bind_carregar.
  destruct (sem_id_conforme t (conteudo d0) Hct Hd0) as [l' Hl'].
  apply so_levanta_bind_puro; rewrite Hl'; [done|intros ? [= <-]].
  apply so_levanta_salvar_print.
Qed.

Lemma marcar_selecionada_so_levanta (t : tarefa) d0 :
  arquivo_conforme d0 → t ∈ conteudo d0 →
  so_levanta esperada d0 (marcar_selecionada t).
Proof.
  intros Hd0 Ht.
  assert (conforme t) as Hct by by eapply conforme_de_arquivo.
  unfold marcar_selecionada. apply so_levanta_bind_carregar.
  destruct (alternar_conforme t (conteudo d0) Hct Hd0) as [r Hr].
  apply so_levanta_bind_puro; rewrite Hr; [done|intros ? [= <-]].
  destruct r; [apply so_levanta_salvar_print|apply so_levanta_ret].
Qed.

Lemma acumular_cronometro_so_levanta (t : tarefa) dur d0 :
  arquivo_conforme d0 → t ∈ conteudo d0 →
  so_levanta esperada d0 (acumular_cronometro t dur).
Proof.
  intros Hd0 Ht.
  assert (conforme t) as Hct by by eapply conforme_de_arquivo.
  unfold acumular_cronometro. apply so_levanta_bind_carregar.
  destruct (acumular_conforme t dur (conteudo d0) Hct Hd0) as [r Hr].
  apply so_levanta_bind_puro; rewrite Hr; [done|intros ? [= <-]].
  destruct r; [apply so_levanta_salvar_print|apply so_levanta_ret].
Qed.

(** X28. On a collection of conforming records no core operation raises
    [KeyError] or [AttributeError], and [TypeError] comes only from the
    sweep: Create, Edit, Delete, Toggle-Complete and the stopwatch return
    normally or raise [EOFError] (the input ran out) or [ValueError] (a digit
    string that [int] rejects); the sweep returns normally when every
    deadline can be compared with the clock and otherwise raises [TypeError]
    with the world unchanged. *)
Theorem excecoes_das_operacoes_em_registros_conformes op w :
  Forall conforme (colecao w) →
  match op with
  | Varrer notificar agora_dt =>
      (Forall (comparavel agora_dt) (colecao w) →
       fst (remover_vencidas notificar agora_dt w) = Ok tt) ∧
      (¬ Forall (comparavel agora_dt) (colecao w) →
       remover_vencidas notificar agora_dt w = (Raise TypeError, w))
  | _ =>
      match fst (executar op w) with
      | Ok _ => True
      | Raise e => e = EOFError ∨ e = ValueError
      end
  end.
Proof.
  intros Hc.
  destruct op as [novo_id agora_dt| | | |notificar agora_dt|dur];
    [| | | |split; [by apply remover_vencidas_Ok|apply remover_vencidas_TypeError]|].
  all: match goal with
       | |- match fst (executar ?op ?w0) with _ => _ end =>
           assert (so_levanta esperada (disco w0) (executar op)) as H;
           [|by apply (H w0)]
       end; simpl.
  - apply criar_so_levanta.
  - apply com_selecao_so_levanta; [done|]. intros. by apply editar_selecionada_so_levanta.
  - apply com_selecao_so_levanta; [done|]. intros. by apply excluir_selecionada_so_levanta.
  - apply com_selecao_so_levanta; [done|]. intros. by apply marcar_selecionada_so_levanta.
  - unfold iniciar_cronometro.
    apply (com_selecao_so_levanta _
             (λ t, print "Enter inicia | Enter para parar | q cancela";;;
                   seja x <- ler em
                   if bool_decide (lower (strip x) = "q") then ret tt
                   else ler;;; acumular_cronometro t dur)); [done|].
    intros t Ht. do 2 passo_esperado. case_bool_decide; [passo_esperado|].
    passo_esperado. by apply acumular_cronometro_so_levanta.
Qed.

Lemma imprimir_tarefa_nunca_levanta d0 (t : tarefa) :
  conforme t → so_levanta (λ _, False) d0 (imprimir_tarefa t).
Proof.
  intros Hct. unfold imprimir_tarefa.
  destruct (format_prazo_conforme t Hct) as [pz Hpz].
  apply so_levanta_bind_puro; rewrite Hpz; [done|intros ? [= <-]].
  destruct (rotulo_conforme t Hct) as [r Hr].
  apply so_levanta_bind_puro; rewrite Hr; [done|intros ? [= <-]].
  destruct Hct as (_ & _ & [d Hd] & _ & _ & _ & _ & [u Hu] & [tot Htot]).
  apply so_levanta_bind; [auto with terminal|apply so_levanta_print|intros _].
  apply so_levanta_bind.
  - unfold imprimir_descricao. destruct (truthy _); so_no_terminal.
  - unfold imprimir_descricao, getitem. rewrite Hd.
    destruct (truthy _); [|apply so_levanta_ret].
    apply so_levanta_bind_puro; [done|intros ? _]. apply so_levanta_print.
  - intros _. unfold imprimir_tempos, getitem, get_ou. rewrite Hu, Htot.
    destruct (truthy _); [|apply so_levanta_ret].
    apply so_levanta_bind_puro; [done|intros ? [= <-]].
    apply so_levanta_bind_puro; [done|intros ? _].
    apply so_levanta_bind_puro; [done|intros ? _].
    apply so_levanta_print.
Qed.

Lemma imprimir_nunca_levanta d0 (l : list tarefa) titulo :
  Forall conforme l → so_levanta (λ _, False) d0 (imprimir l titulo).
Proof.
  intros Hl. unfold imprimir.
  apply so_levanta_bind; [auto with terminal|apply so_levanta_print|intros _].
  apply so_levanta_para_cada; [apply so_terminal_imprimir_tarefa|].
  eapply Forall_impl; [exact Hl|]. intros t. apply imprimir_tarefa_nunca_levanta.
Qed.

(** X29. On a collection of conforming records the listing raises nothing
    but the [TypeError] of its sweep: when every deadline can be compared
    with the clock, the sweep, the two headers and every line of every task
    are produced and [listar_tarefas_interativo] returns normally; otherwise
    it raises [TypeError] before it has printed or written anything. *)
Theorem listar_so_levanta_pela_varredura agora_dt w :
  Forall conforme (colecao w) →
  (Forall (comparavel agora_dt) (colecao w) →
   fst (listar_tarefas_interativo agora_dt w) = Ok tt) ∧
  (¬ Forall (comparavel agora_dt) (colecao w) →
   listar_tarefas_interativo agora_dt w = (Raise TypeError, w)).
Proof.
  intros Hc. split.
  2:{ intros Hl. unfold listar_tarefas_interativo, bind at 1.
      by rewrite remover_vencidas_TypeError. }
  intros Hl. unfold listar_tarefas_interativo, bind at 1.
  pose proof (remover_vencidas_Ok true agora_dt w Hc Hl) as Hok.
  pose proof (remover_vencidas_conforme true agora_dt (disco w) Hc w eq_refl) as Hc1.
  destruct (remover_vencidas true agora_dt w) as [[[]|e] w1]; simpl in Hok, Hc1; [|done].
  assert (so_levanta (λ _, False) (disco w1)
            (seja tarefas <- carregar_tarefas em
             match tarefas with
             | [] => print "Nenhuma tarefa registrada."
             | _ :: _ =>
                 imprimir (pendentes tarefas) "Pendentes";;;
                 imprimir (concluidas tarefas) "Concluídas"
             end)) as H.
  { apply so_levanta_bind_carregar. unfold arquivo_conforme in Hc1.
    destruct (conteudo (disco w1)) as [|t l] eqn:Hcont; [apply so_levanta_print|].
    apply so_levanta_bind; [apply so_terminal_imprimir| |intros _].
    - apply imprimir_nunca_levanta. unfold pendentes.
      apply Forall_forall. intros x Hx. apply list_elem_of_filter in Hx as [_ Hx].
      revert x Hx. by apply Forall_forall.
    - apply imprimir_nunca_levanta. unfold concluidas.
      apply Forall_forall. intros x Hx. apply list_elem_of_filter in Hx as [_ Hx].
      revert x Hx. by apply Forall_forall. }
  specialize (H w1 eq_refl).
  match goal with |- fst ?r = _ => destruct r as [[[]|e] w2] end; simpl in *; done.
Qed.

End ExcecoesDasOperacoes.

(** ** Worked examples

    The theorems above, run on concrete tasks with the reference
    implementation of the library functions. *)

Section Casos.
Import Exemplos.

(** C1. The deadline "2020-01-01T00:00:00+00:00" is one that
    [fromisoformat] accepts, so the [try] of lines 124-127 lets it through;
    the comparison of line 129 with the clock, which carries no offset,
    raises [TypeError].  The sweep in mid 2021 of a file that holds "Buy
    milk", expired since 2020, and a record with that deadline raises before
    it saves: "Buy milk" is still in the collection, where the claim expects
    it to be removed. *)
Theorem C1_prazo_com_fuso_levanta_TypeError :
  fromisoformat "2020-01-01T00:00:00+00:00" =
    Some (Ref.DataHora 2020 1 1 0 0 0 (Some 0)) ∧
  prazo_vencido meio_2021 t_leite ∧
  remover_vencidas true meio_2021 (w_fuso []) = (Raise TypeError, w_fuso []) ∧
  t_leite ∈ colecao (snd (remover_vencidas true meio_2021 (w_fuso []))).
Proof. repeat split; calcula. Qed.

(** A record with the deprecated field comes back without it and with its
    title. *)
Lemma C3_ida_e_volta_exemplo :
  ∃ (l : list tarefa) (t' : tarefa),
    salvar_e_carregar [t_antiga] (mundo_inicial Ausente []) = Ok l ∧
    l !! 0%nat = Some t' ∧ t' !! "tipo" = None ∧
    t' !! "titulo" = Some (VStr "Write report").
Proof.
  destruct (C3_ida_e_volta_remove_so_tipo [t_antiga] (mundo_inicial Ausente []))
    as (l & Hl & _ & Hcampos).
  destruct (Hcampos 0%nat t_antiga eq_refl) as (t' & Ht' & Htipo & Houtros).
  exists l, t'. split; [exact Hl|]. split; [exact Ht'|]. split; [exact Htipo|].
  rewrite Houtros; [calcula|discriminate].
Defined.

(** In mid 2019 nothing has expired: the sweep changes nothing, also when
    it raises on a deadline that carries an offset. *)
Lemma C8_varredura_sem_vencidas_exemplo :
  (∀ t, t ∈ colecao (w_dois []) → ¬ prazo_vencido meio_2019 t) ∧
  remover_vencidas true meio_2019 (w_dois []) = (Ok tt, w_dois []) ∧
  (∀ t, t ∈ colecao (w_fuso []) → ¬ prazo_vencido meio_2019 t) ∧
  remover_vencidas true meio_2019 (w_fuso []) = (Raise TypeError, w_fuso []).
Proof.
  assert (∀ t, t ∈ colecao (w_dois []) → ¬ prazo_vencido meio_2019 t) as H.
  { apply Forall_forall. calcula. }
  assert (∀ t, t ∈ colecao (w_fuso []) → ¬ prazo_vencido meio_2019 t) as H'.
  { apply Forall_forall. calcula. }
  split; [exact H|]. split; [|split; [exact H'|]].
  - apply (proj1 (proj2 (C8_varredura_sem_vencidas_nao_grava true meio_2019
                           (w_dois []) H))).
    calcula.
  - apply (proj2 (proj2 (C8_varredura_sem_vencidas_nao_grava true meio_2019
                           (w_fuso []) H'))).
    calcula.
Defined.

(** A blank title, and a deadline that is not a date. *)
Lemma C5_criar_valida_exemplo :
  criar_tarefa_interativa "9c9c9c9c-2222" meio_2019 (w_dois ["   "]) =
    (Ok tt, Mundo (Documento [t_leite; t_relatorio]) []
              ["Título: "; "Título é obrigatório."] 0) ∧
  criar_tarefa_interativa "9c9c9c9c-2222" meio_2019
      (w_dois ["Pay rent"; ""; "2"; "tomorrow"]) =
    (Ok tt, Mundo (Documento [t_leite; t_relatorio]) []
              ["Título: "; "Descrição (opcional): "; "Quantidade (opcional): ";
               "Prazo (%Y-%m-%d %H:%M) ou Enter para nenhum: ";
               "Formato de data inválido."] 0).
Proof.
  split.
  - apply (proj1 (C5_criar_valida_titulo_e_prazo "9c9c9c9c-2222" meio_2019
                    (w_dois ["   "])) "   " []); reflexivity.
  - apply (proj2 (C5_criar_valida_titulo_e_prazo "9c9c9c9c-2222" meio_2019
                    (w_dois ["Pay rent"; ""; "2"; "tomorrow"]))
             "Pay rent" "" "2" "tomorrow" [] (VInt 2));
      (reflexivity || calcula).
Defined.

(** "Write report" is selected; every field answer is empty and the
    completion answer is "Sim". *)
Lemma C7_editar_exemplo :
  ∃ (t' : tarefa) l w',
    editar_tarefa_interativa (w_dois ["report"; ""; ""; ""; ""; "Sim"]) = (Ok tt, w') ∧
    disco w' = Documento l ∧ t' ∈ l ∧ gravacoes w' = 1%nat ∧
    t' !! "titulo" = Some (VStr "Write report") ∧
    t' !! "quantidade" = Some (VInt 3) ∧
    t' !! "prazo" = Some VNone ∧
    t' !! "concluida" = Some (VBool true).
Proof.
  destruct (C7_editar_mantem_campos_vazios_e_define_concluida
              (w_dois ["report"; ""; ""; ""; ""; "Sim"])
              (w_selecionada [""; ""; ""; ""; "Sim"])
              t_relatorio "" "" "" "" "Sim" [])
    as (t' & antes & item & depois & falas & _ & _ & _ & _ & Hrun & H1 & _ & H3 & H4 & b & Hc & Hb).
  - calcula.
  - reflexivity.
  - eexists. reflexivity.
  - exists "—". calcula.
  - calcula.
  - exists t'. eexists. eexists. split; [exact Hrun|]. simpl.
    split; [reflexivity|]. split; [apply elem_of_app; right; left|].
    split; [reflexivity|].
    assert (b = true) as -> by (apply Hb; right; calcula).
    rewrite (H1 eq_refl), (H3 eq_refl), (H4 eq_refl).
    repeat split; try exact Hc; calcula.
Defined.


(** Scenario 7 of the specification: sessions of 125 and 10 seconds on
    "Write report". *)
Lemma C4_cronometro_exemplo :
  (∃ w' (item' : tarefa),
     acumular_cronometro t_relatorio 125 (w_dois []) = (Ok tt, w') ∧
     colecao w' = [t_leite; item'] ∧
     item' !! "ultimo_tempo_seg" = Some (VInt 125) ∧
     item' !! "total_tempo_seg" = Some (VInt 125)) ∧
  (∃ w' (item' : tarefa),
     sessoes t_relatorio [125; 10] (w_dois []) = (Ok tt, w') ∧
     colecao w' = [t_leite; item'] ∧
     item' !! "ultimo_tempo_seg" = Some (VInt 10) ∧
     item' !! "total_tempo_seg" = Some (VInt 135)).
Proof.
  destruct (C4_cronometro_acumula t_relatorio (VStr "7e8f9a0b-1111") (w_dois [])
              [t_leite] t_relatorio [] 0) as [Huma Hvarias].
  - calcula.
  - calcula.
  - constructor; [|constructor]. eexists. split; calcula.
  - eexists. split; calcula.
  - calcula.
  - split.
    + destruct (Huma 125) as (w' & item' & Hrun & Hl & Hult & Htot & _).
      exists w', item'. repeat split; assumption.
    + destruct (Hvarias [125; 10]) as (w' & item' & Hrun & Hl & Htot & Hult & _).
      exists w', item'. repeat split; try assumption. by apply Hult.
Defined.

(** "Buy milk" was selected and has been swept away since. *)
Lemma C2_id_ausente_exemplo :
  id_ausente t_leite (w_sem_leite [""; ""; ""; ""; ""]) ∧
  marcar_selecionada t_leite (w_sem_leite [""; ""; ""; ""; ""]) =
    (Ok tt, w_sem_leite [""; ""; ""; ""; ""]) ∧
  editar_selecionada t_leite (w_sem_leite [""; ""; ""; ""; ""]) =
    (Ok tt, Mundo (Documento [t_relatorio]) []
              ["Deixe em branco para manter."; "Título [Buy milk]: ";
               "Descrição []: "; "Quantidade [None]: ";
               "Prazo [2020-01-01 00:00]: "; "Marcar como concluída? (s/N): ";
               "Tarefa atualizada."] 1) ∧
  excluir_selecionada t_leite (w_sem_leite ["s"]) =
    (Ok tt, Mundo (Documento [t_relatorio]) []
              ["Excluir [Buy milk]? (s/N): "; "Tarefa excluída."] 1).
Proof.
  assert (∀ linhas, id_ausente t_leite (w_sem_leite linhas)) as Haus.
  { intros linhas. exists (VStr "0a1b2c3d-0000"). split; [calcula|].
    constructor; [|constructor]. eexists. split; calcula. }
  split; [apply Haus|].
  destruct (C2_id_ausente_na_recarga t_leite (w_sem_leite [""; ""; ""; ""; ""])
              (Haus _)) as (Hmarcar & Heditar & _ & _).
  destruct (C2_id_ausente_na_recarga t_leite (w_sem_leite ["s"])
              (Haus _)) as (_ & _ & Hexcluir & _).
  split; [exact Hmarcar|]. split.
  - rewrite (Heditar "" "" "" "" "" [] (com_concluida "" t_leite)
               (VStr "Buy milk") "2020-01-01 00:00"); calcula.
  - rewrite (Hexcluir "s" [] (VStr "Buy milk")); calcula.
Defined.

(** A session of 125 seconds from the menu: the total goes from 0 to 125. *)
Lemma C6_total_exemplo :
  ∃ d : tarefa,
    d ∈ colecao (snd (executar (Cronometrar 125) (w_dois ["report"; ""; ""]))) ∧
    t_relatorio !! "id" = d !! "id" ∧
    total d = VInt 125 ∧
    nao_diminui t_relatorio d.
Proof.
  exists (com_sessao 0 125 t_relatorio).
  assert (com_sessao 0 125 t_relatorio
            ∈ colecao (snd (executar (Cronometrar 125) (w_dois ["report"; ""; ""]))))
    as Hd.
  { calcula. }
  split; [exact Hd|]. split; [calcula|].
  split; [calcula|].
  apply (C6_total_nunca_diminui (Cronometrar 125) (w_dois ["report"; ""; ""])
           t_relatorio (com_sessao 0 125 t_relatorio)).
  - calcula.
  - simpl. lia.
  - calcula.
  - exact Hd.
  - calcula.
Defined.

(** C3, as stated, fails: a record with the field [nota], which the
    schema does not know, comes back from save-then-load with that field
    still in place. *)
Lemma C3_campo_desconhecido_sobrevive :
  ("nota" ∉ campos_esquema) ∧
  t_extra !! "nota" = Some (VStr "x") ∧
  salvar_e_carregar [t_extra] (mundo_inicial Ausente []) = Ok [t_extra].
Proof.
  split; [|split].
  - calcula.
  - calcula.
  - calcula.
Qed.

(** The deprecated field, in contrast, is dropped. *)
Example ida_e_volta_remove_tipo :
  salvar_e_carregar [t_antiga] (mundo_inicial Ausente []) = Ok [t_relatorio].
Proof. calcula. Qed.

(** C2, as stated, fails: "Buy milk" was selected, the sweep removed it,
    and Edit and Delete still call save and report success; Toggle-Complete
    prints nothing at all. *)
Lemma C2_editar_e_excluir_gravam_sem_encontrar :
  id_ausente t_leite (w_sem_leite [""; ""; ""; ""; ""]) ∧
  editar_selecionada t_leite (w_sem_leite [""; ""; ""; ""; ""]) =
    (Ok tt, Mundo (Documento [t_relatorio]) []
              ["Deixe em branco para manter."; "Título [Buy milk]: ";
               "Descrição []: "; "Quantidade [None]: ";
               "Prazo [2020-01-01 00:00]: "; "Marcar como concluída? (s/N): ";
               "Tarefa atualizada."] 1) ∧
  excluir_selecionada t_leite (w_sem_leite ["s"]) =
    (Ok tt, Mundo (Documento [t_relatorio]) []
              ["Excluir [Buy milk]? (s/N): "; "Tarefa excluída."] 1) ∧
  marcar_selecionada t_leite (w_sem_leite []) = (Ok tt, w_sem_leite []).
Proof.
  split; [|split; [|split]]; try (calcula).
  exists (VStr "0a1b2c3d-0000"). split; [calcula|].
  constructor; [|constructor]. eexists. split; calcula.
Qed.

(** C10. The quantity answer "²" (U+00B2, superscript two) passes
    [isdigit] and is rejected by [int]: Edit raises [ValueError] at the
    quantity question, asks nothing more and saves nothing, where the claim
    expects the quantity to be set (to a number or to unset). *)
Theorem C10_quantidade_sobrescrito_levanta_ValueError :
  isdigit "²" = true ∧ int_de "²" = None ∧
  editar_tarefa_interativa (w_dois ["report"; ""; ""; "²"; ""; ""]) =
    (Raise ValueError,
     Mundo (Documento [t_leite; t_relatorio]) [""; ""]
       ["ID ou parte do título: "; "Deixe em branco para manter.";
        "Título [Write report]: "; "Descrição []: "; "Quantidade [3]: "] 0).
Proof. repeat split; calcula. Qed.

(** The other answers to the quantity question behave as the claim says. *)
Example quantidade_digitos :
  ∃ t' : tarefa,
    disco (snd (editar_tarefa_interativa (w_dois ["report"; ""; ""; "12"; ""; ""])))
      = Documento [t_leite; t'] ∧
    t' !! "quantidade" = Some (VInt 12).
Proof. exists (<["quantidade" := VInt 12]> t_relatorio). split; calcula. Qed.

Example quantidade_nao_numerica :
  ∃ t' : tarefa,
    disco (snd (editar_tarefa_interativa (w_dois ["report"; ""; ""; "many"; ""; ""])))
      = Documento [t_leite; t'] ∧
    t' !! "quantidade" = Some VNone.
Proof. exists (<["quantidade" := VNone]> t_relatorio). split; calcula. Qed.

(** Scenario 6 of the specification: create "Buy milk" with a deadline in
    2020, then sweep in 2021. *)
Example cenario_criar_e_varrer :
  let w1 := snd (criar_tarefa_interativa "0a1b2c3d-0000" (Ref.DataHora 2019 12 1 9 30 0 None)
                   (mundo_inicial (Documento []) ["Buy milk"; ""; ""; "2020-01-01 00:00"])) in
  disco w1 = Documento [t_leite] ∧
  remover_vencidas true meio_2021 w1 =
    (Ok tt, Mundo (Documento []) []
              ["Título: "; "Descrição (opcional): "; "Quantidade (opcional): ";
               "Prazo (%Y-%m-%d %H:%M) ou Enter para nenhum: ";
               "Tarefa criada: 0a1b2c3d";
               "[AUTO] Removida por prazo vencido: [0a1b2c3d] Buy milk"] 2).
Proof. split; calcula. Qed.

(** Property 8 of the specification: toggling twice gives back the
    original completion status. *)
Example alternar_duas_vezes :
  let w1 := snd (marcar_tarefa (w_dois ["report"])) in
  let w2 := snd (marcar_tarefa (Mundo (disco w1) ["report"] [] 0)) in
  colecao w1 = [t_leite; <["concluida" := VBool true]> t_relatorio] ∧
  colecao w2 = [t_leite; t_relatorio].
Proof. split; calcula. Qed.

End Casos.

(** ** More worked examples *)

Section CasosMais.
Import Exemplos ExemplosMais.

Lemma conforme_leite : conforme t_leite.
Proof. apply (conforme_nova _ _ _ ""). calcula. Qed.

Lemma conforme_relatorio : conforme t_relatorio.
Proof. apply (conforme_nova _ _ _ "3"). calcula. Qed.

Lemma conforme_dois linhas : Forall conforme (colecao (w_dois linhas)).
Proof.
  assert (colecao (w_dois linhas) = [t_leite; t_relatorio]) as ->
    by (calcula).
  constructor; [apply conforme_leite|].
  constructor; [apply conforme_relatorio|constructor].
Qed.

Lemma vencidas_em_2021 linhas :
  filter (prazo_vencido meio_2021) (colecao (w_dois linhas)) = [t_leite].
Proof. calcula. Qed.

Lemma conforme_fuso linhas : Forall conforme (colecao (w_fuso linhas)).
Proof.
  assert (colecao (w_fuso linhas) = [t_leite; t_fuso]) as -> by calcula.
  constructor; [apply conforme_leite|].
  constructor; [|constructor].
  apply conforme_prazo_texto, conforme_relatorio.
Qed.

(** In mid 2021 the deadline of "Buy milk" has passed: the sweep leaves
    "Write report" alone in the collection.  With a deadline that carries an
    offset in the file, the sweep raises and leaves both tasks. *)
Lemma varredura_exemplo :
  colecao (snd (remover_vencidas true meio_2021 (w_dois []))) = [t_relatorio] ∧
  (t_leite ∉ colecao (snd (remover_vencidas true meio_2021 (w_dois [])))) ∧
  t_relatorio ∈ colecao (snd (remover_vencidas true meio_2021 (w_dois []))) ∧
  remover_vencidas true meio_2021 (w_fuso []) = (Raise TypeError, w_fuso []).
Proof.
  destruct (varredura_remove_exatamente_as_vencidas true meio_2021 (w_dois []))
    as [Hcomp _].
  destruct Hcomp as (Hfiltro & Hfora & Hdentro); [calcula|].
  destruct (varredura_remove_exatamente_as_vencidas true meio_2021 (w_fuso []))
    as [_ Hfuso].
  split; [|split; [|split]].
  - rewrite Hfiltro. calcula.
  - apply Hfora. calcula.
  - apply Hdentro; calcula.
  - apply Hfuso. calcula.
Defined.

(** The sweep of mid 2021, twice. *)
Lemma varredura_idempotente_exemplo :
  remover_vencidas true meio_2021 (snd (remover_vencidas true meio_2021 (w_dois []))) =
    (Ok tt, snd (remover_vencidas true meio_2021 (w_dois []))) ∧
  remover_vencidas true meio_2021 (snd (remover_vencidas true meio_2021 (w_fuso []))) =
    (Raise TypeError, snd (remover_vencidas true meio_2021 (w_fuso []))).
Proof.
  split.
  - apply (proj1 (proj2 (varredura_idempotente true true meio_2021 (w_dois [])))).
    calcula.
  - apply (proj2 (proj2 (varredura_idempotente true true meio_2021 (w_fuso [])))).
    calcula.
Defined.

(** In mid 2021 the sweep removes "Buy milk" and says so. *)
Lemma varredura_avisa_exemplo :
  remover_vencidas true meio_2021 (w_dois []) =
    (Ok tt, Mundo (Documento [t_relatorio]) []
              ["[AUTO] Removida por prazo vencido: [0a1b2c3d] Buy milk"] 1).
Proof.
  rewrite (varredura_avisa_cada_remocao meio_2021 (w_dois [])).
  - calcula.
  - calcula.
  - rewrite vencidas_em_2021. discriminate.
  - rewrite vencidas_em_2021. constructor; [|constructor].
    eexists _, _. split; calcula.
Defined.

(** A round of the checker in mid 2019 and one in mid 2021; with a
    deadline that carries an offset in the file, the first round raises. *)
Lemma rodadas_exemplo :
  fst (rodadas_do_checador [meio_2019; meio_2021] (w_dois [])) = Ok tt ∧
  colecao (snd (rodadas_do_checador [meio_2019; meio_2021] (w_dois []))) =
    [t_relatorio] ∧
  rodadas_do_checador [meio_2019; meio_2021] (w_fuso []) =
    (Raise TypeError, w_fuso []).
Proof.
  destruct (rodadas_do_checador_como_uma [meio_2019] meio_2021 (w_dois []))
    as [Hrodadas _].
  destruct (rodadas_do_checador_como_uma [meio_2021] meio_2021 (w_fuso []))
    as [_ Hlevanta].
  destruct Hrodadas as [Hok Hcol].
  - eapply Forall_impl; [apply conforme_dois|]. apply rotulo_conforme.
  - calcula.
  - constructor; [|constructor]. intros [a m d h n s [f|]]; [done|].
    unfold meio_2019, meio_2021.
    cbn. intros [= H]. f_equal. revert H.
    rewrite !orb_true_iff, !andb_true_iff, !Z.ltb_lt, !Z.eqb_eq. lia.
  - split; [exact Hok|]. split; [etrans; [exact Hcol|]; calcula|].
    apply Hlevanta. calcula.
Defined.

(** A new task with a quantity and a deadline in 2030. *)
Lemma criar_exemplo :
  ∃ nova : tarefa,
    colecao (snd (criar_tarefa_interativa "9c9c9c9c-2222" meio_2019
                    (w_dois ["Pay rent"; "by friday"; "2"; "2030-01-31 18:00"]))) =
      [t_leite; t_relatorio; nova] ∧
    nova !! "titulo" = Some (VStr "Pay rent") ∧
    nova !! "prazo" = Some (VStr "2030-01-31T18:00:00").
Proof.
  destruct (criar_acrescenta_ao_fim "9c9c9c9c-2222" meio_2019
              (w_dois ["Pay rent"; "by friday"; "2"; "2030-01-31 18:00"])
              "Pay rent" "by friday" "2" "2030-01-31 18:00" [] (VInt 2))
    as [_ Hcol].
  - reflexivity.
  - calcula.
  - calcula.
  - right. eexists. reflexivity.
  - eexists. rewrite Hcol. split; [reflexivity|]. split; calcula.
Defined.

(** Create "Pay rent", then delete it again. *)
Lemma criar_depois_excluir_exemplo :
  let w := w_dois ["Pay rent"; ""; ""; ""; "sim"] in
  let nova := nova_tarefa "9c9c9c9c-2222" "Pay rent" "" VNone None meio_2019 in
  colecao (snd (excluir_selecionada nova
                  (snd (criar_tarefa_interativa "9c9c9c9c-2222" meio_2019 w)))) =
    [t_leite; t_relatorio].
Proof.
  intros w nova.
  destruct (criar_depois_excluir_restaura "9c9c9c9c-2222" meio_2019 w
              "Pay rent" "" "" "" "sim" [] VNone)
    as (_ & _ & Hcol & _).
  - reflexivity.
  - calcula.
  - calcula.
  - left. calcula.
  - calcula.
  - eapply Forall_impl; [apply conforme_dois|]. by intros t (Hid & _).
  - calcula.
  - exact Hcol.
Defined.

(** "Buy milk" is created with a deadline at the start of 2020 and the
    sweep comes in mid 2021: the new record is removed again.  Created
    without a deadline, it stays. *)
Lemma criar_depois_varrer_exemplo :
  colecao (snd (remover_vencidas true meio_2021
                  (snd (criar_tarefa_interativa "0a1b2c3d-0000" meio_2019
                          (w_sem_leite ["Buy milk"; ""; ""; "2020-01-01 00:00"]))))) =
    [t_relatorio] ∧
  colecao (snd (remover_vencidas true meio_2021
                  (snd (criar_tarefa_interativa "0a1b2c3d-0000" meio_2019
                          (w_sem_leite ["Buy milk"; ""; ""; ""]))))) =
    [t_relatorio; nova_tarefa "0a1b2c3d-0000" "Buy milk" "" VNone None meio_2019].
Proof.
  split.
  - destruct (criar_depois_varrer_remove_pelo_prazo "0a1b2c3d-0000" meio_2019 true
                meio_2021 (w_sem_leite ["Buy milk"; ""; ""; "2020-01-01 00:00"])
                "Buy milk" "" "" "2020-01-01 00:00" [] VNone) as [_ Hprazo];
      [reflexivity|calcula|calcula|calcula|].
    destruct (Hprazo inicio_2020 true) as [_ Hcol]; [calcula..|].
    etrans; [exact Hcol|]. calcula.
  - destruct (criar_depois_varrer_remove_pelo_prazo "0a1b2c3d-0000" meio_2019 true
                meio_2021 (w_sem_leite ["Buy milk"; ""; ""; ""])
                "Buy milk" "" "" "" [] VNone) as [Hsem _];
      [reflexivity|calcula|calcula|calcula|].
    destruct Hsem as [_ Hcol]; [calcula|].
    etrans; [exact Hcol|]. calcula.
Defined.

(** The query "MILK " selects "Buy milk". *)
Lemma selecao_corresponde_exemplo :
  ∃ x resto,
    entrada (w_dois ["MILK "]) = x :: resto ∧ lower (strip x) ≠ "" ∧
    t_leite ∈ colecao (w_dois ["MILK "]) ∧ corresponde (lower (strip x)) t_leite.
Proof.
  apply (selecao_devolve_tarefa_que_corresponde PROMPT_SELECAO (w_dois ["MILK "])
           (w_selecionada []) t_leite).
  calcula.
Defined.

(** A record without id blocks every selection. *)
Lemma selecao_levanta_exemplo :
  ∃ e, (e = KeyError "id" ∨ e = KeyError "titulo" ∨ e = TypeError ∨
        e = AttributeError) ∧
       selecionar_tarefa PROMPT_SELECAO
         (mundo_inicial (Documento [t_leite; t_sem_id]) ["milk"]) =
         (Raise e, Mundo (Documento [t_leite; t_sem_id]) []
                     ["ID ou parte do título: "] 0).
Proof.
  apply (selecao_levanta_sem_id_texto PROMPT_SELECAO
           (mundo_inicial (Documento [t_leite; t_sem_id]) ["milk"]) "milk" []).
  - reflexivity.
  - calcula.
  - apply Exists_cons_tl, Exists_cons_hd. left. calcula.
Defined.

(** A blank query, a query nobody matches, a query one task matches. *)
Lemma selecao_sem_escolha_exemplo :
  selecionar_tarefa PROMPT_SELECAO (w_dois ["  "]) =
    (Ok None, Mundo (Documento [t_leite; t_relatorio]) []
                ["ID ou parte do título: "] 0) ∧
  selecionar_tarefa PROMPT_SELECAO (w_dois ["taxes"]) =
    (Ok None, Mundo (Documento [t_leite; t_relatorio]) []
                ["ID ou parte do título: "; "Nenhuma tarefa encontrada."] 0) ∧
  selecionar_tarefa PROMPT_SELECAO (w_dois ["report"]) =
    (Ok (Some t_relatorio), Mundo (Documento [t_leite; t_relatorio]) []
                ["ID ou parte do título: "] 0).
Proof.
  assert (∀ q t b, casa q t = Ok b → b = false → ¬ corresponde q t) as Hnao.
  { intros q t b Hc -> Hcor. by apply (casa_corresponde q t false Hc) in Hcor. }
  split; [|split].
  - apply (proj1 (selecao_sem_escolha PROMPT_SELECAO (w_dois ["  "]) "  " [] eq_refl)).
    calcula.
  - apply (proj1 (proj2 (selecao_sem_escolha PROMPT_SELECAO (w_dois ["taxes"])
                           "taxes" [] eq_refl))).
    + calcula.
    + repeat constructor; eexists; calcula.
    + repeat constructor; eapply Hnao; calcula.
  - apply (proj2 (proj2 (selecao_sem_escolha PROMPT_SELECAO (w_dois ["report"])
                           "report" [] eq_refl)) [t_leite] t_relatorio []).
    + calcula.
    + repeat constructor; eexists; calcula.
    + calcula.
    + repeat constructor; eapply Hnao; calcula.
    + apply (casa_corresponde "report" t_relatorio true); calcula.
    + constructor.
Defined.

(** Choice "2" of two matches, and choice "3" of two. *)
Lemma escolha_numerada_exemplo :
  escolher "2" [t_leite; t_relatorio] = Ok (Some t_relatorio) ∧
  escolher "3" [t_leite; t_relatorio] = Ok None.
Proof.
  split.
  - destruct (proj1 (escolha_numerada_dentro_dos_limites "2" [t_leite; t_relatorio]) 2)
      as (t & Hrun & Ht); [reflexivity|reflexivity|simpl; lia|].
    rewrite Hrun. rewrite <- Ht. reflexivity.
  - apply (proj1 (proj2 (escolha_numerada_dentro_dos_limites "3" [t_leite; t_relatorio])) 3);
      [reflexivity|reflexivity|simpl; lia].
Defined.

(** "Write report" gets a new title and a deadline; the quantity and the
    counters stay. *)
Lemma editar_campos_exemplo :
  ∃ (t' : tarefa) l w',
    editar_tarefa_interativa
      (w_dois ["report"; " Weekly report "; ""; ""; "2030-01-31 18:00"; ""]) = (Ok tt, w') ∧
    disco w' = Documento l ∧ t' ∈ l ∧
    t' !! "titulo" = Some (VStr "Weekly report") ∧
    t' !! "prazo" = Some (VStr "2030-01-31T18:00:00") ∧
    t' !! "id" = Some (VStr "7e8f9a0b-1111") ∧
    t' !! "total_tempo_seg" = Some (VInt 0).
Proof.
  destruct (editar_so_muda_os_campos_perguntados
              (w_dois ["report"; " Weekly report "; ""; ""; "2030-01-31 18:00"; ""])
              (w_selecionada [" Weekly report "; ""; ""; "2030-01-31 18:00"; ""])
              t_relatorio " Weekly report " "" "" "2030-01-31 18:00" "" [])
    as (t' & antes & item & depois & falas & _ & _ & _ & Hrun & Hfora & H1 & _ & H4).
  - calcula.
  - reflexivity.
  - eexists. reflexivity.
  - exists "—". calcula.
  - calcula.
  - exists t'. eexists. eexists. split; [exact Hrun|]. simpl.
    split; [reflexivity|]. split; [apply elem_of_app; right; left|].
    split; [rewrite H1; [calcula|calcula]|].
    split.
    { rewrite (H4 (Ref.DataHora 2030 1 31 18 0 0 None));
        [calcula|calcula|calcula]. }
    split; (rewrite Hfora by discriminate; calcula).
Defined.

(** Two answers only: the edit stops and the file is as before. *)
Lemma editar_interrompida_exemplo :
  disco (snd (editar_selecionada t_relatorio (w_dois ["New title"; ""]))) =
    Documento [t_leite; t_relatorio] ∧
  gravacoes (snd (editar_selecionada t_relatorio (w_dois ["New title"; ""]))) = 0%nat.
Proof.
  apply (editar_interrompida_nao_grava t_relatorio (w_dois ["New title"; ""])).
  simpl. lia.
Defined.

(** "Buy milk" is selected and the deletion confirmed. *)
Lemma excluir_exemplo :
  excluir_tarefa_interativa (w_dois ["milk"; "s"]) =
    (Ok tt, Mundo (Documento [t_relatorio]) []
              ["ID ou parte do título: "; "Excluir [Buy milk]? (s/N): ";
               "Tarefa excluída."] 1).
Proof.
  destruct (excluir_remove_as_do_mesmo_id (w_dois ["milk"; "s"]) (w_selecionada ["s"])
              t_leite "s" [] (VStr "Buy milk")) as (Hrun & _ & _).
  - calcula.
  - reflexivity.
  - calcula.
  - calcula.
  - rewrite Hrun. calcula.
Defined.

(** "Buy milk" is selected and the deletion refused. *)
Lemma excluir_sem_confirmacao_exemplo :
  excluir_tarefa_interativa (w_dois ["milk"; "n"]) =
    (Ok tt, Mundo (Documento [t_leite; t_relatorio]) []
              ["ID ou parte do título: "; "Excluir [Buy milk]? (s/N): "] 0).
Proof.
  rewrite (excluir_sem_confirmacao_nao_grava (w_dois ["milk"; "n"])
             (w_selecionada ["n"]) t_leite "n" [] (VStr "Buy milk"));
    calcula.
Defined.

(** "Write report" is selected and marked as completed. *)
Lemma marcar_exemplo :
  ∃ l, marcar_tarefa (w_dois ["report"]) =
         (Ok tt, Mundo (Documento l) [] ["ID ou parte do título: "; "Estado alterado."] 1).
Proof.
  destruct (marcar_tarefa_so_inverte_concluida (w_dois ["report"]) (w_selecionada [])
              t_relatorio)
    as (antes & item & depois & b & _ & _ & _ & _ & Hrun & _).
  - calcula.
  - eexists. exact Hrun.
Defined.

(** Two toggles of "Write report". *)
Lemma marcar_duas_vezes_exemplo :
  colecao (snd (marcar_selecionada t_relatorio
                  (snd (marcar_selecionada t_relatorio (w_dois []))))) =
    [t_leite; t_relatorio].
Proof.
  destruct (marcar_duas_vezes_restaura t_relatorio (VStr "7e8f9a0b-1111") (w_dois [])
              [t_leite] t_relatorio [] false) as (_ & Hcol & _).
  - calcula.
  - calcula.
  - constructor; [|constructor]. eexists. split; calcula.
  - eexists. split; calcula.
  - calcula.
  - etrans; [exact Hcol|]. calcula.
Defined.

(** The stopwatch is stopped after "Buy milk" has been swept away. *)
Lemma cronometro_sem_tarefa_exemplo :
  acumular_cronometro t_leite 125 (w_sem_leite []) = (Ok tt, w_sem_leite []).
Proof.
  apply (cronometro_sem_tarefa_nao_faz_nada t_leite 125 (w_sem_leite [])).
  exists (VStr "0a1b2c3d-0000"). split; [calcula|].
  constructor; [|constructor]. eexists. split; calcula.
Defined.

(** The stopwatch cancelled with "Q". *)
Lemma cronometro_cancelado_exemplo :
  iniciar_cronometro 125 (w_dois ["report"; "Q"]) =
    (Ok tt, Mundo (Documento [t_leite; t_relatorio]) []
              ["Tarefa a cronometrar: "; "Enter inicia | Enter para parar | q cancela"]
              0).
Proof.
  rewrite (cronometro_cancelado_nao_grava 125 (w_dois ["report"; "Q"])
             (w_cronometro ["Q"]) t_relatorio "Q" []);
    calcula.
Defined.

(** A record without the total counts from 0; a record whose total is null
    makes the stopwatch raise. *)
Lemma cronometro_total_exemplo :
  (∃ w', acumular_cronometro t_sem_total 125
           (mundo_inicial (Documento [t_sem_total]) []) = (Ok tt, w') ∧
         colecao w' = [com_sessao 0 125 t_sem_total]) ∧
  acumular_cronometro t_total_nulo 125 (mundo_inicial (Documento [t_total_nulo]) []) =
    (Raise TypeError, mundo_inicial (Documento [t_total_nulo]) []).
Proof.
  split.
  - destruct (proj1 (cronometro_total_ausente_ou_nao_numerico t_sem_total
                       (VStr "7e8f9a0b-1111")
                       (mundo_inicial (Documento [t_sem_total]) [])
                       [] t_sem_total [] 125
                       ltac:(calcula) ltac:(calcula)
                       ltac:(constructor)
                       ltac:(eexists; split; calcula)) 0)
      as (w' & Hrun & Hcol & _); [calcula|].
    exists w'. split; [exact Hrun|exact Hcol].
  - apply (proj2 (cronometro_total_ausente_ou_nao_numerico t_total_nulo
                    (VStr "7e8f9a0b-1111")
                    (mundo_inicial (Documento [t_total_nulo]) [])
                    [] t_total_nulo [] 125
                    ltac:(calcula) ltac:(calcula)
                    ltac:(constructor)
                    ltac:(eexists; split; calcula))).
    calcula.
Defined.

(** A session of 125 seconds on "Write report", from the menu. *)
Lemma iniciar_cronometro_exemplo :
  ∃ antes depois,
    [t_leite; t_relatorio] = antes ++ t_relatorio :: depois ∧
    iniciar_cronometro 125 (w_dois ["report"; ""; ""]) =
      (Ok tt, Mundo (Documento (antes ++ com_sessao 0 125 t_relatorio :: depois)) []
                ["Tarefa a cronometrar: "; "Enter inicia | Enter para parar | q cancela";
                 "Cronômetro salvo: 2m5s"] 1).
Proof.
  destruct (iniciar_cronometro_registra_sessao 125 (w_dois ["report"; ""; ""])
              (w_cronometro [""; ""]) t_relatorio "" "" [] 0)
    as (antes & depois & Hcol & Hrun).
  - calcula.
  - reflexivity.
  - calcula.
  - calcula.
  - calcula.
  - exists antes, depois. split; [exact Hcol|exact Hrun].
Defined.

(** Listing with a file that cannot be parsed. *)
Lemma listar_sem_tarefas_exemplo :
  listar_tarefas_interativo meio_2021 (mundo_inicial Ilegivel []) =
    (Ok tt, Mundo Ilegivel [] ["Nenhuma tarefa registrada."] 0).
Proof.
  apply (listar_sem_tarefas meio_2021 (mundo_inicial Ilegivel [])).
  right. left. reflexivity.
Defined.

(** Start-up without a file, and with a file that cannot be parsed. *)
Lemma iniciar_programa_exemplo :
  disco (snd (iniciar_programa (mundo_inicial Ausente []))) = Documento [] ∧
  disco (snd (iniciar_programa (mundo_inicial Ilegivel []))) = Ilegivel.
Proof.
  destruct (iniciar_programa_nao_altera_colecao (mundo_inicial Ausente []))
    as (_ & _ & _ & _ & Hnovo & _).
  destruct (iniciar_programa_nao_altera_colecao (mundo_inicial Ilegivel []))
    as (_ & _ & _ & Hvelho & _).
  split.
  - apply Hnovo. reflexivity.
  - apply Hvelho. discriminate.
Defined.

(** After a session from the menu and after a listing the two records
    still conform. *)
Lemma operacoes_conformes_exemplo :
  Forall conforme
    (colecao (snd (executar (Cronometrar 125) (w_dois ["report"; ""; ""])))) ∧
  Forall conforme (colecao (snd (listar_tarefas_interativo meio_2021 (w_dois [])))).
Proof.
  destruct (operacoes_mantem_registros_conformes (w_dois ["report"; ""; ""])
              (conforme_dois _)) as [Hop _].
  destruct (operacoes_mantem_registros_conformes (w_dois []) (conforme_dois _))
    as [_ Hlistar].
  split; [apply Hop|apply Hlistar].
Defined.

(** An edit whose input runs out raises [EOFError], which is one of the
    two exceptions allowed; the sweep of a conforming file raises
    [TypeError] on the deadline that carries an offset. *)
Lemma operacoes_excecoes_exemplo :
  fst (executar Editar (w_dois ["report"; "x"])) = Raise EOFError ∧
  match fst (executar Editar (w_dois ["report"; "x"])) with
  | Ok _ => True
  | Raise e => e = EOFError ∨ e = ValueError
  end ∧
  fst (remover_vencidas true meio_2021 (w_dois [])) = Ok tt ∧
  remover_vencidas true meio_2021 (w_fuso []) = (Raise TypeError, w_fuso []).
Proof.
  split; [calcula|]. split; [|split].
  - apply (excecoes_das_operacoes_em_registros_conformes Editar
             (w_dois ["report"; "x"]) (conforme_dois _)).
  - apply (proj1 (excecoes_das_operacoes_em_registros_conformes
                    (Varrer true meio_2021) (w_dois []) (conforme_dois _))).
    calcula.
  - apply (proj2 (excecoes_das_operacoes_em_registros_conformes
                    (Varrer true meio_2021) (w_fuso []) (conforme_fuso _))).
    calcula.
Defined.

(** The listing of the two tasks in mid 2019 returns normally; the listing
    of a file with a deadline that carries an offset raises. *)
Lemma listar_exemplo :
  fst (listar_tarefas_interativo meio_2019 (w_dois [])) = Ok tt ∧
  saida (snd (listar_tarefas_interativo meio_2019 (w_dois []))) =
    [NL +:+ "--- Pendentes (2) ---";
     "[0a1b2c3d] Buy milk | qtd:— | prazo:2020-01-01 00:00";
     "[7e8f9a0b] Write report | qtd:3 | prazo:—";
     NL +:+ "--- Concluídas (0) ---"] ∧
  listar_tarefas_interativo meio_2019 (w_fuso []) = (Raise TypeError, w_fuso []).
Proof.
  split; [|split].
  - apply (proj1 (listar_so_levanta_pela_varredura meio_2019 (w_dois [])
                    (conforme_dois _))).
    calcula.
  - calcula.
  - apply (proj2 (listar_so_levanta_pela_varredura meio_2019 (w_fuso [])
                    (conforme_fuso _))).
    calcula.
Defined.

End CasosMais.
